(** * Expense tracker: a shallow embedding of [Expense_Tracker.py]

    The record store of the expense tracker ([class ExpenseTracker]) and
    the date parser ([parse_date]) are embedded as executable Rocq
    functions.  The store is the list [self.expenses]; every method
    becomes a function from the store to the new store and the returned
    value, and a Python exception that escapes a method is the result
    [None].

    Conventions of the embedding:
    - Python [str] values are modelled by [string] and restricted to the
      ASCII range: [lower], [strip] and the digit classes below are the
      ASCII restrictions of the Python methods.
    - Python [int] is [Z]; the conversions [str] and [int] between
      numbers and texts apply the interpreter's limit of 4300 digits.
    - Python [float] is IEEE 754 binary64, here the primitive [float].
    - [datetime] values are naive (no time zone); [strftime] writes the
      year as the C library of Linux does, without padding.
    - Writing the file ([_save]) is input/output and is not part of the
      state; the state is [self.expenses]. *)

From Stdlib Require Import ZArith Ascii String Floats.PrimFloat Uint63 Decimal DecimalString DecimalPos
  Sorting.Sorted.
From stdpp Require Import base option list gmap strings sorting.

Local Open Scope string_scope.
Local Open Scope Z_scope.

(** ** Text: the ASCII fragment of Python's [str] methods *)

Module PyStr.

(** [str.isspace] on ASCII: TAB, LF, VT, FF, CR, FS, GS, RS, US and SPACE. *)
Definition is_space (c : ascii) : bool :=
  let n := N_of_ascii c in
  ((9 <=? n) && (n <=? 13) || (28 <=? n) && (n <=? 32))%N.

Definition is_digit (c : ascii) : bool :=
  let n := N_of_ascii c in ((48 <=? n) && (n <=? 57))%N.

Definition digit_val (c : ascii) : option Z :=
  if is_digit c then Some (Z.of_N (N_of_ascii c) - 48) else None.

Definition lower_char (c : ascii) : ascii :=
  let n := N_of_ascii c in
  if ((65 <=? n) && (n <=? 90))%N then ascii_of_N (n + 32) else c.

(** [s.lower()] *)
Fixpoint lower (s : string) : string :=
  match s with
  | EmptyString => EmptyString
  | String c r => String (lower_char c) (lower r)
  end.

Fixpoint lstrip (s : string) : string :=
  match s with
  | EmptyString => EmptyString
  | String c r => if is_space c then lstrip r else s
  end.

Fixpoint rstrip (s : string) : string :=
  match s with
  | EmptyString => EmptyString
  | String c r =>
      match rstrip r with
      | EmptyString => if is_space c then EmptyString else String c EmptyString
      | r' => String c r'
      end
  end.

(** [s.strip()] *)
Definition strip (s : string) : string := rstrip (lstrip s).

(** The white space that [int] and [float] skip at both ends of an
    ASCII text: that of C's [isspace], TAB, LF, VT, FF, CR and SPACE
    (the separators FS, GS, RS and US are no white space there). *)
Definition is_c_space (c : ascii) : bool :=
  let n := N_of_ascii c in
  ((9 <=? n) && (n <=? 13) || (n =? 32))%N.

Fixpoint lstrip_by (p : ascii → bool) (s : string) : string :=
  match s with
  | EmptyString => EmptyString
  | String c r => if p c then lstrip_by p r else s
  end.

Fixpoint rstrip_by (p : ascii → bool) (s : string) : string :=
  match s with
  | EmptyString => EmptyString
  | String c r =>
      match rstrip_by p r with
      | EmptyString => if p c then EmptyString else String c EmptyString
      | r' => String c r'
      end
  end.

Definition strip_c (s : string) : string :=
  rstrip_by is_c_space (lstrip_by is_c_space s).

(** The number of decimal digits in a text, and the largest number of
    digits that [int] reads and [str] writes
    ([sys.int_info.default_max_str_digits]). *)
Fixpoint digit_count (s : string) : Z :=
  match s with
  | EmptyString => 0
  | String c r => (if is_digit c then 1 else 0) + digit_count r
  end.

Definition max_str_digits : Z := 4300.

(** The decimal digits of an [int] literal after its first digit:
    [digit (["_"] digit)*], most significant digit first. *)
Fixpoint int_digits (acc : Z) (s : string) : option Z :=
  match s with
  | EmptyString => Some acc
  | String c r =>
      match digit_val c with
      | Some d => int_digits (10 * acc + d) r
      | None =>
          if Ascii.eqb c "_" then
            match r with
            | String c' r' =>
                match digit_val c' with
                | Some d => int_digits (10 * acc + d) r'
                | None => None
                end
            | EmptyString => None
            end
          else None
      end
  end.

Definition int_body (s : string) : option Z :=
  match s with
  | String c r =>
      match digit_val c with
      | Some d => int_digits d r
      | None => None
      end
  | EmptyString => None
  end.

(** The digits of a literal, refused when they are more than
    [max_str_digits]. *)
Definition int_limited (s : string) : option Z :=
  if max_str_digits <? digit_count s then None else int_body s.

(** [int(s)] for a string [s], base 10: surrounding white space, an
    optional sign, digits with single underscores between them, at most
    [max_str_digits] digits.  [None] is [ValueError]. *)
Definition int (s : string) : option Z :=
  match strip_c s with
  | String "+" r => int_limited r
  | String "-" r => Z.opp <$> int_limited r
  | t => int_limited t
  end.

(** The text after the digits and underscores that follow a digit. *)
Fixpoint after_digits (s : string) : string :=
  match s with
  | String c r =>
      if is_digit c then after_digits r
      else if Ascii.eqb c "_" then
        match r with
        | String c' r' => if is_digit c' then after_digits r' else s
        | EmptyString => s
        end
      else s
  | EmptyString => EmptyString
  end.

(** [digitpart ::= digit (["_"] digit)*]: the text after it. *)
Definition digitpart (s : string) : option string :=
  match s with
  | String c r => if is_digit c then Some (after_digits r) else None
  | EmptyString => None
  end.

(** [number ::= [digitpart] "." digitpart | digitpart ["."]] *)
Definition number (s : string) : option string :=
  match digitpart s with
  | Some (String "." r) =>
      match digitpart r with
      | Some r' => Some r'
      | None => Some r
      end
  | Some r => Some r
  | None =>
      match s with
      | String "." r => digitpart r
      | _ => None
      end
  end.

Definition skip_sign (s : string) : string :=
  match s with
  | String "+" r => r
  | String "-" r => r
  | _ => s
  end.

(** [exponent ::= ("e" | "E") [sign] digitpart], up to the end. *)
Definition exponent_to_end (s : string) : bool :=
  match s with
  | EmptyString => true
  | String c r =>
      Ascii.eqb (lower_char c) "e" &&
      match digitpart (skip_sign r) with
      | Some EmptyString => true
      | _ => false
      end
  end.

(** Whether [float(s)] accepts the string [s]: surrounding white space,
    an optional sign, then [inf], [infinity] or [nan] in any case, or a
    decimal number with an optional exponent. *)
Definition float_syntax (s : string) : bool :=
  let t := skip_sign (strip_c s) in
  bool_decide (lower t ∈ ["inf"; "infinity"; "nan"]) ||
  match number t with
  | Some r => exponent_to_end r
  | None => false
  end.

(** The decimal text of an integer. *)
Definition decimal (n : Z) : string := NilZero.string_of_int (Z.to_int n).

(** [str(n)] for an [int] [n]; [None] is the [ValueError] of a number
    of more than [max_str_digits] digits. *)
Definition str (n : Z) : option string :=
  let s := decimal n in
  if max_str_digits <? digit_count s then None else Some s.

(** Two digits, zero padded: the [%m] and [%d] of [strftime]. *)
Definition digit_char (n : Z) : ascii := ascii_of_N (Z.to_N (48 + n mod 10)).

Definition pad2 (n : Z) : string :=
  String (digit_char (n / 10)) (String (digit_char n) EmptyString).

Definition pad4 (n : Z) : string :=
  String (digit_char (n / 1000)) (String (digit_char (n / 100)) (pad2 n)).

(** The [%Y] of [strftime] with the C library of Linux: the year of a
    [datetime], 1 to 9999, in decimal and not padded. *)
Definition year_text (y : Z) : string :=
  if y <? 10 then String (digit_char y) EmptyString
  else if y <? 100 then pad2 y
  else if y <? 1000 then String (digit_char (y / 100)) (pad2 y)
  else pad4 y.

End PyStr.

(** ** [datetime]: naive calendar time stamps *)

Record datetime := mk_datetime {
  year : Z; month : Z; day : Z;
  hour : Z; minute : Z; second : Z; microsecond : Z
}.

Definition dt_fields (d : datetime) : list Z :=
  [year d; month d; day d; hour d; minute d; second d; microsecond d].

Fixpoint lex_compare (a b : list Z) : comparison :=
  match a, b with
  | [], [] => Eq
  | [], _ :: _ => Lt
  | _ :: _, [] => Gt
  | x :: a', y :: b' =>
      match Z.compare x y with
      | Eq => lex_compare a' b'
      | c => c
      end
  end.

(** [a < b] and [a > b] on [datetime]: field by field, year first. *)
Definition dt_compare (a b : datetime) : comparison :=
  lex_compare (dt_fields a) (dt_fields b).

Definition dt_ltb (a b : datetime) : bool :=
  match dt_compare a b with Lt => true | _ => false end.

Definition dt_gtb (a b : datetime) : bool :=
  match dt_compare a b with Gt => true | _ => false end.

Definition dt_leb (a b : datetime) : bool :=
  match dt_compare a b with Gt => false | _ => true end.

Definition is_leap (y : Z) : bool :=
  (y mod 4 =? 0) && (negb (y mod 100 =? 0) || (y mod 400 =? 0)).

Definition days_in_month (y m : Z) : Z :=
  if m =? 2 then (if is_leap y then 29 else 28)
  else if (m =? 4) || (m =? 6) || (m =? 9) || (m =? 11) then 30
  else 31.

(** The range check of the [datetime] constructor on a calendar date. *)
Definition valid_date (y m d : Z) : bool :=
  (1 <=? y) && (y <=? 9999) && (1 <=? m) && (m <=? 12) &&
  (1 <=? d) && (d <=? days_in_month y m).

(** ** [strptime] and [strftime] for the directives [%Y], [%m], [%d]

    [datetime.strptime] turns the format into a regular expression, one
    group per directive, matches it against the start of the text with
    backtracking, refuses text that is left over, and then builds the
    date.  The groups are those of CPython's [_strptime]:
    [%d] is [3[0-1]|[1-2]\d|0[1-9]|[1-9]| [1-9]],
    [%m] is [1[0-2]|0[1-9]|[1-9]] and [%Y] is [\d\d\d\d]. *)

Module Strptime.

Inductive directive := DY | Dm | Dd | Lit (c : ascii).

(** The directives of a format string. *)
Fixpoint compile (fmt : string) : list directive :=
  match fmt with
  | String "%" (String "Y" r) => DY :: compile r
  | String "%" (String "m" r) => Dm :: compile r
  | String "%" (String "d" r) => Dd :: compile r
  | String c r => Lit c :: compile r
  | EmptyString => []
  end.

Definition is_char (a c : ascii) : bool := Ascii.eqb a c.

Definition in_range (lo hi c : ascii) : bool :=
  ((N_of_ascii lo <=? N_of_ascii c) && (N_of_ascii c <=? N_of_ascii hi))%N.

(** The value of one character of a group under [int]: a blank counts
    for nothing. *)
Definition cv (c : ascii) : Z := default 0 (PyStr.digit_val c).

(** The matches of a one-character and of a two-character alternative
    at the start of [s]: value and remaining text. *)
Definition seq1 (p : ascii → bool) (s : string) : list (Z * string) :=
  match s with
  | String a r => if p a then [(cv a, r)] else []
  | _ => []
  end.

Definition seq2 (p1 p2 : ascii → bool) (s : string) : list (Z * string) :=
  match s with
  | String a (String b r) => if p1 a && p2 b then [(10 * cv a + cv b, r)] else []
  | _ => []
  end.

(** The matches of each group, in the order of its alternatives. *)
Definition re_d (s : string) : list (Z * string) :=
  seq2 (is_char "3") (in_range "0" "1") s ++
  seq2 (in_range "1" "2") PyStr.is_digit s ++
  seq2 (is_char "0") (in_range "1" "9") s ++
  seq1 (in_range "1" "9") s ++
  seq2 (is_char " ") (in_range "1" "9") s.

Definition re_m (s : string) : list (Z * string) :=
  seq2 (is_char "1") (in_range "0" "2") s ++
  seq2 (is_char "0") (in_range "1" "9") s ++
  seq1 (in_range "1" "9") s.

Definition re_Y (s : string) : list (Z * string) :=
  match s with
  | String a (String b (String c (String d r))) =>
      if PyStr.is_digit a && PyStr.is_digit b && PyStr.is_digit c && PyStr.is_digit d
      then [(1000 * cv a + 100 * cv b + 10 * cv c + cv d, r)] else []
  | _ => []
  end.

(** The groups found so far: year, month, day. *)
Definition groups : Type := Z * Z * Z.

Definition first_some {A B} (f : A → option B) (l : list A) : option B :=
  foldr (λ a r, match f a with Some b => Some b | None => r end) None l.

(** The first match of the whole pattern, trying the alternatives of
    each group in order: the groups and the text after the match. *)
Fixpoint re_match (fmt : list directive) (s : string) (g : groups)
  : option (groups * string) :=
  match fmt with
  | [] => Some (g, s)
  | Lit c :: fmt' =>
      match s with
      | String a r => if Ascii.eqb a c then re_match fmt' r g else None
      | EmptyString => None
      end
  | DY :: fmt' =>
      first_some (λ '(v, r), re_match fmt' r (v, g.1.2, g.2)) (re_Y s)
  | Dm :: fmt' =>
      first_some (λ '(v, r), re_match fmt' r (g.1.1, v, g.2)) (re_m s)
  | Dd :: fmt' =>
      first_some (λ '(v, r), re_match fmt' r (g.1.1, g.1.2, v)) (re_d s)
  end.

(** [datetime.strptime(text, fmt)]; [None] is [ValueError]. *)
Definition strptime (text fmt : string) : option datetime :=
  match re_match (compile fmt) text (1900, 1, 1) with
  | Some ((y, m, d), EmptyString) =>
      if valid_date y m d then Some (mk_datetime y m d 0 0 0 0) else None
  | _ => None
  end.

Definition emit (d : datetime) (x : directive) : string :=
  match x with
  | DY => PyStr.year_text (year d)
  | Dm => PyStr.pad2 (month d)
  | Dd => PyStr.pad2 (day d)
  | Lit c => String c EmptyString
  end.

(** [d.strftime(fmt)], as the C library of Linux writes it: month and
    day on two digits, the year not padded. *)
Definition strftime (d : datetime) (fmt : string) : string :=
  foldr (λ x r, emit d x ++ r) EmptyString (compile fmt).

End Strptime.

(** ** [parse_date] *)

Section ParseDate.

(** [datetime.fromisoformat], the last resort of [parse_date]; [None] is
    any exception it raises.  Its grammar depends on the Python version
    and is left open. *)
Variable fromisoformat : string → option datetime.

(** [parse_date(text)], where [now] is what [datetime.today()] returns
    at the call.  [None] is the [ValueError] of the last line. *)
Definition parse_date (now : datetime) (text : string) : option datetime :=
  let text := PyStr.strip text in
  if bool_decide (text = "") || bool_decide (PyStr.lower text ∈ ["today"; "t"])
  then Some now
  else
    match
      Strptime.first_some (λ fmt, Strptime.strptime text fmt)
        ["%Y-%m-%d"; "%d-%m-%Y"; "%d/%m/%Y"]
    with
    | Some d => Some d
    | None =>
        (* last resort: try iso parse *)
        match fromisoformat text with
        | Some d => Some d
        | None => None
        end
    end.

End ParseDate.

(** ** The record store *)

(** One expense: the dictionary with the keys [id], [amount],
    [category], [date] and [note]. *)
Record expense := mk_expense {
  exp_id : string;
  exp_amount : float;
  exp_category : string;
  exp_date : string;
  exp_note : string
}.

(** [self.expenses] *)
Abbreviation store := (list expense).

(** [sorted(l, key=lambda x: x["date"], reverse=True)]: the sort is
    stable, so records with the same date keep their order. *)
Fixpoint insert_desc (x : expense) (l : list expense) : list expense :=
  match l with
  | [] => [x]
  | y :: r =>
      if String.ltb (exp_date x) (exp_date y) then y :: insert_desc x r
      else x :: l
  end.

Definition sorted_desc (l : list expense) : list expense :=
  foldr insert_desc [] l.

(** [max] of a non-empty sequence of integers. *)
Definition max_list (x : Z) (l : list Z) : Z := foldl Z.max x l.

(** [_next_id]; [None] is the [ValueError] of [int] on an [id] that is
    not an integer literal. *)
Definition _next_id (expenses : store) : option Z :=
  match expenses with
  | [] => Some 1
  | _ =>
      match mapM (λ e, PyStr.int (exp_id e)) expenses with
      | Some (n :: ns) => Some (max_list n ns + 1)
      | _ => None
      end
  end.

(** [add_expense]: the new store and the created record; [None] is the
    [ValueError] of [_next_id] or of [str]. *)
Definition add_expense (expenses : store) (amount : float) (category : string)
    (date : datetime) (note : string) : option (store * expense) :=
  n ← _next_id expenses;
  id ← PyStr.str n;
  let expense :=
    {| exp_id := id;
       exp_amount := amount;
       exp_category := PyStr.strip category;
       exp_date := Strptime.strftime date "%Y-%m-%d";
       exp_note := PyStr.strip note |} in
  Some ((expenses ++ [expense])%list, expense).

(** The slice [l[:n]]. *)
Definition slice_to {A} (n : Z) (l : list A) : list A :=
  if 0 <=? n then take (Z.to_nat n) l
  else take (Z.to_nat (Z.of_nat (length l) + n)) l.

(** [list_expenses]; a limit that is [None] or [0] is false in the
    conditional expression. *)
Definition list_expenses (expenses : store) (limit : option Z) : list expense :=
  let sorted_list := sorted_desc expenses in
  match limit with
  | Some n => if n =? 0 then sorted_list else slice_to n sorted_list
  | None => sorted_list
  end.

(** [find_by_id]: the first record with the id, with its position in
    the list, which stands for the reference to the dictionary. *)
Fixpoint find_from (i : nat) (expenses : store) (id_str : string)
  : option (nat * expense) :=
  match expenses with
  | [] => None
  | e :: r =>
      if String.eqb (exp_id e) id_str then Some (i, e)
      else find_from (S i) r id_str
  end.

Definition find_by_id (expenses : store) (id_str : string) : option (nat * expense) :=
  find_from 0 expenses id_str.

(** [==] on two record dictionaries: key by key, floats by IEEE
    equality. *)
Definition dict_eqb (a b : expense) : bool :=
  String.eqb (exp_id a) (exp_id b) && PrimFloat.eqb (exp_amount a) (exp_amount b) &&
  String.eqb (exp_category a) (exp_category b) && String.eqb (exp_date a) (exp_date b) &&
  String.eqb (exp_note a) (exp_note b).

(** [l.remove(e)] for the dictionary [e] at position [i]: the first
    element that is [e] itself or equal to it goes; [None] is the
    [ValueError] of a list without such an element. *)
Fixpoint remove_from (j : nat) (l : store) (i : nat) (e : expense) : option store :=
  match l with
  | [] => None
  | x :: r =>
      if Nat.eqb j i || dict_eqb x e then Some r
      else cons x <$> remove_from (S j) r i e
  end.

Definition list_remove (l : store) (i : nat) (e : expense) : option store :=
  remove_from 0 l i e.

(** [delete_expense]: the new store and the returned boolean. *)
Definition delete_expense (expenses : store) (id_str : string) : option (store * bool) :=
  match find_by_id expenses id_str with
  | None => Some (expenses, false)
  | Some (i, e) =>
      expenses' ← list_remove expenses i e;
      Some (expenses', true)
  end.

Definition set_amount (a : float) (e : expense) : expense :=
  mk_expense (exp_id e) a (exp_category e) (exp_date e) (exp_note e).
Definition set_category (c : string) (e : expense) : expense :=
  mk_expense (exp_id e) (exp_amount e) c (exp_date e) (exp_note e).
Definition set_date (d : string) (e : expense) : expense :=
  mk_expense (exp_id e) (exp_amount e) (exp_category e) d (exp_note e).
Definition set_note (n : string) (e : expense) : expense :=
  mk_expense (exp_id e) (exp_amount e) (exp_category e) (exp_date e) n.

(** An assignment guarded by [if x is not None]. *)
Definition when_given {A B} (x : option A) (f : A → B → B) (b : B) : B :=
  match x with Some a => f a b | None => b end.

(** [edit_expense]: the dictionary found is updated in place. *)
Definition edit_expense (expenses : store) (id_str : string) (amount : option float)
    (category : option string) (date : option datetime) (note : option string)
  : store * bool :=
  match find_by_id expenses id_str with
  | None => (expenses, false)
  | Some (i, e) =>
      let e := when_given amount set_amount e in
      let e := when_given category set_category e in
      let e := when_given date (λ d, set_date (Strptime.strftime d "%Y-%m-%d")) e in
      let e := when_given note set_note e in
      (<[i := e]> expenses, true)
  end.

(** The loop of [filter_expenses]; [res] is the list built so far and
    [None] is the [ValueError] of [strptime] on a stored date. *)
Fixpoint filter_loop (expenses : store) (category : option string)
    (start end_ : option datetime) (res : list expense) : option (list expense) :=
  match expenses with
  | [] => Some res
  | e :: rest =>
      ed ← Strptime.strptime (exp_date e) "%Y-%m-%d";
      if match category with
         | Some c => negb (String.eqb c "") &&
                     negb (String.eqb (PyStr.lower (exp_category e)) (PyStr.lower c))
         | None => false
         end
      then filter_loop rest category start end_ res
      else if match start with Some s => dt_ltb ed s | None => false end
      then filter_loop rest category start end_ res
      else if match end_ with Some s => dt_gtb ed s | None => false end
      then filter_loop rest category start end_ res
      else filter_loop rest category start end_ (res ++ [e])%list
  end.

Definition filter_expenses (expenses : store) (category : option string)
    (start end_ : option datetime) : option (list expense) :=
  res ← filter_loop expenses category start end_ [];
  Some (sorted_desc res).

(** [summary_by_category]: a dictionary from category to amount. *)
Definition summary_step (summary : gmap string float) (e : expense) : gmap string float :=
  <[exp_category e := PrimFloat.add (default 0%float (summary !! exp_category e)) (exp_amount e)]>
    summary.

Definition summary_by_category (expenses : store) (start end_ : option datetime)
  : option (gmap string float) :=
  selected ← filter_expenses expenses None start end_;
  Some (foldl summary_step ∅ selected).

Section Total.

(** The builtin [sum] on a sequence of floats (plain left-to-right
    addition from [0] up to Python 3.11, compensated summation since;
    for no element at all it is the integer [0]). *)
Variable py_sum : list float → float.

Definition total (expenses : store) (category : option string)
    (start end_ : option datetime) : option float :=
  selected ← filter_expenses expenses category start end_;
  Some (py_sum (exp_amount <$> selected)).

End Total.

(** ** [import_from_json] *)

(** What [json.load] returns: [None], [bool], [int], [float], [str],
    [list] and [dict] (the bindings of a [dict] in file order; a key
    that occurs twice keeps its last value). *)
#[local] Unset Elimination Schemes.
Inductive json :=
  | JNull
  | JBool (b : bool)
  | JInt (n : Z)
  | JFloat (f : float)
  | JStr (s : string)
  | JArr (xs : list json)
  | JObj (kvs : list (string * json)).
#[local] Set Elimination Schemes.

Fixpoint assoc_last (k : string) (kvs : list (string * json)) : option json :=
  match kvs with
  | [] => None
  | (k', v) :: r =>
      match assoc_last k r with
      | Some w => Some w
      | None => if String.eqb k' k then Some v else None
      end
  end.

(** [e[k]]; [None] is [KeyError], or [TypeError] when [e] is no [dict]. *)
Definition subscript (e : json) (k : string) : option json :=
  match e with
  | JObj kvs => assoc_last k kvs
  | _ => None
  end.

(** [e.get(k, dflt)]; [None] is an exception on a value that is no
    [dict]. *)
Definition get (e : json) (k : string) (dflt : json) : option json :=
  match e with
  | JObj kvs => Some (default dflt (assoc_last k kvs))
  | _ => None
  end.

(** A value on which a [str] method is called; [None] is
    [AttributeError]. *)
Definition as_str (v : json) : option string :=
  match v with JStr s => Some s | _ => None end.

(** The keys of a dictionary, each at the place of its first
    binding. *)
Fixpoint dict_keys (kvs : list (string * json)) (seen : list string) : list string :=
  match kvs with
  | [] => []
  | (k, _) :: r =>
      if bool_decide (k ∈ seen) then dict_keys r seen else k :: dict_keys r (k :: seen)
  end.

(** The elements that [for e in data] visits; [None] is the
    [TypeError] of a value that cannot be iterated. *)
Definition iterate (data : json) : option (list json) :=
  match data with
  | JArr xs => Some xs
  | JObj kvs => Some (JStr <$> dict_keys kvs [])
  | JStr s => Some ((λ c, JStr (String c EmptyString)) <$> list_ascii_of_string s)
  | _ => None
  end.

Section ImportJson.

Variable fromisoformat : string → option datetime.

(** The number that the builtin [float] reads from a string of the
    right syntax, and [float] on an [int], where [None] is
    [OverflowError]: the rounding to binary64 is left open. *)
Variable float_value : string → float.
Variable float_of_int : Z → option float.

(** [float(s)] for a string; [None] is [ValueError]. *)
Definition float_of_str (s : string) : option float :=
  if PyStr.float_syntax s then Some (float_value s) else None.

(** [float(v)]; [None] is an exception. *)
Definition py_float (v : json) : option float :=
  match v with
  | JFloat f => Some f
  | JInt n => float_of_int n
  | JBool b => Some (if b then 1%float else 0%float)
  | JStr s => float_of_str s
  | _ => None
  end.

(** The arguments of the call of [add_expense] for the element [e];
    [None] is an exception raised while they are computed or by the
    [strip] calls of [add_expense]. *)
Definition import_args (now : datetime) (e : json)
  : option (float * string * datetime * string) :=
  v ← subscript e "amount";
  amount ← py_float v;
  v ← get e "category" (JStr "uncategorized");
  category ← as_str v;
  v ← get e "date" (JStr "");
  text ← as_str v;
  date ← parse_date fromisoformat now text;
  v ← get e "note" (JStr "");
  note ← as_str v;
  Some (amount, category, date, note).

(** The body of the loop: the [try] block and its [except Exception]. *)
Definition import_one (expenses : store) (now : datetime) (e : json) : store :=
  match import_args now e with
  | Some (amount, category, date, note) =>
      match add_expense expenses amount category date note with
      | Some (expenses', _) => expenses'
      | None => expenses
      end
  | None => expenses
  end.

Fixpoint import_loop (expenses : store) (clock : nat → datetime) (k : nat)
    (data : list json) : store :=
  match data with
  | [] => expenses
  | e :: rest => import_loop (import_one expenses (clock k) e) clock (S k) rest
  end.

(** [import_from_json] on the value [data] read from the file;
    [clock k] is what [datetime.today()] returns while element [k] is
    imported.  [None] is the [TypeError] of [for e in data]. *)
Definition import_from_json (expenses : store) (clock : nat → datetime)
    (data : json) : option store :=
  es ← iterate data;
  Some (import_loop expenses clock 0 es).

End ImportJson.

(** * Specification *)

(** ** Looking a record up by its id *)

(** [i] is the position of the first record of [expenses] with the id:
    what [find_by_id] returns a reference to. *)
Definition first_with_id (expenses : store) (id_str : string) (i : nat) (e : expense) : Prop :=
  expenses !! i = Some e ∧ exp_id e = id_str ∧
  ∀ j e', (j < i)%nat → expenses !! j = Some e' → exp_id e' ≠ id_str.

(** The record after [edit_expense]: a field that was supplied has the
    new value, a field that was omitted keeps its value. *)
Definition edited (e : expense) (amount : option float) (category : option string)
    (date : option datetime) (note : option string) : expense :=
  {| exp_id := exp_id e;
     exp_amount := default (exp_amount e) amount;
     exp_category := default (exp_category e) category;
     exp_date := default (exp_date e) ((λ d, Strptime.strftime d "%Y-%m-%d") <$> date);
     exp_note := default (exp_note e) note |}.

(** [a] does not come before [b] in the order of the date strings. *)
Definition date_ge (a b : expense) : Prop :=
  String.leb (exp_date b) (exp_date a) = true.

(** ** Identifiers *)

(** The integer that [_next_id] reads from the id of a record. *)
Definition id_value (e : expense) : option Z := PyStr.int (exp_id e).

(** Every id of the store is an integer literal. *)
Definition ids_ok (expenses : store) : Prop :=
  Forall (λ e, is_Some (id_value e)) expenses.

(** [n] is [1] for the empty store and otherwise the largest id of the
    store plus one. *)
Definition is_next_id (expenses : store) (n : Z) : Prop :=
  match expenses with
  | [] => n = 1
  | _ => (∃ e, e ∈ expenses ∧ id_value e = Some (n - 1)) ∧
         ∀ e z, e ∈ expenses → id_value e = Some z → z ≤ n - 1
  end.

(** The integers that [int] reads and [str] writes are those strictly
    between [- id_limit] and [id_limit]. *)
Definition id_limit : Z := 10 ^ PyStr.max_str_digits.

(** The ids of the store leave room for [k] more: the largest id plus
    [k] is still written by [str]. *)
Definition ids_room (k : Z) (expenses : store) : Prop :=
  k < id_limit ∧ ∀ e z, e ∈ expenses → id_value e = Some z → z + k < id_limit.

(** The calls that change the ids of the store, and a run of them from
    a store: the final store and the ids that were assigned, in order. *)
Inductive op :=
  | Add (amount : float) (category : string) (date : datetime) (note : string)
  | Delete (id_str : string).

Definition step (expenses : store) (o : op) : option (store * list string) :=
  match o with
  | Add amount category date note =>
      r ← add_expense expenses amount category date note;
      Some (r.1, [exp_id r.2])
  | Delete id_str =>
      r ← delete_expense expenses id_str;
      Some (r.1, [])
  end.

Fixpoint run (expenses : store) (ops : list op) : option (store * list string) :=
  match ops with
  | [] => Some (expenses, [])
  | o :: rest =>
      r1 ← step expenses o;
      r2 ← run r1.1 rest;
      Some (r2.1, (r1.2 ++ r2.2)%list)
  end.

(** The value of the decimal digits [u] after the digits of value [acc]. *)
Fixpoint uint_value (u : uint) (acc : Z) : Z :=
  match u with
  | Nil => acc
  | D0 u => uint_value u (10 * acc + 0)
  | D1 u => uint_value u (10 * acc + 1)
  | D2 u => uint_value u (10 * acc + 2)
  | D3 u => uint_value u (10 * acc + 3)
  | D4 u => uint_value u (10 * acc + 4)
  | D5 u => uint_value u (10 * acc + 5)
  | D6 u => uint_value u (10 * acc + 6)
  | D7 u => uint_value u (10 * acc + 7)
  | D8 u => uint_value u (10 * acc + 8)
  | D9 u => uint_value u (10 * acc + 9)
  end.

Fixpoint no_space (s : string) : bool :=
  match s with
  | EmptyString => true
  | String c r => negb (PyStr.is_space c) && no_space r
  end.

(** ** Parsing a date *)

(** The text, once trimmed, is empty or is the token [today] or [t] in
    any letter case. *)
Definition means_now (text : string) : Prop :=
  PyStr.strip text = "" ∨
  PyStr.lower (PyStr.strip text) = PyStr.lower "today" ∨
  PyStr.lower (PyStr.strip text) = PyStr.lower "t".

(** ** Filtering *)

(** The calendar date of a record, at midnight: what [filter_expenses]
    compares with the bounds. *)
Definition record_date (e : expense) : option datetime :=
  Strptime.strptime (exp_date e) "%Y-%m-%d".

(** The dates of the store are all in the form that [%Y-%m-%d] reads. *)
Definition dates_ok (expenses : store) : Prop :=
  Forall (λ e, is_Some (record_date e)) expenses.

(** Equality of two texts without regard to letter case. *)
Definition ci_equal (a b : string) : bool :=
  String.eqb (PyStr.lower a) (PyStr.lower b).

(** The date of the record lies in the inclusive range of the bounds
    that are supplied. *)
Definition date_within (start end_ : option datetime) (e : expense) : bool :=
  match record_date e with
  | Some ed =>
      match start with Some s => dt_leb s ed | None => true end &&
      match end_ with Some s => dt_leb ed s | None => true end
  | None => false
  end.

(** The record satisfies every supplied predicate. *)
Definition satisfies (category : option string) (start end_ : option datetime)
    (e : expense) : bool :=
  match category with Some c => ci_equal (exp_category e) c | None => true end &&
  date_within start end_ e.

(** What the loop keeps: the category test is skipped for the empty
    string as for [None]. *)
Definition kept (category : option string) (start end_ : option datetime)
    (e : expense) : bool :=
  match category with
  | Some c => String.eqb c "" || ci_equal (exp_category e) c
  | None => true
  end && date_within start end_ e.

(** The amounts of the records of exactly the category [k], added up
    from [0.0] in the order of the list. *)
Definition category_sum (k : string) (l : list expense) : float :=
  foldl PrimFloat.add 0%float
    (exp_amount <$> List.filter (λ e, String.eqb (exp_category e) k) l).

(** ** Importing *)

(** The record that [add_expense] creates with the id [n]. *)
Definition new_record (n : Z) (args : float * string * datetime * string) : expense :=
  {| exp_id := PyStr.decimal n;
     exp_amount := args.1.1.1;
     exp_category := PyStr.strip args.1.1.2;
     exp_date := Strptime.strftime args.1.2 "%Y-%m-%d";
     exp_note := PyStr.strip args.2 |}.

(** The records created from a list of arguments, numbered from [n]. *)
Fixpoint records_from (n : Z) (l : list (float * string * datetime * string))
  : list expense :=
  match l with
  | [] => []
  | a :: r => new_record n a :: records_from (n + 1) r
  end.

Section Parsed.

Variable fromisoformat : string → option datetime.
Variable float_value : string → float.
Variable float_of_int : Z → option float.

(** The arguments of the elements that parse, in the order of the
    file; element [k] is read at the time [clock k]. *)
Fixpoint parsed_from (clock : nat → datetime) (k : nat) (data : list json)
  : list (float * string * datetime * string) :=
  match data with
  | [] => []
  | e :: rest =>
      match import_args fromisoformat float_value float_of_int (clock k) e with
      | Some a => a :: parsed_from clock (S k) rest
      | None => parsed_from clock (S k) rest
      end
  end.

End Parsed.

(** ** Sample data *)

Definition lunch : expense := mk_expense "1" 12.5%float "Food" "2024-01-01" "lunch".
Definition bus : expense := mk_expense "2" 3%float "transport" "2024-01-03" "".
Definition snack : expense := mk_expense "3" 2.25%float "food" "2024-01-02" "bar".

Definition sample : store := [lunch; bus; snack].

Definition jan (d : Z) : datetime := mk_datetime 2024 1 d 0 0 0 0.

(** The plain left-to-right [sum] of Python 3.11 and before. *)
Definition sum_left (l : list float) : float := foldl PrimFloat.add 0%float l.

(** A sample of the library functions that are left open: a
    [fromisoformat] that reads nothing, and [float] on the integers
    below [2^53] and on their literals, where it is exact. *)
Definition sample_iso (text : string) : option datetime := None.

Definition sample_float_of_int (n : Z) : option float :=
  if (0 <=? n) && (n <? 2 ^ 53) then Some (PrimFloat.of_uint63 (Uint63.of_Z n)) else None.

Definition sample_float_value (text : string) : float :=
  default 0%float (PyStr.int text ≫= sample_float_of_int).

Definition good_entry : json :=
  JObj [("amount", JFloat 7.5%float); ("category", JStr " Books "); ("date", JStr "05/01/2024")].

Definition bad_entry : json :=
  JObj [("amount", JStr "abc"); ("category", JStr "Books"); ("date", JStr "2024-01-05")].

Definition noon (k : nat) : datetime := mk_datetime 2024 1 9 12 0 0 (Z.of_nat k).

(** The text of [k] nines. *)
Fixpoint nines (k : nat) : string :=
  match k with
  | O => EmptyString
  | S k' => String "9" (nines k')
  end.

(** * The rest of the tracker *)

(** ** [search] *)

(** [t in s] on two strings: [t] occurs in [s]. *)
Fixpoint contains (t s : string) : bool :=
  match s with
  | EmptyString => String.prefix t s
  | String _ r => String.prefix t s || contains t r
  end.

(** [search]: the records in the order of the store. *)
Definition search (expenses : store) (term : string) : list expense :=
  let t := PyStr.lower term in
  List.filter
    (λ e, contains t (PyStr.lower (exp_note e)) || contains t (PyStr.lower (exp_category e)))
    expenses.

(** ** [_load]

    [_load] is a function of the value that [json.load] reads from the
    data file; the text of the file and [json.dump] are not modelled. *)

(** The dictionary of a record, with its keys in the order in which
    [add_expense] creates them. *)
Definition to_dict (e : expense) : json :=
  JObj [("id", JStr (exp_id e)); ("amount", JFloat (exp_amount e));
        ("category", JStr (exp_category e)); ("date", JStr (exp_date e));
        ("note", JStr (exp_note e))].

(** The data file: absent, present but not readable as JSON, or holding
    a value. *)
Inductive file :=
  | Missing
  | Malformed
  | Holds (v : json).

(** [e[k] = v] on a dictionary that has the key [k]; [None] is
    [TypeError] on a value that is no [dict]. *)
Definition dict_set (k : string) (v : json) (e : json) : option json :=
  match e with
  | JObj kvs => Some (JObj ((λ kw, if String.eqb kw.1 k then (kw.1, v) else kw) <$> kvs))
  | _ => None
  end.

Section Load.

Variable float_value : string → float.
Variable float_of_int : Z → option float.

(** The body of the loop of [_load] on one element; [None] is an
    exception. *)
Definition load_one (e : json) : option json :=
  v ← subscript e "amount";
  f ← py_float float_value float_of_int v;
  e' ← dict_set "amount" (JFloat f) e;
  d ← subscript e' "date";
  dict_set "date" d e'.

(** [_load]: the value of [self.expenses] afterwards.  Every exception
    is caught and leaves the empty list. *)
Definition _load (f : file) : json :=
  match f with
  | Missing => JArr []
  | Malformed => JArr []
  | Holds v =>
      match iterate v with
      | Some es =>
          match mapM load_one es with
          | Some es' => match v with JArr _ => JArr es' | _ => v end
          | None => JArr []
          end
      | None => JArr []
      end
  end.

End Load.

(** ** The menu

    The branches of [cli] that read dates or change the store, as
    functions of the lines that [input] returns; what they print is
    left out and the value behind it returned. *)

(** [x or None] on a string. *)
Definition or_none (x : string) : option string :=
  if String.eqb x "" then None else Some x.

Inductive outcome := NotFound | Updated | Failed | Error.

Section Menu.

Variable fromisoformat : string → option datetime.
Variable float_value : string → float.

(** Choice 1; the record is [None] when ["Error:"] is printed. *)
Definition cli_add (expenses : store) (now : datetime)
    (amount_in category_in date_in note_in : string) : store * option expense :=
  match float_of_str float_value (PyStr.strip amount_in) with
  | None => (expenses, None)
  | Some amt =>
      let cat :=
        let c := PyStr.strip category_in in
        if String.eqb c "" then "uncategorized" else c in
      let date_in := PyStr.strip date_in in
      match parse_date fromisoformat now date_in with
      | None => (expenses, None)
      | Some d =>
          let note := PyStr.strip note_in in
          match add_expense expenses amt cat d note with
          | Some (expenses', e) => (expenses', Some e)
          | None => (expenses, None)
          end
      end
  end.

(** Choice 3; [None] is the [ValueError] of [filter_expenses], which
    nothing catches. *)
Definition cli_by_category (expenses : store) (category_in : string)
  : option (list expense) :=
  filter_expenses expenses (Some (PyStr.strip category_in)) None None.

(** A date that is asked for with [parse_date(x) if x else None]. *)
Definition optional_date (now : datetime) (x : string) : option (option datetime) :=
  if String.eqb x "" then Some None
  else
    match parse_date fromisoformat now x with
    | Some d => Some (Some d)
    | None => None
    end.

(** Choice 4; [now] and [now'] are what [datetime.today()] returns for
    the start and for the end; [None] is ["Error:"]. *)
Definition cli_by_range (expenses : store) (now now' : datetime) (start_in end_in : string)
  : option (list expense) :=
  let start := PyStr.strip start_in in
  let end_ := PyStr.strip end_in in
  s ← optional_date now start;
  e ← optional_date now' end_;
  filter_expenses expenses None s e.

(** Choice 6. *)
Definition cli_edit (expenses : store) (now : datetime)
    (id_in amount_in category_in date_in note_in : string) : store * outcome :=
  let id_str := PyStr.strip id_in in
  match find_by_id expenses id_str with
  | None => (expenses, NotFound)
  | Some _ =>
      let new_amt := PyStr.strip amount_in in
      let new_cat := PyStr.strip category_in in
      let new_date := PyStr.strip date_in in
      let new_note := PyStr.strip note_in in
      match
        (if String.eqb new_amt "" then Some None
         else match float_of_str float_value new_amt with
              | Some a => Some (Some a)
              | None => None
              end)
      with
      | None => (expenses, Error)
      | Some amt_val =>
          match optional_date now new_date with
          | None => (expenses, Error)
          | Some date_val =>
              let r := edit_expense expenses id_str amt_val (or_none new_cat) date_val
                         (or_none new_note) in
              (r.1, if r.2 then Updated else Failed)
          end
      end
  end.

End Menu.

(** ** Specification of the rest *)

(** The calendar day of a time stamp, at midnight. *)
Definition midnight (d : datetime) : datetime :=
  mk_datetime (year d) (month d) (day d) 0 0 0 0.

(** The time stamp is one that a [datetime] object can hold. *)
Definition valid_datetime (d : datetime) : Prop :=
  valid_date (year d) (month d) (day d) = true ∧
  0 ≤ hour d < 24 ∧ 0 ≤ minute d < 60 ∧ 0 ≤ second d < 60 ∧ 0 ≤ microsecond d < 1000000.

(** The time of day is not [00:00:00]. *)
Definition after_midnight (d : datetime) : Prop :=
  0 < hour d ∨ 0 < minute d ∨ 0 < second d ∨ 0 < microsecond d.

(** The text has no white space at either end. *)
Definition trimmed (s : string) : Prop := PyStr.strip s = s.

(** The invariant of the store: integer ids that are pairwise
    different, and dates that [%Y-%m-%d] reads. *)
Definition store_ok (expenses : store) : Prop :=
  ids_ok expenses ∧ NoDup (exp_id <$> expenses) ∧ dates_ok expenses.

(** The calls that change the store. *)
Inductive command :=
  | CAdd (amount : float) (category : string) (date : datetime) (note : string)
  | CEdit (id_str : string) (amount : option float) (category : option string)
      (date : option datetime) (note : option string)
  | CDelete (id_str : string).

Definition exec (expenses : store) (c : command) : option store :=
  match c with
  | CAdd amount category date note =>
      r ← add_expense expenses amount category date note; Some r.1
  | CEdit id_str amount category date note =>
      Some (edit_expense expenses id_str amount category date note).1
  | CDelete id_str =>
      r ← delete_expense expenses id_str; Some r.1
  end.

Fixpoint exec_all (expenses : store) (cs : list command) : option store :=
  match cs with
  | [] => Some expenses
  | c :: rest => expenses' ← exec expenses c; exec_all expenses' rest
  end.

(** The dates that a command carries are ones a [datetime] can hold,
    of a year with four digits. *)
Definition valid_command (c : command) : Prop :=
  match c with
  | CAdd _ _ date _ => valid_datetime date ∧ 1000 ≤ year date
  | CEdit _ _ _ (Some date) _ => valid_datetime date ∧ 1000 ≤ year date
  | _ => True
  end.

(** The number of [add_expense] calls among the commands. *)
Definition adds (cs : list command) : Z :=
  Z.of_nat (length (List.filter (λ c, match c with CAdd _ _ _ _ => true | _ => false end) cs)).

(** The record is in the form in which [add_expense] creates records:
    trimmed texts and a date of four-digit year written by
    [strftime]. *)
Definition canonical (e : expense) : Prop :=
  trimmed (exp_category e) ∧ trimmed (exp_note e) ∧
  ∃ d, valid_date (year d) (month d) (day d) = true ∧ 1000 ≤ year d ∧
       exp_date e = Strptime.strftime d "%Y-%m-%d".

(** The records [l] under the ids [n], [n + 1], ... *)
Fixpoint renumbered (n : Z) (l : list expense) : list expense :=
  match l with
  | [] => []
  | e :: r =>
      mk_expense (PyStr.decimal n) (exp_amount e) (exp_category e) (exp_date e) (exp_note e)
        :: renumbered (n + 1) r
  end.

(** What [_load] leaves in [self.expenses] when it has read a list: each
    element has a [float] under ["amount"] and some value under
    ["date"]. *)
Definition loaded_record (e : json) : Prop :=
  (∃ f, subscript e "amount" = Some (JFloat f)) ∧ is_Some (subscript e "date").

(** * Properties *)

(** ** The library model on examples *)

Example py_strip_ex : PyStr.strip "  a b	 " = "a b".
Proof. reflexivity. Qed.

Example py_int_ex :
  PyStr.int " 1_000 " = Some 1000 ∧ PyStr.int "-07" = Some (-7) ∧
  PyStr.int "1__0" = None ∧ PyStr.int "_1" = None ∧ PyStr.int "1_" = None ∧
  PyStr.int "" = None ∧ PyStr.int "+ 5" = None ∧ PyStr.int "abc" = None ∧
  PyStr.int (String "009" "12") = Some 12 ∧ PyStr.int (String "028" "12") = None ∧
  PyStr.strip (String "028" "12") = "12".
Proof. repeat split; reflexivity. Qed.

Example py_str_ex :
  PyStr.str 0 = Some "0" ∧ PyStr.str 12 = Some "12" ∧ PyStr.str (-40) = Some "-40".
Proof. repeat split; reflexivity. Qed.

Example strptime_ex :
  Strptime.strptime "2024-01-05" "%Y-%m-%d" = Some (mk_datetime 2024 1 5 0 0 0 0) ∧
  Strptime.strptime "2024-1-5" "%Y-%m-%d" = Some (mk_datetime 2024 1 5 0 0 0 0) ∧
  Strptime.strptime "2024-01-35" "%Y-%m-%d" = None ∧
  Strptime.strptime "2023-02-29" "%Y-%m-%d" = None ∧
  Strptime.strptime "2024-02-29" "%Y-%m-%d" = Some (mk_datetime 2024 2 29 0 0 0 0) ∧
  Strptime.strptime "01-02-2024" "%Y-%m-%d" = None ∧
  Strptime.strptime "01/02/2024" "%d/%m/%Y" = Some (mk_datetime 2024 2 1 0 0 0 0) ∧
  Strptime.strptime "2024-01-05 " "%Y-%m-%d" = None ∧
  Strptime.strptime "0000-01-05" "%Y-%m-%d" = None.
Proof. repeat split; reflexivity. Qed.

Example strftime_ex :
  Strptime.strftime (mk_datetime 2024 2 1 13 30 0 0) "%Y-%m-%d" = "2024-02-01" ∧
  Strptime.strftime (mk_datetime 987 12 31 0 0 0 0) "%Y-%m-%d" = "987-12-31" ∧
  Strptime.strftime (mk_datetime 5 1 2 0 0 0 0) "%Y-%m-%d" = "5-01-02" ∧
  Strptime.strptime "987-12-31" "%Y-%m-%d" = None.
Proof. repeat split; reflexivity. Qed.

Example float_syntax_ex :
  PyStr.float_syntax "12.50" = true ∧ PyStr.float_syntax " -1_0.5e+3 " = true ∧
  PyStr.float_syntax ".5" = true ∧ PyStr.float_syntax "5." = true ∧
  PyStr.float_syntax "-Infinity" = true ∧ PyStr.float_syntax "NaN" = true ∧
  PyStr.float_syntax "abc" = false ∧ PyStr.float_syntax "" = false ∧
  PyStr.float_syntax "." = false ∧ PyStr.float_syntax "1e" = false ∧
  PyStr.float_syntax "1_" = false ∧ PyStr.float_syntax "1 2" = false ∧
  PyStr.float_syntax "e5" = false ∧ PyStr.float_syntax "12,5" = false ∧
  PyStr.float_syntax (String "031" "2.5") = false.
Proof. repeat split; reflexivity. Qed.


Lemma find_from_None (i : nat) (expenses : store) (id_str : string) :
  find_from i expenses id_str = None ↔ ∀ e, e ∈ expenses → exp_id e ≠ id_str.
Proof.
  revert i. induction expenses as [|x l IH]; intros i; simpl.
  - split; [intros _ e He; inversion He | done].
  - destruct (String.eqb_spec (exp_id x) id_str) as [Heq|Hne].
    + split; [done|]. intros H. exfalso. apply (H x); [left | done].
    + rewrite IH. split.
      * intros H e He. apply elem_of_cons in He as [->|He]; auto.
      * intros H e He. apply H. by right.
Qed.

Lemma find_from_Some (i : nat) (expenses : store) (id_str : string) (j : nat) (e : expense) :
  find_from i expenses id_str = Some (j, e) ↔
  ∃ k, j = (i + k)%nat ∧ first_with_id expenses id_str k e.
Proof.
  revert i. induction expenses as [|x l IH]; intros i; simpl.
  - split; [done|]. intros (k & _ & Hk & _). by destruct k.
  - destruct (String.eqb_spec (exp_id x) id_str) as [Heq|Hne].
    + split.
      * intros [= <- <-]. exists 0%nat. repeat split; [lia | done |]. intros; lia.
      * intros (k & -> & Hk & _ & Hfirst). destruct k as [|k].
        -- injection Hk as ->. do 2 f_equal. lia.
        -- exfalso. apply (Hfirst 0%nat x); [lia | done | done].
    + rewrite IH. split.
      * intros (k & -> & Hk & Hid & Hfirst). exists (S k). repeat split; [lia | done | done |].
        intros [|j'] e' Hlt Hj; simpl in Hj; [by injection Hj as <- |].
        apply (Hfirst j'); [lia | done].
      * intros (k & -> & Hk & Hid & Hfirst). destruct k as [|k].
        -- injection Hk as ->. done.
        -- exists k. repeat split; [lia | done | done |].
           intros j' e' Hlt Hj. apply (Hfirst (S j')); [lia | done].
Qed.

Lemma find_by_id_Some (expenses : store) (id_str : string) (i : nat) (e : expense) :
  find_by_id expenses id_str = Some (i, e) ↔ first_with_id expenses id_str i e.
Proof.
  unfold find_by_id. rewrite find_from_Some. split.
  - by intros (k & -> & H).
  - intros H. by exists i.
Qed.

Lemma find_by_id_present (expenses : store) (id_str : string) :
  (∃ e, e ∈ expenses ∧ exp_id e = id_str) →
  ∃ i e, find_by_id expenses id_str = Some (i, e).
Proof.
  intros (e & He & Hid). destruct (find_by_id expenses id_str) as [[i e']|] eqn:Hf.
  - by exists i, e'.
  - unfold find_by_id in Hf. rewrite find_from_None in Hf. by destruct (Hf e He).
Qed.

(** [remove] takes the record out at the position where [find_by_id]
    found it: no earlier dictionary is equal to it. *)
Lemma remove_from_first (j : nat) (expenses : store) (id_str : string) (k : nat) (e : expense) :
  first_with_id expenses id_str k e →
  remove_from j expenses (j + k) e = Some (delete k expenses).
Proof.
  revert j k. induction expenses as [|x l IH]; intros j k (Hk & Hid & Hfirst).
  - by destruct k.
  - destruct k as [|k]; simpl.
    + by rewrite Nat.add_0_r, Nat.eqb_refl.
    + assert (exp_id x ≠ id_str) as Hx by (apply (Hfirst 0%nat); [lia | done]).
      assert (Nat.eqb j (j + S k) = false) as -> by (apply Nat.eqb_neq; lia).
      assert (dict_eqb x e = false) as ->.
      { unfold dict_eqb. destruct (String.eqb_spec (exp_id x) (exp_id e)); [congruence | done]. }
      simpl. replace (j + S k)%nat with (S j + k)%nat by lia.
      rewrite IH; [done|]. repeat split; [done | done |].
      intros j' e' Hlt Hj. apply (Hfirst (S j')); [lia | done].
Qed.

Lemma delete_expense_found (expenses : store) (id_str : string) (i : nat) (e : expense) :
  find_by_id expenses id_str = Some (i, e) →
  delete_expense expenses id_str = Some (delete i expenses, true).
Proof.
  intros Hf. unfold delete_expense, list_remove. rewrite Hf.
  apply find_by_id_Some in Hf.
  pose proof (remove_from_first 0 expenses id_str i e Hf) as Hrm.
  simpl in Hrm. by rewrite Hrm.
Qed.

Lemma delete_expense_missing (expenses : store) (id_str : string) :
  find_by_id expenses id_str = None →
  delete_expense expenses id_str = Some (expenses, false).
Proof. intros Hf. unfold delete_expense. by rewrite Hf. Qed.

(** C3: [delete_expense] never raises; when a record with the id exists
    it removes the first such record, the one [find_by_id] returns, and
    returns [True]; when no record has the id it returns [False] and the
    list of records is what it was. *)
Theorem delete_expense_spec (expenses : store) (id_str : string) :
  is_Some (delete_expense expenses id_str) ∧
  ((∃ e, e ∈ expenses ∧ exp_id e = id_str) →
     ∃ i e, first_with_id expenses id_str i e ∧
            delete_expense expenses id_str = Some (delete i expenses, true)) ∧
  ((∀ e, e ∈ expenses → exp_id e ≠ id_str) →
     delete_expense expenses id_str = Some (expenses, false)).
Proof.
  destruct (find_by_id expenses id_str) as [[i e]|] eqn:Hf.
  - rewrite (delete_expense_found _ _ _ _ Hf). apply find_by_id_Some in Hf as Hfirst.
    split; [done|]. split.
    + intros _. by exists i, e.
    + intros Hnone. destruct Hfirst as (Hi & Hid & _).
      exfalso. apply (Hnone e); [by eapply list_elem_of_lookup_2 | done].
  - rewrite (delete_expense_missing _ _ Hf). split; [done|]. split; [|done].
    intros Hex. apply find_by_id_present in Hex as (i & e & He). congruence.
Qed.


(** C2: when a record with the id exists, [edit_expense] returns [True]
    and the first such record has exactly the supplied fields replaced
    ([date] by its [%Y-%m-%d] text), every omitted field and every other
    record being what it was; when no record has the id it returns
    [False] and the store is unchanged. *)
Theorem edit_expense_spec (expenses : store) (id_str : string) (amount : option float)
    (category : option string) (date : option datetime) (note : option string) :
  ((∃ e, e ∈ expenses ∧ exp_id e = id_str) →
     ∃ i e expenses',
       first_with_id expenses id_str i e ∧
       edit_expense expenses id_str amount category date note = (expenses', true) ∧
       expenses' !! i = Some (edited e amount category date note) ∧
       (∀ j, j ≠ i → expenses' !! j = expenses !! j) ∧
       length expenses' = length expenses) ∧
  ((∀ e, e ∈ expenses → exp_id e ≠ id_str) →
     edit_expense expenses id_str amount category date note = (expenses, false)).
Proof.
  unfold edit_expense. split.
  - intros Hex. apply find_by_id_present in Hex as (i & e & Hf). rewrite Hf.
    apply find_by_id_Some in Hf as Hfirst. destruct Hfirst as (Hi & Hid & Hfirst).
    eexists i, e, _. split; [done|]. split; [reflexivity|].
    split; [|split].
    + rewrite list_lookup_insert_eq by (by eapply lookup_lt_Some).
      f_equal. by destruct e, amount, category, date, note.
    + intros j Hj. by rewrite list_lookup_insert_ne.
    + by rewrite length_insert.
  - intros Hnone. apply find_from_None with (i := 0%nat) in Hnone.
    unfold find_by_id. by rewrite Hnone.
Qed.

(** ** Sorting by date, latest first *)

Lemma ascii_compare_trans (a b c : ascii) (r : comparison) :
  Ascii.compare a b = r → Ascii.compare b c = r → Ascii.compare a c = r.
Proof.
  unfold Ascii.compare. intros <-.
  destruct (N.compare_spec (N_of_ascii a) (N_of_ascii b)) as [Hab|Hab|Hab]; intros Hbc.
  - by rewrite Hab.
  - apply N.compare_lt_iff in Hbc. apply N.compare_lt_iff. by etrans.
  - apply N.compare_gt_iff in Hbc. apply N.compare_gt_iff. by etrans.
Qed.

Lemma string_leb_trans (a b c : string) :
  String.leb a b = true → String.leb b c = true → String.leb a c = true.
Proof.
  unfold String.leb. revert b c.
  induction a as [|x a IH]; intros [|y b] [|z c]; simpl; try done.
  destruct (Ascii.compare x y) eqn:Hxy; simpl; [| |done].
  - apply Ascii.compare_eq_iff in Hxy as ->.
    destruct (Ascii.compare y z); simpl; [apply IH | done | done].
  - intros _. destruct (Ascii.compare y z) eqn:Hyz; simpl; [| |done].
    + apply Ascii.compare_eq_iff in Hyz as <-. by rewrite Hxy.
    + by rewrite (ascii_compare_trans x y z Lt).
Qed.

Lemma string_ltb_leb (a b : string) : String.ltb a b = false ↔ String.leb b a = true.
Proof.
  unfold String.ltb, String.leb. rewrite (String.compare_antisym a b).
  by destruct (String.compare b a).
Qed.

#[local] Instance date_ge_trans : Transitive date_ge.
Proof. intros a b c Hab Hbc. unfold date_ge in *. by eapply string_leb_trans. Qed.

Lemma insert_desc_perm (x : expense) (l : list expense) : insert_desc x l ≡ₚ x :: l.
Proof.
  induction l as [|y l IH]; simpl; [done|].
  destruct (String.ltb (exp_date x) (exp_date y)); [|done].
  rewrite IH. apply Permutation_swap.
Qed.

Lemma sorted_desc_perm (l : list expense) : sorted_desc l ≡ₚ l.
Proof.
  induction l as [|x l IH]; simpl; [done|].
  by rewrite insert_desc_perm, IH.
Qed.

Lemma insert_desc_HdRel (a x : expense) (l : list expense) :
  date_ge a x → HdRel date_ge a l → HdRel date_ge a (insert_desc x l).
Proof.
  intros Hax Hl. destruct l as [|y l]; simpl; [by constructor|].
  destruct (String.ltb (exp_date x) (exp_date y)); constructor; [|done].
  by inversion Hl.
Qed.

Lemma insert_desc_sorted (x : expense) (l : list expense) :
  Sorted date_ge l → Sorted date_ge (insert_desc x l).
Proof.
  induction 1 as [|y l Hl IH Hhd]; simpl; [by repeat constructor|].
  destruct (String.ltb (exp_date x) (exp_date y)) eqn:Hlt.
  - constructor; [done|]. apply insert_desc_HdRel; [|done].
    unfold date_ge. unfold String.ltb in Hlt. unfold String.leb.
    by destruct (String.compare (exp_date x) (exp_date y)).
  - constructor; [by constructor|]. constructor. by apply string_ltb_leb.
Qed.

Lemma sorted_desc_sorted (l : list expense) : StronglySorted date_ge (sorted_desc l).
Proof.
  apply Sorted_StronglySorted; [apply date_ge_trans|].
  induction l as [|x l IH]; simpl; [constructor|]. by apply insert_desc_sorted.
Qed.

(** C7 (as amended): with no limit [list_expenses] returns all records,
    each date string at least as large as those after it; with a
    positive limit it returns the first [limit] of them; the limit [0]
    is treated as no limit; a negative limit [-k] leaves the last [k]
    records out. *)
Theorem list_expenses_spec (expenses : store) :
  list_expenses expenses None ≡ₚ expenses ∧
  StronglySorted date_ge (list_expenses expenses None) ∧
  (∀ n, 0 < n →
     list_expenses expenses (Some n) = take (Z.to_nat n) (list_expenses expenses None)) ∧
  list_expenses expenses (Some 0) = list_expenses expenses None ∧
  (∀ k, 0 < k →
     list_expenses expenses (Some (- k)) =
     take (length expenses - Z.to_nat k) (list_expenses expenses None)).
Proof.
  unfold list_expenses. repeat split.
  - apply sorted_desc_perm.
  - apply sorted_desc_sorted.
  - intros n Hn. destruct (Z.eqb_spec n 0); [lia|].
    unfold slice_to. by destruct (Z.leb_spec 0 n); [|lia].
  - intros k Hk. destruct (Z.eqb_spec (- k) 0); [lia|].
    unfold slice_to. destruct (Z.leb_spec 0 (- k)); [lia|].
    rewrite (Permutation_length (sorted_desc_perm expenses)). f_equal. lia.
Qed.

Example list_expenses_ex :
  list_expenses sample None = [bus; snack; lunch] ∧
  list_expenses [lunch; set_note "again" lunch; bus; set_note "late" lunch] None =
    [bus; lunch; set_note "again" lunch; set_note "late" lunch] ∧
  list_expenses sample (Some 2) = [bus; snack] ∧
  list_expenses sample (Some 5) = [bus; snack; lunch] ∧
  list_expenses sample (Some (-1)) = [bus; snack].
Proof. repeat split; reflexivity. Qed.

(** C7, the claim as stated fails: with the limit [0] all three records
    come back, not the first [0] of them. *)
Lemma list_expenses_limit_zero :
  list_expenses sample (Some 0) = [bus; snack; lunch] ∧
  take 0 (list_expenses sample None) = [].
Proof. split; reflexivity. Qed.

(** ** [filter_expenses], [total] and [summary_by_category] *)

Lemma lex_compare_antisym (a b : list Z) : lex_compare a b = CompOpp (lex_compare b a).
Proof.
  revert b. induction a as [|x a IH]; intros [|y b]; simpl; try done.
  rewrite (Z.compare_antisym y x). destruct (y ?= x)%Z; simpl; [apply IH | done | done].
Qed.

Lemma dt_ltb_leb (a b : datetime) : negb (dt_ltb a b) = dt_leb b a.
Proof.
  unfold dt_ltb, dt_leb, dt_compare. rewrite (lex_compare_antisym (dt_fields a)).
  by destruct (lex_compare (dt_fields b) (dt_fields a)).
Qed.

Lemma dt_gtb_leb (a b : datetime) : negb (dt_gtb a b) = dt_leb a b.
Proof. unfold dt_gtb, dt_leb. by destruct (dt_compare a b). Qed.

Lemma filter_loop_kept (expenses : store) (category : option string)
    (start end_ : option datetime) (res : list expense) :
  dates_ok expenses →
  filter_loop expenses category start end_ res =
  Some (res ++ List.filter (kept category start end_) expenses)%list.
Proof.
  intros Hok. revert res. induction Hok as [|e l [ed Hed] Hok IH]; intros res; simpl.
  - by rewrite app_nil_r.
  - unfold record_date in Hed. rewrite Hed. simpl.
    unfold kept at 1, date_within, record_date. rewrite Hed.
    assert (match category with
            | Some c => negb (String.eqb c "") &&
                        negb (String.eqb (PyStr.lower (exp_category e)) (PyStr.lower c))
            | None => false
            end = negb match category with
                       | Some c => String.eqb c "" || ci_equal (exp_category e) c
                       | None => true
                       end) as ->.
    { destruct category as [c|]; [|done]. unfold ci_equal.
      by destruct (String.eqb c ""), (String.eqb _ (PyStr.lower c)). }
    destruct (match category with Some c => _ | None => true end); simpl; [|apply IH].
    assert (match start with Some s => dt_ltb ed s | None => false end =
            negb match start with Some s => dt_leb s ed | None => true end) as ->.
    { destruct start; [|done]. by rewrite <- dt_ltb_leb, negb_involutive. }
    destruct (match start with Some s => _ | None => true end); simpl; [|apply IH].
    assert (match end_ with Some s => dt_gtb ed s | None => false end =
            negb match end_ with Some s => dt_leb ed s | None => true end) as ->.
    { destruct end_; [|done]. by rewrite <- dt_gtb_leb, negb_involutive. }
    destruct (match end_ with Some s => _ | None => true end); simpl; [|apply IH].
    rewrite IH. by rewrite <- app_assoc.
Qed.

Lemma filter_expenses_kept (expenses : store) (category : option string)
    (start end_ : option datetime) :
  dates_ok expenses →
  filter_expenses expenses category start end_ =
  Some (sorted_desc (List.filter (kept category start end_) expenses)).
Proof.
  intros Hok. unfold filter_expenses. by rewrite filter_loop_kept.
Qed.

Lemma kept_satisfies (category : option string) (start end_ : option datetime) (e : expense) :
  category ≠ Some "" → kept category start end_ e = satisfies category start end_ e.
Proof.
  intros Hc. unfold kept, satisfies. destruct category as [c|]; [|done].
  destruct (String.eqb_spec c ""); [congruence | done].
Qed.

Lemma filter_ext_all {A} (f g : A → bool) (l : list A) :
  (∀ x, f x = g x) → List.filter f l = List.filter g l.
Proof. intros H. induction l as [|x l IH]; simpl; [done|]. by rewrite H, IH. Qed.

(** C4 (as amended): on a store whose dates are all in [%Y-%m-%d] form
    and for a category that is absent or not the empty string,
    [filter_expenses] returns exactly the records that satisfy every
    supplied predicate, the latest date string first. *)
Theorem filter_expenses_spec (expenses : store) (category : option string)
    (start end_ : option datetime) :
  dates_ok expenses → category ≠ Some "" →
  ∃ res, filter_expenses expenses category start end_ = Some res ∧
         res ≡ₚ List.filter (satisfies category start end_) expenses ∧
         (∀ e, e ∈ res ↔ e ∈ expenses ∧ satisfies category start end_ e = true) ∧
         StronglySorted date_ge res.
Proof.
  intros Hok Hc. eexists. split; [by apply filter_expenses_kept|].
  rewrite (filter_ext_all _ _ expenses (λ e, kept_satisfies category start end_ e Hc)).
  split; [apply sorted_desc_perm|]. split; [|apply sorted_desc_sorted].
  intros e. rewrite sorted_desc_perm, !list_elem_of_In. apply filter_In.
Qed.

Lemma filter_expenses_spec_witness :
  ∃ res, filter_expenses sample (Some "FOOD") (Some (jan 1)) (Some (jan 2)) = Some res ∧
         res ≡ₚ List.filter (satisfies (Some "FOOD") (Some (jan 1)) (Some (jan 2))) sample ∧
         (∀ e, e ∈ res ↔
               e ∈ sample ∧ satisfies (Some "FOOD") (Some (jan 1)) (Some (jan 2)) e = true) ∧
         StronglySorted date_ge res.
Proof.
  apply filter_expenses_spec; [|done].
  repeat constructor; by eexists.
Defined.

Example filter_expenses_ex :
  filter_expenses sample (Some "FOOD") None None = Some [snack; lunch] ∧
  filter_expenses sample None (Some (jan 2)) (Some (jan 3)) = Some [bus; snack] ∧
  filter_expenses sample None (Some (mk_datetime 2024 1 2 9 30 0 0)) None = Some [bus] ∧
  filter_expenses (sample ++ [mk_expense "4" 1%float "x" "02/01/2024" ""]) None None None = None.
Proof. repeat split; reflexivity. Qed.

(** C4, the claim as stated fails: with the empty string as category
    all three records come back, and none of them has a category that
    equals the empty string. *)
Lemma filter_expenses_empty_category :
  filter_expenses sample (Some "") None None = Some [bus; snack; lunch] ∧
  List.filter (satisfies (Some "") None None) sample = [].
Proof. split; reflexivity. Qed.

Lemma filter_loop_empty_category (expenses : store) (start end_ : option datetime)
    (res : list expense) :
  filter_loop expenses (Some "") start end_ res = filter_loop expenses None start end_ res.
Proof.
  revert res. induction expenses as [|e l IH]; intros res; simpl; [done|].
  destruct (Strptime.strptime (exp_date e) "%Y-%m-%d") as [ed|]; simpl; [|done].
  by rewrite !IH.
Qed.

(** C9: the empty string as category is no predicate: [filter_expenses]
    does what it does without a category, and on a store whose dates are
    all in [%Y-%m-%d] form it returns exactly the records within the
    supplied bounds, whatever their category. *)
Theorem filter_expenses_empty_string (expenses : store) (start end_ : option datetime) :
  filter_expenses expenses (Some "") start end_ = filter_expenses expenses None start end_ ∧
  (dates_ok expenses →
     ∃ res, filter_expenses expenses (Some "") start end_ = Some res ∧
            res ≡ₚ List.filter (date_within start end_) expenses ∧
            ∀ e, e ∈ expenses → date_within start end_ e = true → e ∈ res).
Proof.
  split.
  - unfold filter_expenses. by rewrite filter_loop_empty_category.
  - intros Hok. eexists. split; [by apply filter_expenses_kept|].
    split; [apply sorted_desc_perm|].
    intros e He Hd. rewrite sorted_desc_perm, list_elem_of_In. apply filter_In.
    by rewrite <- list_elem_of_In.
Qed.

(** C5: on a store whose dates are all in [%Y-%m-%d] form, [total] is
    the [sum] of the amounts of the records that [filter_expenses]
    returns for the same arguments; without a category these are exactly
    the records whose date lies within the inclusive bounds. *)
Theorem total_spec (py_sum : list float → float) (expenses : store)
    (category : option string) (start end_ : option datetime) :
  dates_ok expenses →
  ∃ selected,
    filter_expenses expenses category start end_ = Some selected ∧
    total py_sum expenses category start end_ = Some (py_sum (exp_amount <$> selected)) ∧
    (category = None →
       selected ≡ₚ List.filter (date_within start end_) expenses ∧
       total py_sum expenses None start end_ =
       Some (py_sum (exp_amount <$> sorted_desc (List.filter (date_within start end_) expenses)))).
Proof.
  intros Hok. eexists. split; [by apply filter_expenses_kept|].
  unfold total. rewrite !filter_expenses_kept by done. simpl.
  split; [done|]. intros ->. split; [apply sorted_desc_perm | done].
Qed.

Lemma total_spec_witness :
  ∃ selected,
    filter_expenses sample None (Some (jan 2)) (Some (jan 3)) = Some selected ∧
    total sum_left sample None (Some (jan 2)) (Some (jan 3)) =
      Some (sum_left (exp_amount <$> selected)) ∧
    (@None string = None →
       selected ≡ₚ List.filter (date_within (Some (jan 2)) (Some (jan 3))) sample ∧
       total sum_left sample None (Some (jan 2)) (Some (jan 3)) =
       Some (sum_left (exp_amount <$>
               sorted_desc (List.filter (date_within (Some (jan 2)) (Some (jan 3))) sample)))).
Proof.
  apply (total_spec sum_left sample None (Some (jan 2)) (Some (jan 3))).
  repeat constructor; by eexists.
Defined.

Example total_ex :
  total sum_left sample None (Some (jan 2)) (Some (jan 3)) = Some 5.25%float ∧
  total sum_left sample (Some "Food") None None = Some 14.75%float ∧
  total sum_left sample (Some "rent") None None = Some 0%float.
Proof. repeat split; reflexivity. Qed.

Lemma summary_step_lookup (m : gmap string float) (e : expense) (k : string) :
  summary_step m e !! k =
  if String.eqb (exp_category e) k
  then Some (PrimFloat.add (default 0%float (m !! k)) (exp_amount e))
  else m !! k.
Proof.
  unfold summary_step. destruct (String.eqb_spec (exp_category e) k) as [->|Hne].
  - by rewrite lookup_insert_eq.
  - by rewrite lookup_insert_ne.
Qed.

Lemma summary_fold_lookup (l : list expense) (m : gmap string float) (k : string) :
  foldl summary_step m l !! k =
  match List.filter (λ e, String.eqb (exp_category e) k) l with
  | [] => m !! k
  | l' => Some (foldl PrimFloat.add (default 0%float (m !! k)) (exp_amount <$> l'))
  end.
Proof.
  revert m. induction l as [|e l IH]; intros m; simpl; [done|].
  rewrite IH, summary_step_lookup.
  destruct (String.eqb (exp_category e) k); simpl; [|done].
  by destruct (List.filter _ l).
Qed.

(** C10: on a store whose dates are all in [%Y-%m-%d] form, the
    summary is made from the records of the store within the bounds,
    latest date first; its keys are exactly the category strings of
    these records, letter for letter, and the value at a key adds up the
    amounts of the records of exactly that category: two categories that
    differ only in letter case are two keys, each with its own sum,
    although [filter_expenses] takes them for the same category. *)
Theorem summary_by_category_spec (expenses : store) (start end_ : option datetime) :
  dates_ok expenses →
  ∃ selected summary,
    filter_expenses expenses None start end_ = Some selected ∧
    selected = sorted_desc (List.filter (date_within start end_) expenses) ∧
    selected ≡ₚ List.filter (date_within start end_) expenses ∧
    summary_by_category expenses start end_ = Some summary ∧
    (∀ k, is_Some (summary !! k) ↔
          ∃ e, e ∈ expenses ∧ date_within start end_ e = true ∧ exp_category e = k) ∧
    (∀ k v, summary !! k = Some v → v = category_sum k selected) ∧
    (∀ e1 e2, e1 ∈ expenses → e2 ∈ expenses →
       date_within start end_ e1 = true → date_within start end_ e2 = true →
       exp_category e1 ≠ exp_category e2 →
       ci_equal (exp_category e1) (exp_category e2) = true →
       summary !! exp_category e1 = Some (category_sum (exp_category e1) selected) ∧
       summary !! exp_category e2 = Some (category_sum (exp_category e2) selected) ∧
       ∀ c, ci_equal (exp_category e1) c = true →
            ∃ res, filter_expenses expenses (Some c) start end_ = Some res ∧
                   e1 ∈ res ∧ e2 ∈ res).
Proof.
  intros Hok. unfold summary_by_category.
  rewrite filter_expenses_kept by done. simpl.
  set (selected := sorted_desc _). exists selected, (foldl summary_step ∅ selected).
  assert (selected ≡ₚ List.filter (date_within start end_) expenses) as Hperm
    by apply sorted_desc_perm.
  assert (∀ e, e ∈ selected ↔ e ∈ expenses ∧ date_within start end_ e = true) as Hsel.
  { intros e. rewrite Hperm, !list_elem_of_In. apply filter_In. }
  split; [done|]. split; [done|]. split; [done|]. split; [done|].
  assert (∀ k, (∃ e, e ∈ selected ∧ exp_category e = k) →
               foldl summary_step ∅ selected !! k = Some (category_sum k selected)) as Hin.
  { intros k (e & He & Hk). rewrite summary_fold_lookup. unfold category_sum.
    destruct (List.filter _ selected) as [|x l'] eqn:Hf; [|by rewrite lookup_empty].
    exfalso. assert (In e []) as []. rewrite <- Hf. apply filter_In.
    split; [by apply list_elem_of_In | by apply String.eqb_eq]. }
  assert (∀ k, is_Some (foldl summary_step ∅ selected !! k) →
               ∃ e, e ∈ selected ∧ exp_category e = k) as Hout.
  { intros k [v Hv]. rewrite summary_fold_lookup in Hv.
    destruct (List.filter _ selected) as [|x l'] eqn:Hf; [by rewrite lookup_empty in Hv|].
    assert (In x (List.filter (λ e, String.eqb (exp_category e) k) selected)) as Hx
      by (rewrite Hf; by left).
    apply filter_In in Hx as [Hx Hk]. exists x.
    split; [by apply list_elem_of_In | by apply String.eqb_eq]. }
  split; [|split].
  - intros k. split.
    + intros (e & He & Hk)%Hout. apply Hsel in He as [He Hd]. by exists e.
    + intros (e & He & Hd & Hk). rewrite (Hin k); [by eexists|].
      exists e. split; [|done]. by apply Hsel.
  - intros k v Hv. rewrite (Hin k) in Hv; [congruence|]. apply Hout. by eexists.
  - intros e1 e2 H1 H2 Hd1 Hd2 _ Hci.
    split; [apply Hin; exists e1; split; [by apply Hsel | done]|].
    split; [apply Hin; exists e2; split; [by apply Hsel | done]|].
    intros c Hc. rewrite filter_expenses_kept by done. eexists. split; [done|].
    assert (ci_equal (exp_category e2) c = true) as Hc2.
    { unfold ci_equal in *. apply String.eqb_eq in Hci, Hc. apply String.eqb_eq. congruence. }
    split; rewrite sorted_desc_perm, list_elem_of_In; apply filter_In;
      (split; [by apply list_elem_of_In|]); unfold kept.
    + by rewrite Hc, Hd1, orb_true_r.
    + by rewrite Hc2, Hd2, orb_true_r.
Qed.

Lemma sample_dates_ok : dates_ok sample.
Proof. repeat constructor; by eexists. Qed.

Lemma summary_by_category_spec_witness :
  ∃ summary,
    summary_by_category sample None None = Some summary ∧
    summary !! "Food" = Some 12.5%float ∧ summary !! "food" = Some 2.25%float ∧
    summary !! "transport" = Some 3%float ∧ summary !! "FOOD" = None ∧
    ∃ res, filter_expenses sample (Some "FOOD") None None = Some res ∧
           lunch ∈ res ∧ snack ∈ res.
Proof.
  destruct (summary_by_category_spec sample None None sample_dates_ok)
    as (selected & summary & Hf & Heq & Hperm & Hs & Hkeys & Hsum & Hcase).
  exists summary. split; [exact Hs|].
  assert (lunch ∈ sample ∧ snack ∈ sample ∧ bus ∈ sample) as (Hl & Hn & Hb)
    by (unfold sample; repeat constructor).
  destruct (Hcase lunch snack Hl Hn eq_refl eq_refl ltac:(done) eq_refl)
    as (H1 & H2 & Hres).
  rewrite Heq in H1, H2. split; [exact H1|]. split; [exact H2|]. split; [|split].
  - destruct (proj2 (Hkeys "transport")) as [v Hv]; [by exists bus|].
    rewrite Hv. f_equal. rewrite (Hsum _ _ Hv), Heq. reflexivity.
  - destruct (summary !! "FOOD") as [v|] eqn:Hv; [exfalso|done].
    destruct (proj1 (Hkeys "FOOD") ltac:(by eexists)) as (e & He & _ & Hc).
    unfold sample in He.
    repeat (apply elem_of_cons in He as [->|He]);
      [by vm_compute in Hc..|by apply elem_of_nil in He].
  - apply (Hres "FOOD"). reflexivity.
Defined.

Example summary_by_category_ex :
  ∃ summary, summary_by_category sample None None = Some summary ∧
    summary !! "Food" = Some 12.5%float ∧ summary !! "food" = Some 2.25%float ∧
    summary !! "transport" = Some 3%float ∧ summary !! "FOOD" = None ∧
    ci_equal "Food" "food" = true.
Proof. eexists. split; [reflexivity|]. repeat split; vm_compute; reflexivity. Qed.

(** ** [parse_date] *)

Lemma parse_date_now (fromisoformat : string → option datetime) (now : datetime)
    (text : string) :
  means_now text → parse_date fromisoformat now text = Some now.
Proof.
  unfold means_now, parse_date. intros [H|[H|H]].
  - by rewrite H.
  - rewrite H. by destruct (bool_decide (PyStr.strip text = "")).
  - rewrite H. by destruct (bool_decide (PyStr.strip text = "")).
Qed.

Lemma parse_date_formats (fromisoformat : string → option datetime) (now : datetime)
    (text : string) :
  ¬ means_now text →
  parse_date fromisoformat now text =
  match Strptime.strptime (PyStr.strip text) "%Y-%m-%d" with
  | Some d => Some d
  | None =>
      match Strptime.strptime (PyStr.strip text) "%d-%m-%Y" with
      | Some d => Some d
      | None =>
          match Strptime.strptime (PyStr.strip text) "%d/%m/%Y" with
          | Some d => Some d
          | None => fromisoformat (PyStr.strip text)
          end
      end
  end.
Proof.
  unfold means_now, parse_date. intros Hn.
  rewrite bool_decide_eq_false_2 by tauto.
  rewrite bool_decide_eq_false_2.
  - simpl. repeat case_match; congruence.
  - intros Hin. apply Hn. right.
    apply elem_of_cons in Hin as [H|Hin]; [by left|].
    apply elem_of_cons in Hin as [H|Hin]; [by right|]. by apply elem_of_nil in Hin.
Qed.

(** C8: [parse_date] returns the current time when the trimmed text is
    empty or is [today] or [t] in any letter case; otherwise the result
    of the first of [%Y-%m-%d], [%d-%m-%Y], [%d/%m/%Y] that reads the
    trimmed text, and when none does, that of [fromisoformat]; it
    signals the format error exactly when all four fail; and
    [01-02-2024] is the first of February. *)
Theorem parse_date_spec (fromisoformat : string → option datetime) (now : datetime)
    (text : string) :
  let t := PyStr.strip text in
  let try_ fmt := Strptime.strptime t fmt in
  (means_now text → parse_date fromisoformat now text = Some now) ∧
  (¬ means_now text →
     (∀ d, try_ "%Y-%m-%d" = Some d → parse_date fromisoformat now text = Some d) ∧
     (∀ d, try_ "%Y-%m-%d" = None → try_ "%d-%m-%Y" = Some d →
           parse_date fromisoformat now text = Some d) ∧
     (∀ d, try_ "%Y-%m-%d" = None → try_ "%d-%m-%Y" = None → try_ "%d/%m/%Y" = Some d →
           parse_date fromisoformat now text = Some d) ∧
     (try_ "%Y-%m-%d" = None → try_ "%d-%m-%Y" = None → try_ "%d/%m/%Y" = None →
      parse_date fromisoformat now text = fromisoformat t)) ∧
  (parse_date fromisoformat now text = None ↔
     ¬ means_now text ∧ try_ "%Y-%m-%d" = None ∧ try_ "%d-%m-%Y" = None ∧
     try_ "%d/%m/%Y" = None ∧ fromisoformat t = None) ∧
  parse_date fromisoformat now "01-02-2024" = Some (mk_datetime 2024 2 1 0 0 0 0).
Proof.
  intros t try_. subst t try_. simpl.
  split; [apply parse_date_now|]. split; [|split; [|reflexivity]].
  - intros Hn. rewrite (parse_date_formats _ _ _ Hn).
    repeat split; intros; repeat case_match; congruence.
  - split.
    + intros Hnone. destruct (decide (means_now text)) as [Hy|Hn].
      * by rewrite parse_date_now in Hnone.
      * rewrite (parse_date_formats _ _ _ Hn) in Hnone.
        split; [done|]. repeat case_match; try done.
    + intros (Hn & H1 & H2 & H3 & H4).
      by rewrite (parse_date_formats _ _ _ Hn), H1, H2, H3.
Qed.

Example parse_date_ex (now : datetime) :
  let iso := λ _ : string, None in
  parse_date iso now "  " = Some now ∧
  parse_date iso now " ToDay " = Some now ∧
  parse_date iso now "T" = Some now ∧
  parse_date iso now "2024-03-04" = Some (mk_datetime 2024 3 4 0 0 0 0) ∧
  parse_date iso now "04-03-2024" = Some (mk_datetime 2024 3 4 0 0 0 0) ∧
  parse_date iso now "4/3/2024" = Some (mk_datetime 2024 3 4 0 0 0 0) ∧
  parse_date iso now "13-13-2024" = None ∧
  parse_date iso now "tomorrow" = None.
Proof. repeat split; reflexivity. Qed.

(** ** [str] and [int] on identifiers *)

Lemma int_digits_uint (u : uint) (acc : Z) :
  PyStr.int_digits acc (NilEmpty.string_of_uint u) = Some (uint_value u acc).
Proof. revert acc. induction u; intros acc; simpl; try done; apply IHu. Qed.

Lemma of_uint_acc_value (u : uint) (acc : positive) :
  Z.pos (Pos.of_uint_acc u acc) = uint_value u (Z.pos acc).
Proof.
  revert acc. induction u; intros acc; simpl; try done;
    rewrite IHu; f_equal; lia.
Qed.

Lemma of_uint_value (u : uint) : Z.of_N (Pos.of_uint u) = uint_value u 0.
Proof.
  induction u; simpl; try done; rewrite of_uint_acc_value; f_equal.
Qed.

Lemma to_uint_value (p : positive) : uint_value (Pos.to_uint p) 0 = Z.pos p.
Proof. by rewrite <- of_uint_value, Unsigned.of_to. Qed.

Lemma int_body_uint (u : uint) :
  u ≠ Nil → PyStr.int_body (NilEmpty.string_of_uint u) = Some (uint_value u 0).
Proof. destruct u; [done|..]; intros _; simpl; apply int_digits_uint. Qed.

Lemma no_space_uint (u : uint) : no_space (NilEmpty.string_of_uint u) = true.
Proof. induction u; simpl; done. Qed.

Lemma rstrip_no_space (s : string) : no_space s = true → PyStr.rstrip s = s.
Proof.
  induction s as [|c r IH]; simpl; [done|].
  intros [Hc Hr]%andb_true_iff. rewrite (IH Hr).
  destruct r; [|done]. by destruct (PyStr.is_space c).
Qed.

Lemma strip_no_space (s : string) : no_space s = true → PyStr.strip s = s.
Proof.
  intros H. unfold PyStr.strip.
  assert (PyStr.lstrip s = s) as ->; [|by apply rstrip_no_space].
  destruct s as [|c r]; simpl in *; [done|]. by destruct (PyStr.is_space c).
Qed.

(** The white space of [int] is white space of [strip] too. *)
Lemma c_space_is_space (c : ascii) : PyStr.is_c_space c = true → PyStr.is_space c = true.
Proof. destruct c as [[] [] [] [] [] [] [] []]; by vm_compute. Qed.

Lemma not_space_not_c_space (c : ascii) :
  negb (PyStr.is_space c) = true → PyStr.is_c_space c = false.
Proof.
  intros H. destruct (PyStr.is_c_space c) eqn:E; [|done].
  apply c_space_is_space in E. by rewrite E in H.
Qed.

Lemma strip_c_no_space (s : string) : no_space s = true → PyStr.strip_c s = s.
Proof.
  intros H. unfold PyStr.strip_c.
  assert (∀ t, no_space t = true → PyStr.rstrip_by PyStr.is_c_space t = t) as Hr.
  { induction t as [|c r IH]; simpl; [done|].
    intros [Hc Hr]%andb_true_iff. rewrite (IH Hr), (not_space_not_c_space c Hc).
    by destruct r. }
  assert (PyStr.lstrip_by PyStr.is_c_space s = s) as ->; [|by apply Hr].
  destruct s as [|c r]; simpl in *; [done|].
  apply andb_true_iff in H as [Hc _]. by rewrite (not_space_not_c_space c Hc).
Qed.

Lemma digit_count_nonneg (s : string) : 0 ≤ PyStr.digit_count s.
Proof.
  induction s as [|c r IH]; cbn [PyStr.digit_count]; [done|].
  destruct (PyStr.is_digit c); lia.
Qed.

Lemma digit_count_uint (u : uint) :
  PyStr.digit_count (NilEmpty.string_of_uint u) = Z.of_nat (nb_digits u).
Proof.
  induction u; cbn [NilEmpty.string_of_uint PyStr.digit_count nb_digits]; [done|..];
    rewrite IHu, Nat2Z.inj_succ; change (PyStr.is_digit _) with true; lia.
Qed.

Lemma pow10_pos (k : Z) : 0 ≤ k → 0 < 10 ^ k.
Proof. intros Hk. by apply Z.pow_pos_nonneg. Qed.

(** The digits [u] after the value [acc] give a number that starts with
    [acc]. *)
Lemma uint_value_range (u : uint) (acc : Z) :
  0 ≤ acc →
  acc * 10 ^ Z.of_nat (nb_digits u) ≤ uint_value u acc
    < (acc + 1) * 10 ^ Z.of_nat (nb_digits u).
Proof.
  revert acc. induction u; intros acc Hacc; cbn [uint_value nb_digits];
    [rewrite Z.pow_0_r; lia | ..];
    rewrite Nat2Z.inj_succ, Z.pow_succ_r by lia;
    (match goal with
     | |- context [uint_value u ?a] => specialize (IHu a ltac:(lia))
     end);
    pose proof (pow10_pos (Z.of_nat (nb_digits u)) ltac:(lia)); nia.
Qed.

Lemma uint_value_lower (u : uint) :
  u ≠ Nil → (∀ u', u ≠ D0 u') →
  10 ^ (Z.of_nat (nb_digits u) - 1) ≤ uint_value u 0.
Proof.
  intros Hn H0. destruct u; [done | by destruct (H0 u) | ..];
    cbn [uint_value nb_digits]; rewrite Nat2Z.inj_succ;
    replace (Z.succ (Z.of_nat (nb_digits u)) - 1) with (Z.of_nat (nb_digits u)) by lia;
    (match goal with
     | |- context [uint_value u ?a] => pose proof (uint_value_range u a ltac:(lia))
     end);
    pose proof (pow10_pos (Z.of_nat (nb_digits u)) ltac:(lia)); nia.
Qed.

(** The decimal digits of a positive number do not start with a zero. *)
Lemma to_uint_head (p : positive) (u : uint) : Pos.to_uint p ≠ D0 u.
Proof.
  pose proof (Unsigned.to_of (Pos.to_uint p)) as H. rewrite Unsigned.of_to in H.
  simpl in H. unfold unorm in H.
  pose proof (DecimalFacts.nzhead_nonzero (Pos.to_uint p) u) as Hnz.
  destruct (nzhead (Pos.to_uint p)) eqn:E; try (by rewrite H).
  by destruct (Unsigned.to_uint_nonzero p).
Qed.

Lemma digit_val_Some (c : ascii) (d : Z) :
  PyStr.digit_val c = Some d → PyStr.is_digit c = true ∧ 0 ≤ d ≤ 9.
Proof.
  intros H. destruct c as [[] [] [] [] [] [] [] []]; vm_compute in H; try done;
    injection H as <-; (split; [reflexivity | lia]).
Qed.

(** The digits [s] of a literal after the value [acc] give a number
    that starts with [acc]. *)
Lemma int_digits_range (s : string) :
  (∀ acc z, 0 ≤ acc → PyStr.int_digits acc s = Some z →
     acc * 10 ^ PyStr.digit_count s ≤ z < (acc + 1) * 10 ^ PyStr.digit_count s) ∧
  (∀ c acc z, 0 ≤ acc → PyStr.int_digits acc (String c s) = Some z →
     acc * 10 ^ PyStr.digit_count (String c s) ≤ z
       < (acc + 1) * 10 ^ PyStr.digit_count (String c s)).
Proof.
  assert (∀ r c acc z,
    (∀ acc z, 0 ≤ acc → PyStr.int_digits acc r = Some z →
       acc * 10 ^ PyStr.digit_count r ≤ z < (acc + 1) * 10 ^ PyStr.digit_count r) →
    0 ≤ acc → PyStr.digit_val c = Some z →
    ∀ y, PyStr.int_digits (10 * acc + z) r = Some y →
    acc * 10 ^ (1 + PyStr.digit_count r) ≤ y < (acc + 1) * 10 ^ (1 + PyStr.digit_count r))
    as Hdigit.
  { intros r c acc d IH Hacc Hd y Hy. destruct (digit_val_Some c d Hd) as [_ Hr].
    pose proof (IH (10 * acc + d) y ltac:(lia) Hy) as Hb.
    pose proof (digit_count_nonneg r) as Hn. pose proof (pow10_pos _ Hn) as Hp.
    rewrite Z.pow_add_r, Z.pow_1_r by lia. nia. }
  induction s as [|c' r [IH1 IH2]].
  - split.
    + intros acc z _ [= <-]. simpl. lia.
    + intros c acc z Hacc. cbn [PyStr.int_digits PyStr.digit_count].
      destruct (PyStr.digit_val c) as [d|] eqn:Hd.
      * destruct (digit_val_Some c d Hd) as [-> Hr]. intros [= <-]. simpl. lia.
      * by destruct (Ascii.eqb c "_").
  - split; [intros acc z; apply IH2|].
    intros c acc z Hacc. cbn [PyStr.int_digits].
    destruct (PyStr.digit_val c) as [d|] eqn:Hd.
    + destruct (digit_val_Some c d Hd) as [Hc _]. intros Hz.
      cbn [PyStr.digit_count]. rewrite Hc.
      cbn [PyStr.digit_count] in Hdigit.
      apply (Hdigit (String c' r) c acc d); try done. intros a y. apply IH2.
    + destruct (Ascii.eqb_spec c "_") as [->|_]; [|done].
      destruct (PyStr.digit_val c') as [d|] eqn:Hd'; [|done].
      destruct (digit_val_Some c' d Hd') as [Hc' _]. intros Hz.
      cbn [PyStr.digit_count]. rewrite Hc'. change (PyStr.is_digit "_") with false.
      rewrite Z.add_0_l. by apply (Hdigit r c' acc d).
Qed.

Lemma id_limit_pos : 1000000 ≤ id_limit.
Proof.
  unfold id_limit, PyStr.max_str_digits. change 1000000 with (10 ^ 6).
  apply Z.pow_le_mono_r; lia.
Qed.

Lemma int_limited_range (s : string) (z : Z) :
  PyStr.int_limited s = Some z → 0 ≤ z < id_limit.
Proof.
  unfold PyStr.int_limited.
  destruct (Z.ltb_spec PyStr.max_str_digits (PyStr.digit_count s)) as [|Hle]; [done|].
  destruct s as [|c r]; [done|]. cbn [PyStr.int_body].
  destruct (PyStr.digit_val c) as [d|] eqn:Hd; [|done]. intros Hz.
  destruct (digit_val_Some c d Hd) as [Hc Hr].
  pose proof (proj1 (int_digits_range r) d z ltac:(lia) Hz) as Hb.
  cbn [PyStr.digit_count] in Hle. rewrite Hc in Hle.
  pose proof (digit_count_nonneg r) as Hn. pose proof (pow10_pos _ Hn) as Hp.
  assert (10 ^ (1 + PyStr.digit_count r) ≤ id_limit) as Hl
    by (apply Z.pow_le_mono_r; lia).
  rewrite Z.pow_add_r, Z.pow_1_r in Hl by lia. nia.
Qed.

Lemma int_inv (s : string) (z : Z) :
  PyStr.int s = Some z →
  ∃ t, PyStr.int_limited t = Some z ∨ PyStr.int_limited t = Some (- z).
Proof.
  unfold PyStr.int.
  destruct (PyStr.strip_c s) as [|c t]; [intros H; eexists; left; exact H|].
  destruct c as [[] [] [] [] [] [] [] []]; cbv beta iota;
    first [ intros H; eexists; left; exact H
          | destruct (PyStr.int_limited t) as [y|] eqn:E; [|done];
            simpl; intros [= <-]; exists t; right; rewrite E; f_equal; lia ].
Qed.

(** [int] reads only numbers of at most [max_str_digits] digits. *)
Lemma int_range (s : string) (z : Z) : PyStr.int s = Some z → - id_limit < z < id_limit.
Proof.
  intros (t & [H|H])%int_inv; apply int_limited_range in H; lia.
Qed.

Lemma decimal_pos (p : positive) :
  PyStr.decimal (Z.pos p) = NilEmpty.string_of_uint (Pos.to_uint p).
Proof.
  unfold PyStr.decimal. simpl. pose proof (Unsigned.to_uint_nonnil p).
  by destruct (Pos.to_uint p).
Qed.

Lemma decimal_neg (p : positive) :
  PyStr.decimal (Z.neg p) = String "-" (NilEmpty.string_of_uint (Pos.to_uint p)).
Proof.
  unfold PyStr.decimal. simpl. pose proof (Unsigned.to_uint_nonnil p).
  by destruct (Pos.to_uint p).
Qed.

Lemma digits_to_uint (p : positive) :
  Z.pos p < id_limit → Z.of_nat (nb_digits (Pos.to_uint p)) ≤ PyStr.max_str_digits.
Proof.
  intros Hp.
  pose proof (uint_value_lower (Pos.to_uint p) (Unsigned.to_uint_nonnil p) (to_uint_head p))
    as Hl.
  rewrite to_uint_value in Hl.
  destruct (Z.le_gt_cases (Z.of_nat (nb_digits (Pos.to_uint p))) PyStr.max_str_digits)
    as [|Hgt]; [done|].
  assert (id_limit ≤ 10 ^ (Z.of_nat (nb_digits (Pos.to_uint p)) - 1)) as Hm
    by (apply Z.pow_le_mono_r; lia).
  lia.
Qed.

(** A number strictly between [- id_limit] and [id_limit] has at most
    [max_str_digits] digits. *)
Lemma digit_count_decimal (n : Z) :
  - id_limit < n < id_limit → PyStr.digit_count (PyStr.decimal n) ≤ PyStr.max_str_digits.
Proof.
  intros Hn. destruct n as [|p|p].
  - by vm_compute.
  - rewrite decimal_pos, digit_count_uint. apply digits_to_uint. lia.
  - rewrite decimal_neg. cbn [PyStr.digit_count]. change (PyStr.is_digit "-") with false.
    rewrite Z.add_0_l, digit_count_uint. apply digits_to_uint. lia.
Qed.

(** [str] writes the numbers strictly between [- id_limit] and
    [id_limit]. *)
Lemma str_Some (n : Z) : - id_limit < n < id_limit → PyStr.str n = Some (PyStr.decimal n).
Proof.
  intros Hn%digit_count_decimal. unfold PyStr.str. simpl.
  by destruct (Z.ltb_spec PyStr.max_str_digits (PyStr.digit_count (PyStr.decimal n))); [lia|].
Qed.

(** [str] raises from [id_limit] on. *)
Lemma str_None (n : Z) : id_limit ≤ n → PyStr.str n = None.
Proof.
  intros Hn. pose proof id_limit_pos as Hl. destruct n as [|p|p]; [lia| |lia].
  unfold PyStr.str. simpl. rewrite decimal_pos, digit_count_uint.
  destruct (Z.ltb_spec PyStr.max_str_digits (Z.of_nat (nb_digits (Pos.to_uint p))))
    as [|Hle]; [done|exfalso].
  pose proof (uint_value_range (Pos.to_uint p) 0 ltac:(lia)) as [_ Hu].
  rewrite to_uint_value, Z.add_0_l, Z.mul_1_l in Hu.
  assert (10 ^ Z.of_nat (nb_digits (Pos.to_uint p)) ≤ id_limit) as Hp
    by (apply Z.pow_le_mono_r; lia).
  lia.
Qed.

Lemma str_inv (n : Z) (s : string) :
  PyStr.str n = Some s →
  s = PyStr.decimal n ∧ PyStr.digit_count (PyStr.decimal n) ≤ PyStr.max_str_digits.
Proof.
  unfold PyStr.str. simpl.
  destruct (Z.ltb_spec PyStr.max_str_digits (PyStr.digit_count (PyStr.decimal n)));
    [done|]. by intros [= <-].
Qed.

Lemma int_uint (u : uint) :
  u ≠ Nil → Z.of_nat (nb_digits u) ≤ PyStr.max_str_digits →
  PyStr.int_limited (NilEmpty.string_of_uint u) = Some (uint_value u 0).
Proof.
  intros Hu Hd. unfold PyStr.int_limited. rewrite digit_count_uint.
  destruct (Z.ltb_spec PyStr.max_str_digits (Z.of_nat (nb_digits u))); [lia|].
  by apply int_body_uint.
Qed.

Lemma int_decimal (n : Z) :
  PyStr.digit_count (PyStr.decimal n) ≤ PyStr.max_str_digits →
  PyStr.int (PyStr.decimal n) = Some n.
Proof.
  destruct n as [|p|p].
  - intros _. reflexivity.
  - rewrite decimal_pos, digit_count_uint. intros Hd.
    rewrite <- (to_uint_value p), <- (int_uint _ (Unsigned.to_uint_nonnil p) Hd).
    unfold PyStr.int. rewrite strip_c_no_space by apply no_space_uint.
    by destruct (Pos.to_uint p).
  - rewrite decimal_neg. cbn [PyStr.digit_count]. change (PyStr.is_digit "-") with false.
    rewrite Z.add_0_l, digit_count_uint. intros Hd.
    unfold PyStr.int. rewrite strip_c_no_space by (simpl; apply no_space_uint).
    rewrite (int_uint _ (Unsigned.to_uint_nonnil p) Hd). simpl.
    by rewrite to_uint_value.
Qed.

(** The largest number that [int] reads is written with
    [max_str_digits] nines. *)
Lemma int_digits_nines (k : nat) (acc : Z) :
  PyStr.int_digits acc (nines k) = Some ((acc + 1) * 10 ^ Z.of_nat k - 1).
Proof.
  revert acc. induction k as [|k IH]; intros acc.
  - cbn [nines PyStr.int_digits]. rewrite Z.pow_0_r. f_equal. lia.
  - cbn [nines PyStr.int_digits]. change (PyStr.digit_val "9") with (Some 9).
    cbv beta iota. rewrite IH, Nat2Z.inj_succ, Z.pow_succ_r by lia. f_equal; ring.
Qed.

Lemma digit_count_nines (k : nat) : PyStr.digit_count (nines k) = Z.of_nat k.
Proof.
  induction k as [|k IH]; [done|]. cbn [nines PyStr.digit_count].
  change (PyStr.is_digit "9") with true. rewrite IH. lia.
Qed.

Lemma no_space_nines (k : nat) : no_space (nines k) = true.
Proof. induction k as [|k IH]; [done|]. cbn [nines no_space]. by rewrite IH. Qed.

Lemma int_nines (k : nat) :
  Z.of_nat (S k) ≤ PyStr.max_str_digits → PyStr.int (nines (S k)) = Some (10 ^ Z.of_nat (S k) - 1).
Proof.
  intros Hk. unfold PyStr.int. rewrite strip_c_no_space by apply no_space_nines.
  change (nines (S k)) with (String "9" (nines k)). cbv beta iota.
  unfold PyStr.int_limited. change (String "9" (nines k)) with (nines (S k)).
  rewrite digit_count_nines.
  destruct (Z.ltb_spec PyStr.max_str_digits (Z.of_nat (S k))) as [|_]; [lia|].
  cbn [nines PyStr.int_body]. change (PyStr.digit_val "9") with (Some 9). cbv beta iota.
  rewrite int_digits_nines, Nat2Z.inj_succ, Z.pow_succ_r by lia. f_equal; ring.
Qed.

(** [int] reads back what [str] writes. *)
Lemma int_str (n : Z) (s : string) : PyStr.str n = Some s → PyStr.int s = Some n.
Proof. intros [-> Hd]%str_inv. by apply int_decimal. Qed.

(** ** Assigning ids *)

Lemma max_list_le_acc (x : Z) (l : list Z) : x ≤ max_list x l.
Proof.
  unfold max_list. revert x. induction l as [|y l IH]; intros x; simpl; [done|].
  etrans; [|apply IH]. lia.
Qed.

Lemma max_list_ge (x : Z) (l : list Z) (z : Z) : z ∈ x :: l → z ≤ max_list x l.
Proof.
  revert x. induction l as [|y l IH]; intros x Hz.
  - apply list_elem_of_singleton in Hz as ->. apply max_list_le_acc.
  - apply elem_of_cons in Hz as [->|Hz]; [apply max_list_le_acc|].
    change (max_list x (y :: l)) with (max_list (Z.max x y) l).
    apply elem_of_cons in Hz as [->|Hz].
    + etrans; [|apply max_list_le_acc]. lia.
    + apply IH. by right.
Qed.

Lemma max_list_in (x : Z) (l : list Z) : max_list x l ∈ x :: l.
Proof.
  unfold max_list. revert x. induction l as [|y l IH]; intros x; simpl; [by left|].
  specialize (IH (Z.max x y)). apply elem_of_cons in IH as [->|IH].
  - destruct (Z.max_spec x y) as [[_ ->]|[_ ->]]; [right; by left | by left].
  - by do 2 right.
Qed.

Lemma next_id_ok (expenses : store) :
  ids_ok expenses → ∃ n, _next_id expenses = Some n ∧ is_next_id expenses n.
Proof.
  intros Hok. destruct expenses as [|e0 l]; [by exists 1|].
  set (s := e0 :: l) in *.
  destruct (mapM_is_Some_2 (λ e, PyStr.int (exp_id e)) s Hok) as [zs Hzs].
  pose proof (mapM_Some_1 _ _ _ Hzs) as HF.
  destruct zs as [|n ns]; [by inversion HF|].
  exists (max_list n ns + 1). split.
  { unfold _next_id. subst s. by rewrite Hzs. }
  unfold is_next_id. subst s. replace (max_list n ns + 1 - 1) with (max_list n ns) by lia.
  split.
  - pose proof (max_list_in n ns) as Hin. apply list_elem_of_lookup in Hin as [i Hi].
    destruct (Forall2_lookup_r _ _ _ _ _ HF Hi) as (e & He & Hv).
    exists e. split; [by eapply list_elem_of_lookup_2 | done].
  - intros e z He Hv. apply list_elem_of_lookup in He as [i Hi].
    destruct (Forall2_lookup_l _ _ _ _ _ HF Hi) as (z' & Hz' & Hv').
    unfold id_value in Hv. assert (z' = z) as -> by congruence.
    apply max_list_ge. by eapply list_elem_of_lookup_2.
Qed.

Lemma is_next_id_above (expenses : store) (n : Z) (x : expense) (z : Z) :
  is_next_id expenses n → x ∈ expenses → id_value x = Some z → z < n.
Proof.
  destruct expenses as [|e0 l]; [by intros _ ?%elem_of_nil|].
  intros [_ Hmax] Hx Hz. specialize (Hmax x z Hx Hz). lia.
Qed.

Lemma ids_room_le (k j : Z) (expenses : store) :
  j ≤ k → ids_room k expenses → ids_room j expenses.
Proof.
  intros Hj [Hk Hroom]. split; [lia|].
  intros e z He Hz. specialize (Hroom e z He Hz). lia.
Qed.

Lemma ids_room_sublist (k : Z) (expenses expenses' : store) :
  expenses' `sublist_of` expenses → ids_room k expenses → ids_room k expenses'.
Proof.
  intros Hsub [Hk Hroom]. split; [done|].
  intros e z He. apply Hroom. by eapply elem_of_sublist.
Qed.

(** The next id of a store with room for one more is one that [str]
    writes. *)
Lemma next_id_range (expenses : store) (n : Z) :
  ids_room 1 expenses → is_next_id expenses n → - id_limit < n < id_limit.
Proof.
  intros [Hk Hroom] Hnext. pose proof id_limit_pos as Hl.
  destruct expenses as [|e0 l]; [simpl in Hnext; lia|].
  destruct Hnext as [(e & He & Hv) _].
  pose proof (Hroom e _ He Hv). apply int_range in Hv. lia.
Qed.

Lemma ids_room_snoc (k : Z) (expenses : store) (n : Z) (e : expense) :
  ids_room (k + 1) expenses → is_next_id expenses n → id_value e = Some n →
  ids_room k (expenses ++ [e]).
Proof.
  intros [Hk Hroom] Hnext Hv. split; [lia|].
  intros x z [Hx|Hx%list_elem_of_singleton]%elem_of_app Hz.
  - specialize (Hroom x z Hx Hz). lia.
  - subst x. assert (z = n) as -> by congruence.
    destruct expenses as [|e0 l]; [simpl in Hnext; lia|].
    destruct Hnext as [(y & Hy & Hyv) _]. specialize (Hroom y _ Hy Hyv). lia.
Qed.

Lemma add_expense_ok (expenses : store) (amount : float) (category : string)
    (date : datetime) (note : string) :
  ids_ok expenses → ids_room 1 expenses →
  ∃ e n, e = new_record n (amount, category, date, note) ∧
         add_expense expenses amount category date note = Some ((expenses ++ [e])%list, e) ∧
         PyStr.str n = Some (exp_id e) ∧ id_value e = Some n ∧ is_next_id expenses n ∧
         (∀ x, x ∈ expenses → exp_id x ≠ exp_id e) ∧
         ids_ok (expenses ++ [e]).
Proof.
  intros Hok Hroom. destruct (next_id_ok expenses Hok) as (n & Hn & Hnext).
  pose proof (str_Some n (next_id_range _ _ Hroom Hnext)) as Hstr.
  exists (new_record n (amount, category, date, note)), n.
  split; [done|]. split; [by unfold add_expense; rewrite Hn; simpl; rewrite Hstr|].
  split; [done|].
  assert (id_value (new_record n (amount, category, date, note)) = Some n) as Hid
    by (by apply (int_str n)).
  split; [done|]. split; [done|]. split.
  - intros x Hx Heq.
    assert (id_value x = Some n) as Hv by (unfold id_value; by rewrite Heq).
    pose proof (is_next_id_above _ _ _ _ Hnext Hx Hv). lia.
  - apply Forall_app. split; [done|]. constructor; [by eexists | constructor].
Qed.

(** A store that holds the last id below [id_limit] takes no further
    record. *)
Lemma add_blocked_at_limit (expenses : store) (e : expense) (amount : float)
    (category : string) (date : datetime) (note : string) :
  ids_ok expenses → e ∈ expenses → id_value e = Some (id_limit - 1) →
  add_expense expenses amount category date note = None.
Proof.
  intros Hok He Hv. destruct (next_id_ok expenses Hok) as (n & Hn & Hnext).
  unfold add_expense. rewrite Hn. simpl. rewrite str_None; [done|].
  destruct expenses as [|e0 l]; [by apply elem_of_nil in He|].
  destruct Hnext as [_ Hmax]. specialize (Hmax e _ He Hv). lia.
Qed.

(** What a successful [add_expense] has done. *)
Lemma add_expense_inv (expenses expenses' : store) (amount : float) (category : string)
    (date : datetime) (note : string) (e : expense) :
  add_expense expenses amount category date note = Some (expenses', e) →
  ∃ n, _next_id expenses = Some n ∧ PyStr.str n = Some (exp_id e) ∧
       e = new_record n (amount, category, date, note) ∧
       expenses' = (expenses ++ [e])%list.
Proof.
  unfold add_expense. destruct (_next_id expenses) as [n|]; [|done]. simpl.
  destruct (PyStr.str n) as [i|] eqn:Hstr; [|done]. simpl.
  intros [= <- <-]. exists n. split; [done|]. split; [done|].
  apply str_inv in Hstr as [-> _]. done.
Qed.

Lemma delete_expense_sublist (expenses expenses' : store) (id_str : string) (b : bool) :
  delete_expense expenses id_str = Some (expenses', b) → expenses' `sublist_of` expenses.
Proof.
  destruct (find_by_id expenses id_str) as [[i e]|] eqn:Hf.
  - rewrite (delete_expense_found _ _ _ _ Hf). intros [= <- <-]. apply sublist_delete.
  - rewrite (delete_expense_missing _ _ Hf). by intros [= <- <-].
Qed.

Lemma delete_expense_total (expenses : store) (id_str : string) :
  is_Some (delete_expense expenses id_str).
Proof.
  destruct (find_by_id expenses id_str) as [[i e]|] eqn:Hf.
  - by rewrite (delete_expense_found _ _ _ _ Hf).
  - by rewrite (delete_expense_missing _ _ Hf).
Qed.

Lemma run_ok (ops : list op) (expenses : store) :
  ids_ok expenses → ids_room (Z.of_nat (length ops)) expenses →
  NoDup (exp_id <$> expenses) →
  ∃ expenses' ids, run expenses ops = Some (expenses', ids) ∧
                   ids_ok expenses' ∧ NoDup (exp_id <$> expenses').
Proof.
  revert expenses. induction ops as [|o ops IH]; intros s Hok Hroom Hnd.
  - by exists s, [].
  - cbn [length] in Hroom. rewrite Nat2Z.inj_succ in Hroom.
    cbn [run]. destruct o as [a c d n|id_str]; cbn [step].
    + assert (ids_room 1 s) as Hroom1 by (eapply ids_room_le; [|done]; lia).
      destruct (add_expense_ok s a c d n Hok Hroom1)
        as (e & k & _ & -> & _ & Hv & Hnext & Hfresh & Hok').
      simpl. destruct (IH (s ++ [e])%list) as (s' & ids & -> & H1 & H2); [done| | |].
      * apply (ids_room_snoc _ _ k); [|done..]. by rewrite <- Z.add_1_r in Hroom.
      * rewrite fmap_app. apply NoDup_app. split; [done|]. split; [|apply NoDup_singleton].
        intros i Hi Hi'. apply list_elem_of_singleton in Hi'. subst i.
        apply list_elem_of_fmap in Hi as (x & Hx & Hin). by apply (Hfresh x Hin).
      * simpl. by eexists _, _.
    + destruct (delete_expense_total s id_str) as [[s1 b] Hd].
      rewrite Hd. simpl. pose proof (delete_expense_sublist _ _ _ _ Hd) as Hsub.
      destruct (IH s1) as (s' & ids & -> & H1 & H2).
      * apply Forall_forall. intros x Hx. unfold ids_ok in Hok.
        rewrite Forall_forall in Hok. apply Hok. by eapply elem_of_sublist.
      * apply (ids_room_sublist _ s); [done|]. eapply ids_room_le; [|done]. lia.
      * eapply sublist_NoDup; [done|]. by apply (fmap_sublist exp_id).
      * simpl. by eexists _, _.
Qed.

(** C1 (as amended): on a store whose ids are integer literals with room
    for one more below the limit of [max_str_digits] digits,
    [add_expense] gives the new record the id [max + 1] of the ids then
    in the store ([1] for the empty store), which is strictly greater
    than, and so different from, every id in the store; and in every run
    of adds and deletes from a store with pairwise different ids and
    room for as many ids as the run has calls, no call raises and the
    ids in the store stay pairwise different. *)
Theorem next_id_spec (expenses : store) (amount : float) (category : string)
    (date : datetime) (note : string) :
  ids_ok expenses → ids_room 1 expenses →
  ∃ e n, add_expense expenses amount category date note = Some ((expenses ++ [e])%list, e) ∧
         PyStr.str n = Some (exp_id e) ∧ id_value e = Some n ∧ is_next_id expenses n ∧
         (∀ x z, x ∈ expenses → id_value x = Some z → z < n) ∧
         (∀ x, x ∈ expenses → exp_id x ≠ exp_id e) ∧
         (NoDup (exp_id <$> expenses) →
            ∀ ops, ids_room (Z.of_nat (length ops)) expenses →
              ∃ expenses' ids, run expenses ops = Some (expenses', ids) ∧
                               ids_ok expenses' ∧ NoDup (exp_id <$> expenses')).
Proof.
  intros Hok Hroom.
  destruct (add_expense_ok expenses amount category date note Hok Hroom)
    as (e & n & _ & Hadd & Hstr & Hval & Hnext & Hfresh & _).
  exists e, n. repeat (split; [done|]). split; [|split; [done|]].
  - intros x z. by apply is_next_id_above.
  - intros Hnd ops Hops. by apply run_ok.
Qed.

Lemma sample_ids_ok : ids_ok sample.
Proof. repeat constructor; by eexists. Qed.

Lemma sample_ids_room (k : Z) : k ≤ 1000 → ids_room k sample.
Proof.
  intros Hk. pose proof id_limit_pos as Hl. split; [lia|].
  intros e z He Hz. unfold sample in He.
  repeat (apply elem_of_cons in He as [->|He]); [..|by apply elem_of_nil in He];
    vm_compute in Hz; injection Hz as <-; lia.
Qed.

Lemma next_id_spec_witness :
  ∃ e n, add_expense sample 4.5%float " fuel " (jan 5) "" = Some ((sample ++ [e])%list, e) ∧
         PyStr.str n = Some (exp_id e) ∧ id_value e = Some n ∧ is_next_id sample n ∧
         (∀ x z, x ∈ sample → id_value x = Some z → z < n) ∧
         (∀ x, x ∈ sample → exp_id x ≠ exp_id e) ∧
         ∃ expenses' ids,
           run sample [Add 1%float "tea" (jan 3) ""; Delete "2"; Add 2%float "bus" (jan 4) ""]
             = Some (expenses', ids) ∧
           ids_ok expenses' ∧ NoDup (exp_id <$> expenses').
Proof.
  destruct (next_id_spec sample 4.5%float " fuel " (jan 5) "" sample_ids_ok
              (sample_ids_room 1 ltac:(lia)))
    as (e & n & Hadd & Hstr & Hval & Hnext & Hless & Hfresh & Hrun).
  exists e, n. repeat (split; [assumption|]).
  apply Hrun.
  - by apply (bool_decide_unpack _).
  - apply sample_ids_room. simpl. lia.
Defined.

Example add_expense_ex :
  add_expense [] 12.5%float "food" (jan 1) "lunch" =
    Some ([mk_expense "1" 12.5%float "food" "2024-01-01" "lunch"],
          mk_expense "1" 12.5%float "food" "2024-01-01" "lunch") ∧
  (snd <$> add_expense sample 4.5%float " fuel " (jan 5) "") =
    Some (mk_expense "4" 4.5%float "fuel" "2024-01-05" "") ∧
  add_expense [mk_expense "x1" 1%float "a" "2024-01-01" ""] 1%float "a" (jan 1) "" = None.
Proof. repeat split; reflexivity. Qed.

(** The scenario of the max-based assignment: after two adds and the
    deletion of the first record the third add gets the id [3]. *)
Example run_scenario :
  snd <$> run [] [Add 12.5%float "food" (jan 1) "lunch"; Add 3%float "bus" (jan 2) "";
                  Delete "1"; Add 1%float "tea" (jan 3) ""]
  = Some ["1"; "2"; "3"].
Proof. reflexivity. Qed.

(** C1, the claim as stated fails: when the record with the largest id
    is deleted, the next add assigns that id again. *)
Lemma next_id_reused_after_delete :
  snd <$> run [] [Add 12.5%float "food" (jan 1) "lunch"; Add 3%float "bus" (jan 2) "";
                  Delete "2"; Add 1%float "tea" (jan 3) ""]
  = Some ["1"; "2"; "2"].
Proof. reflexivity. Qed.

(** ** [import_from_json] *)

Lemma is_next_id_unique (expenses : store) (n m : Z) :
  is_next_id expenses n → is_next_id expenses m → n = m.
Proof.
  destruct expenses as [|e0 l]; simpl; [congruence|].
  intros [(x & Hx & Hxv) Hn] [(y & Hy & Hyv) Hm].
  pose proof (Hn y _ Hy Hyv). pose proof (Hm x _ Hx Hxv). lia.
Qed.

Lemma is_next_id_nonempty (expenses : store) (n : Z) :
  expenses ≠ [] →
  is_next_id expenses n ↔
  (∃ e, e ∈ expenses ∧ id_value e = Some (n - 1)) ∧
  ∀ e z, e ∈ expenses → id_value e = Some z → z ≤ n - 1.
Proof. by destruct expenses. Qed.

Lemma next_id_snoc (expenses : store) (n : Z) (e : expense) :
  ids_ok expenses → is_next_id expenses n → id_value e = Some n →
  is_next_id (expenses ++ [e]) (n + 1).
Proof.
  intros Hok Hnext He. apply is_next_id_nonempty; [by destruct expenses|].
  replace (n + 1 - 1) with n by lia. split.
  - exists e. split; [|done]. apply elem_of_app. right. by left.
  - intros x z Hx Hz. apply elem_of_app in Hx as [Hx|Hx].
    + pose proof (is_next_id_above _ _ _ _ Hnext Hx Hz). lia.
    + apply list_elem_of_singleton in Hx as ->. assert (z = n) by congruence. lia.
Qed.

Section ImportProofs.

Variable fromisoformat : string → option datetime.
Variable float_value : string → float.
Variable float_of_int : Z → option float.

Let import_args' := import_args fromisoformat float_value float_of_int.
Let import_one' := import_one fromisoformat float_value float_of_int.
Let import_loop' := import_loop fromisoformat float_value float_of_int.
Let parsed_from' := parsed_from fromisoformat float_value float_of_int.

Lemma import_one_parsed (expenses : store) (n : Z) (now : datetime) (e : json)
    (a : float * string * datetime * string) :
  ids_ok expenses → ids_room 1 expenses → is_next_id expenses n →
  import_args' now e = Some a →
  import_one' expenses now e = (expenses ++ [new_record n a])%list ∧
  id_value (new_record n a) = Some n.
Proof.
  intros Hok Hroom Hnext Ha. unfold import_one', import_one.
  fold import_args'. rewrite Ha. destruct a as [[[amount category] date] note].
  destruct (add_expense_ok expenses amount category date note Hok Hroom)
    as (x & m & -> & Hadd & _ & Hv & Hm & _).
  rewrite Hadd. by rewrite (is_next_id_unique _ _ _ Hnext Hm).
Qed.

Lemma import_one_skipped (expenses : store) (now : datetime) (e : json) :
  import_args' now e = None → import_one' expenses now e = expenses.
Proof.
  intros Ha. unfold import_one', import_one. fold import_args'. by rewrite Ha.
Qed.

Lemma import_loop_blocked (expenses : store) (clock : nat → datetime) (k : nat)
    (data : list json) :
  (∀ a c d n, add_expense expenses a c d n = None) →
  import_loop' expenses clock k data = expenses.
Proof.
  intros Hadd. revert k. induction data as [|x data IH]; intros k; [done|].
  change (import_loop' expenses clock k (x :: data))
    with (import_loop' (import_one' expenses (clock k) x) clock (S k) data).
  assert (import_one' expenses (clock k) x = expenses) as ->; [|apply IH].
  unfold import_one', import_one.
  destruct (import_args _ _ _ _ x) as [[[[a c] d] n]|]; [by rewrite Hadd | done].
Qed.

Lemma parsed_from_length (clock : nat → datetime) (k : nat) (data : list json) :
  (length (parsed_from' clock k data) ≤ length data)%nat.
Proof.
  revert k. induction data as [|e rest IH]; intros k; simpl; [done|].
  fold import_args'. destruct (import_args' (clock k) e); simpl.
  - apply le_n_S, IH.
  - etrans; [apply IH|]. apply Nat.le_succ_diag_r.
Qed.

Lemma import_loop_parsed (data : list json) (expenses : store) (n : Z)
    (clock : nat → datetime) (k : nat) :
  ids_ok expenses →
  ids_room (Z.of_nat (length (parsed_from' clock k data))) expenses →
  is_next_id expenses n →
  import_loop' expenses clock k data =
  (expenses ++ records_from n (parsed_from' clock k data))%list.
Proof.
  revert expenses n k. induction data as [|e rest IH]; intros s n k Hok Hroom Hnext.
  - simpl. by rewrite app_nil_r.
  - change (import_loop' s clock k (e :: rest))
      with (import_loop' (import_one' s (clock k) e) clock (S k) rest).
    assert (parsed_from' clock k (e :: rest) =
            match import_args' (clock k) e with
            | Some a => a :: parsed_from' clock (S k) rest
            | None => parsed_from' clock (S k) rest
            end) as Hp by reflexivity.
    rewrite Hp in Hroom |- *. clear Hp.
    destruct (import_args' (clock k) e) as [a|] eqn:Ha.
    + cbn [length] in Hroom. rewrite Nat2Z.inj_succ, <- Z.add_1_r in Hroom.
      assert (ids_room 1 s) as Hroom1 by (eapply ids_room_le; [|done]; lia).
      destruct (import_one_parsed s n _ _ a Hok Hroom1 Hnext Ha) as [-> Hv].
      unfold import_loop' in IH. rewrite (IH _ (n + 1)).
      * simpl. by rewrite <- app_assoc.
      * apply Forall_app. split; [done|]. constructor; [by eexists | constructor].
      * by apply (ids_room_snoc _ _ n).
      * by apply next_id_snoc.
    + rewrite (import_one_skipped s _ _ Ha). by apply IH.
Qed.

Lemma import_args_amount (now : datetime) (e : json) :
  (subscript e "amount" ≫= py_float float_value float_of_int) = None →
  import_args' now e = None.
Proof.
  unfold import_args', import_args. destruct (subscript e "amount") as [v|]; simpl; [|done].
  by intros ->.
Qed.

Lemma import_args_date (now : datetime) (e : json) (text : string) :
  get e "date" (JStr "") = Some (JStr text) →
  parse_date fromisoformat now text = None →
  import_args' now e = None.
Proof.
  intros Hg Hp. unfold import_args', import_args. rewrite Hg. simpl. rewrite Hp.
  destruct (subscript e "amount") as [v|]; simpl; [|done].
  destruct (py_float _ _ v); simpl; [|done].
  destruct (get e "category" _) as [c|]; simpl; [|done].
  by destruct (as_str c).
Qed.

Lemma import_args_record (now : datetime) (e v : json) (a : float) (c text nt : string)
    (d : datetime) :
  subscript e "amount" = Some v → py_float float_value float_of_int v = Some a →
  get e "category" (JStr "uncategorized") = Some (JStr c) →
  get e "date" (JStr "") = Some (JStr text) → parse_date fromisoformat now text = Some d →
  get e "note" (JStr "") = Some (JStr nt) →
  import_args' now e = Some (a, c, d, nt).
Proof.
  intros Hv Ha Hc Ht Hd Hn. unfold import_args', import_args.
  rewrite Hv. simpl. rewrite Ha. simpl. rewrite Hc. simpl. rewrite Ht. simpl.
  rewrite Hd. simpl. rewrite Hn. done.
Qed.

Lemma records_from_length (n : Z) (l : list (float * string * datetime * string)) :
  length (records_from n l) = length l.
Proof. revert n. induction l as [|a l IH]; intros n; simpl; [done|]. by rewrite IH. Qed.

(** C6 (as amended): on a store whose ids are integer literals with room
    below the limit of [max_str_digits] digits for the records to come,
    the import of a list of elements never raises and appends, with the
    next ids in order, exactly the records of the elements whose
    arguments can be computed; for an object with text fields these are
    computed when the amount coerces and the date parses, and an element
    whose amount or date does not parse is left out, the records
    imported before and after it staying.  One element [good] that
    parses and one element [bad] with the amount ["abc"] add exactly one
    record, in either order. *)
Theorem import_from_json_spec (expenses : store) (clock : nat → datetime)
    (data : list json) (good bad : json) (a a' : float * string * datetime * string) :
  ids_ok expenses →
  ids_room (Z.of_nat (length data) `max` 1) expenses →
  import_args' (clock 0%nat) good = Some a →
  import_args' (clock 1%nat) good = Some a' →
  subscript bad "amount" = Some (JStr "abc") →
  ∃ n, is_next_id expenses n ∧
    import_from_json fromisoformat float_value float_of_int expenses clock (JArr data) =
      Some (expenses ++ records_from n (parsed_from' clock 0 data))%list ∧
    length (records_from n (parsed_from' clock 0 data)) =
      length (parsed_from' clock 0 data) ∧
    (∀ now e v a c text nt d,
       subscript e "amount" = Some v → py_float float_value float_of_int v = Some a →
       get e "category" (JStr "uncategorized") = Some (JStr c) →
       get e "date" (JStr "") = Some (JStr text) →
       parse_date fromisoformat now text = Some d →
       get e "note" (JStr "") = Some (JStr nt) →
       import_args' now e = Some (a, c, d, nt)) ∧
    (∀ now e, (subscript e "amount" ≫= py_float float_value float_of_int) = None →
              import_args' now e = None) ∧
    (∀ now e text, get e "date" (JStr "") = Some (JStr text) →
                   parse_date fromisoformat now text = None →
                   import_args' now e = None) ∧
    import_from_json fromisoformat float_value float_of_int expenses clock
      (JArr [good; bad]) = Some (expenses ++ [new_record n a])%list ∧
    import_from_json fromisoformat float_value float_of_int expenses clock
      (JArr [bad; good]) = Some (expenses ++ [new_record n a'])%list.
Proof.
  intros Hok Hroom Hg Hg' Hb. destruct (next_id_ok expenses Hok) as (n & _ & Hnext).
  exists n. split; [done|].
  assert (∀ es, (length (parsed_from' clock 0 es) ≤ 1)%nat ∨ es = data →
                import_from_json fromisoformat float_value float_of_int expenses clock (JArr es) =
                Some (expenses ++ records_from n (parsed_from' clock 0 es))%list) as Himp.
  { intros es Hes. unfold import_from_json. simpl. f_equal.
    apply import_loop_parsed; [done| |done]. eapply ids_room_le; [|done].
    destruct Hes as [Hes| ->]; [lia|].
    pose proof (parsed_from_length clock 0 data). lia. }
  assert (import_args' (clock 0%nat) bad = None ∧ import_args' (clock 1%nat) bad = None)
    as [Hb0 Hb1] by (split; apply import_args_amount; by rewrite Hb).
  split; [apply Himp; by right|]. split; [apply records_from_length|].
  split; [apply import_args_record|]. split; [apply import_args_amount|].
  split; [apply import_args_date|].
  assert (parsed_from' clock 0 [good; bad] = [a] ∧ parsed_from' clock 0 [bad; good] = [a'])
    as [Hgb Hbg].
  { unfold parsed_from'. simpl. fold import_args'. by rewrite Hg, Hg', Hb0, Hb1. }
  split.
  - rewrite Himp; [by rewrite Hgb | left; by rewrite Hgb].
  - rewrite Himp; [by rewrite Hbg | left; by rewrite Hbg].
Qed.

End ImportProofs.

Lemma import_from_json_spec_witness :
  ∃ n, is_next_id sample n ∧
    import_from_json sample_iso sample_float_value sample_float_of_int sample noon
        (JArr [good_entry; bad_entry; good_entry]) =
      Some (sample ++ records_from n
              (parsed_from sample_iso sample_float_value sample_float_of_int noon 0
                 [good_entry; bad_entry; good_entry]))%list ∧
    length (records_from n
              (parsed_from sample_iso sample_float_value sample_float_of_int noon 0
                 [good_entry; bad_entry; good_entry])) =
      length (parsed_from sample_iso sample_float_value sample_float_of_int noon 0
                [good_entry; bad_entry; good_entry]) ∧
    (∀ now e v a c text nt d,
       subscript e "amount" = Some v →
       py_float sample_float_value sample_float_of_int v = Some a →
       get e "category" (JStr "uncategorized") = Some (JStr c) →
       get e "date" (JStr "") = Some (JStr text) →
       parse_date sample_iso now text = Some d →
       get e "note" (JStr "") = Some (JStr nt) →
       import_args sample_iso sample_float_value sample_float_of_int now e = Some (a, c, d, nt)) ∧
    (∀ now e,
       (subscript e "amount" ≫= py_float sample_float_value sample_float_of_int) = None →
       import_args sample_iso sample_float_value sample_float_of_int now e = None) ∧
    (∀ now e text, get e "date" (JStr "") = Some (JStr text) →
       parse_date sample_iso now text = None →
       import_args sample_iso sample_float_value sample_float_of_int now e = None) ∧
    import_from_json sample_iso sample_float_value sample_float_of_int sample noon
      (JArr [good_entry; bad_entry]) =
      Some (sample ++ [new_record n (7.5%float, " Books ", jan 5, "")])%list ∧
    import_from_json sample_iso sample_float_value sample_float_of_int sample noon
      (JArr [bad_entry; good_entry]) =
      Some (sample ++ [new_record n (7.5%float, " Books ", jan 5, "")])%list.
Proof.
  apply (import_from_json_spec sample_iso sample_float_value sample_float_of_int
           sample noon [good_entry; bad_entry; good_entry] good_entry bad_entry).
  - apply sample_ids_ok.
  - apply sample_ids_room. simpl. lia.
  - reflexivity.
  - reflexivity.
  - reflexivity.
Defined.

Example import_from_json_ex :
  import_from_json sample_iso sample_float_value sample_float_of_int sample noon
    (JArr [good_entry; bad_entry; JObj [("amount", JStr "40"); ("note", JStr " tea ")];
           JObj [("amount", JInt 3); ("date", JStr "31-02-2024")];
           JObj [("amount", JInt 3); ("category", JNull)]; JStr "x";
           JObj [("amount", JBool true); ("date", JStr "t")]]) =
  Some (sample ++
          [mk_expense "4" 7.5%float "Books" "2024-01-05" "";
           mk_expense "5" 40%float "uncategorized" "2024-01-09" "tea";
           mk_expense "6" 1%float "uncategorized" "2024-01-09" ""])%list ∧
  import_from_json sample_iso sample_float_value sample_float_of_int sample noon (JInt 3) = None.
Proof. split; reflexivity. Qed.

(** C6, the claim as stated fails: the [try] block holds [add_expense]
    too, so when the store has an id that [int] refuses, or its largest
    id is the last number of [max_str_digits] digits, the element that
    parses is skipped like the others and the import adds nothing. *)
Lemma import_skips_parsed_record :
  import_args sample_iso sample_float_value sample_float_of_int (noon 0) good_entry =
    Some (7.5%float, " Books ", jan 5, "") ∧
  import_from_json sample_iso sample_float_value sample_float_of_int
    [mk_expense "a2" 3%float "tea" "2024-01-03" ""] noon (JArr [good_entry; bad_entry]) =
    Some [mk_expense "a2" 3%float "tea" "2024-01-03" ""] ∧
  ids_ok [mk_expense (nines 4300) 3%float "tea" "2024-01-03" ""] ∧
  import_from_json sample_iso sample_float_value sample_float_of_int
    [mk_expense (nines 4300) 3%float "tea" "2024-01-03" ""] noon
    (JArr [good_entry; bad_entry]) =
    Some [mk_expense (nines 4300) 3%float "tea" "2024-01-03" ""].
Proof.
  split; [reflexivity|]. split; [reflexivity|].
  assert (id_value (mk_expense (nines 4300) 3%float "tea" "2024-01-03" "") =
          Some (id_limit - 1)) as Hv by (apply (int_nines 4299); by vm_compute).
  assert (ids_ok [mk_expense (nines 4300) 3%float "tea" "2024-01-03" ""]) as Hok
    by (repeat constructor; exists (id_limit - 1); exact Hv).
  split; [exact Hok|].
  change (import_from_json sample_iso sample_float_value sample_float_of_int
            [mk_expense (nines 4300) 3%float "tea" "2024-01-03" ""] noon
            (JArr [good_entry; bad_entry]))
    with (Some (import_loop sample_iso sample_float_value sample_float_of_int
                  [mk_expense (nines 4300) 3%float "tea" "2024-01-03" ""] noon 0
                  [good_entry; bad_entry])).
  rewrite import_loop_blocked; [reflexivity|]. intros a c d n.
  apply (add_blocked_at_limit _ (mk_expense (nines 4300) 3%float "tea" "2024-01-03" ""));
    [exact Hok | by left | exact Hv].
Qed.

(** * Properties of the rest of the tracker *)

(** ** Writing a date and reading it back *)

Lemma digit_char_spec (n : Z) :
  PyStr.is_digit (PyStr.digit_char n) = true ∧
  Strptime.cv (PyStr.digit_char n) = n mod 10.
Proof.
  unfold PyStr.digit_char. pose proof (Z.mod_pos_bound n 10 eq_refl) as Hk.
  generalize dependent (n mod 10). intros k Hk.
  assert (k = 0 ∨ k = 1 ∨ k = 2 ∨ k = 3 ∨ k = 4 ∨ k = 5 ∨ k = 6 ∨ k = 7 ∨ k = 8 ∨ k = 9)
    as H by lia.
  repeat destruct H as [->|H]; try subst k; by split.
Qed.

Lemma re_Y_pad4 (y : Z) (rest : string) :
  0 ≤ y ≤ 9999 → Strptime.re_Y (PyStr.pad4 y ++ rest) = [(y, rest)].
Proof.
  intros Hy. unfold PyStr.pad4, PyStr.pad2. simpl.
  destruct (digit_char_spec (y / 1000)) as [-> ->].
  destruct (digit_char_spec (y / 100)) as [-> ->].
  destruct (digit_char_spec (y / 10)) as [-> ->].
  destruct (digit_char_spec y) as [-> ->].
  simpl. do 2 f_equal. Z.to_euclidean_division_equations. lia.
Qed.

Lemma valid_date_bounds (y m d : Z) :
  valid_date y m d = true → 1 ≤ y ≤ 9999 ∧ 1 ≤ m ≤ 12 ∧ 1 ≤ d ≤ 31.
Proof.
  unfold valid_date, days_in_month. intros H.
  repeat (apply andb_true_iff in H as [H ?]).
  repeat case_match; lia.
Qed.

Lemma re_m_pad2 (m : Z) (rest : string) :
  1 ≤ m ≤ 12 → ∃ l, Strptime.re_m (PyStr.pad2 m ++ rest) = (m, rest) :: l.
Proof.
  intros Hm.
  assert (m = 1 ∨ m = 2 ∨ m = 3 ∨ m = 4 ∨ m = 5 ∨ m = 6 ∨ m = 7 ∨ m = 8 ∨ m = 9 ∨
          m = 10 ∨ m = 11 ∨ m = 12) as H by lia.
  clear Hm. repeat destruct H as [->|H]; try subst m; eexists; reflexivity.
Qed.

Lemma re_d_pad2 (d : Z) (rest : string) :
  1 ≤ d ≤ 31 → ∃ l, Strptime.re_d (PyStr.pad2 d ++ rest) = (d, rest) :: l.
Proof.
  intros Hd.
  assert (d = 1 ∨ d = 2 ∨ d = 3 ∨ d = 4 ∨ d = 5 ∨ d = 6 ∨ d = 7 ∨ d = 8 ∨ d = 9 ∨
          d = 10 ∨ d = 11 ∨ d = 12 ∨ d = 13 ∨ d = 14 ∨ d = 15 ∨ d = 16 ∨ d = 17 ∨
          d = 18 ∨ d = 19 ∨ d = 20 ∨ d = 21 ∨ d = 22 ∨ d = 23 ∨ d = 24 ∨ d = 25 ∨
          d = 26 ∨ d = 27 ∨ d = 28 ∨ d = 29 ∨ d = 30 ∨ d = 31) as H by lia.
  clear Hd. repeat destruct H as [->|H]; try subst d; eexists; reflexivity.
Qed.

Lemma re_match_Y (fmt : list Strptime.directive) (y : Z) (rest : string)
    (g : Strptime.groups) (r : Strptime.groups * string) :
  0 ≤ y ≤ 9999 → Strptime.re_match fmt rest (y, g.1.2, g.2) = Some r →
  Strptime.re_match (Strptime.DY :: fmt) (PyStr.pad4 y ++ rest) g = Some r.
Proof.
  intros Hy Hr. cbn [Strptime.re_match]. rewrite re_Y_pad4 by done.
  cbn [Strptime.first_some foldr]. by rewrite Hr.
Qed.

Lemma re_match_m (fmt : list Strptime.directive) (m : Z) (rest : string)
    (g : Strptime.groups) (r : Strptime.groups * string) :
  1 ≤ m ≤ 12 → Strptime.re_match fmt rest (g.1.1, m, g.2) = Some r →
  Strptime.re_match (Strptime.Dm :: fmt) (PyStr.pad2 m ++ rest) g = Some r.
Proof.
  intros Hm Hr. cbn [Strptime.re_match]. destruct (re_m_pad2 m rest Hm) as [l ->].
  cbn [Strptime.first_some foldr]. by rewrite Hr.
Qed.

Lemma re_match_d (fmt : list Strptime.directive) (d : Z) (rest : string)
    (g : Strptime.groups) (r : Strptime.groups * string) :
  1 ≤ d ≤ 31 → Strptime.re_match fmt rest (g.1.1, g.1.2, d) = Some r →
  Strptime.re_match (Strptime.Dd :: fmt) (PyStr.pad2 d ++ rest) g = Some r.
Proof.
  intros Hd Hr. cbn [Strptime.re_match]. destruct (re_d_pad2 d rest Hd) as [l ->].
  cbn [Strptime.first_some foldr]. by rewrite Hr.
Qed.

Lemma re_match_Lit (fmt : list Strptime.directive) (c : ascii) (rest : string)
    (g : Strptime.groups) :
  Strptime.re_match (Strptime.Lit c :: fmt) (String c rest) g = Strptime.re_match fmt rest g.
Proof. cbn [Strptime.re_match]. by rewrite Ascii.eqb_refl. Qed.

Lemma strptime_strftime_date (y m d : Z) :
  valid_date y m d = true →
  Strptime.strptime
    (PyStr.pad4 y ++ String "-" (PyStr.pad2 m ++ String "-" (PyStr.pad2 d ++ "")))
    "%Y-%m-%d" = Some (mk_datetime y m d 0 0 0 0).
Proof.
  intros Hv. destruct (valid_date_bounds _ _ _ Hv) as (Hy & Hm & Hd).
  unfold Strptime.strptime.
  change (Strptime.compile "%Y-%m-%d")
    with [Strptime.DY; Strptime.Lit "-"; Strptime.Dm; Strptime.Lit "-"; Strptime.Dd].
  rewrite (re_match_Y _ y _ _ ((y, m, d), "")); [by rewrite Hv | lia |].
  rewrite re_match_Lit. apply re_match_m; [done|].
  rewrite re_match_Lit. by apply re_match_d.
Qed.

Lemma strftime_text (d : datetime) :
  Strptime.strftime d "%Y-%m-%d" =
  PyStr.year_text (year d) ++
    String "-" (PyStr.pad2 (month d) ++ String "-" (PyStr.pad2 (day d) ++ "")).
Proof. reflexivity. Qed.

Lemma year_text_pad4 (y : Z) : 1000 ≤ y → PyStr.year_text y = PyStr.pad4 y.
Proof.
  intros Hy. unfold PyStr.year_text.
  destruct (Z.ltb_spec y 10); [lia|]. destruct (Z.ltb_spec y 100); [lia|].
  by destruct (Z.ltb_spec y 1000); [lia|].
Qed.

(** From the year 1000 on the year is written on four digits. *)
Lemma strftime_ymd (d : datetime) :
  1000 ≤ year d →
  Strptime.strftime d "%Y-%m-%d" =
  PyStr.pad4 (year d) ++
    String "-" (PyStr.pad2 (month d) ++ String "-" (PyStr.pad2 (day d) ++ "")).
Proof. intros Hy. by rewrite strftime_text, year_text_pad4. Qed.

Lemma first_some_Some {A B} (f : A → option B) (l : list A) (y : B) :
  Strptime.first_some f l = Some y → ∃ x, x ∈ l ∧ f x = Some y.
Proof.
  induction l as [|x l IH]; simpl; [done|].
  destruct (f x) as [b|] eqn:Hx.
  - intros [= <-]. exists x. split; [by left | done].
  - intros H. destruct (IH H) as (x' & Hin & Hx'). exists x'. split; [by right | done].
Qed.

Lemma seq1_inv (p : ascii → bool) (s : string) (x : Z * string) :
  x ∈ Strptime.seq1 p s → ∃ a, s = String a x.2 ∧ p a = true.
Proof.
  unfold Strptime.seq1. destruct s as [|a r]; [by intros ?%elem_of_nil|].
  destruct (p a) eqn:Hp; [|by intros ?%elem_of_nil].
  intros ->%list_elem_of_singleton. by exists a.
Qed.

Lemma seq2_inv (p1 p2 : ascii → bool) (s : string) (x : Z * string) :
  x ∈ Strptime.seq2 p1 p2 s → ∃ a b, s = String a (String b x.2) ∧ p1 a = true ∧ p2 b = true.
Proof.
  unfold Strptime.seq2. destruct s as [|a [|b r]]; try by intros ?%elem_of_nil.
  destruct (p1 a) eqn:H1, (p2 b) eqn:H2; simpl; try by intros ?%elem_of_nil.
  intros ->%list_elem_of_singleton. by exists a, b.
Qed.

Lemma in_range_digit (lo hi c : ascii) :
  PyStr.is_digit lo = true → PyStr.is_digit hi = true →
  Strptime.in_range lo hi c = true → PyStr.is_digit c = true.
Proof.
  unfold Strptime.in_range, PyStr.is_digit.
  intros [H1 _]%andb_true_iff [_ H2]%andb_true_iff [H3 H4]%andb_true_iff.
  apply N.leb_le in H1, H2, H3, H4. apply andb_true_iff. split; apply N.leb_le; by etrans.
Qed.

(** The text that the day group takes is one character, or two of
    which the second is a digit. *)
Lemma re_d_inv (s : string) (x : Z * string) :
  x ∈ Strptime.re_d s →
  (∃ a, s = String a x.2) ∨ (∃ a b, s = String a (String b x.2) ∧ PyStr.is_digit b = true).
Proof.
  unfold Strptime.re_d. rewrite !elem_of_app.
  intros [H|[H|[H|[H|H]]]].
  - apply seq2_inv in H as (a & b & -> & _ & Hb). right. exists a, b.
    split; [done|]. by apply (in_range_digit "0" "1").
  - apply seq2_inv in H as (a & b & -> & _ & Hb). right. by exists a, b.
  - apply seq2_inv in H as (a & b & -> & _ & Hb). right. exists a, b.
    split; [done|]. by apply (in_range_digit "1" "9").
  - apply seq1_inv in H as (a & -> & _). left. by exists a.
  - apply seq2_inv in H as (a & b & -> & _ & Hb). right. exists a, b.
    split; [done|]. by apply (in_range_digit "1" "9").
Qed.

Lemma re_Y_inv (s : string) (x : Z * string) :
  x ∈ Strptime.re_Y s →
  ∃ a b c d, s = String a (String b (String c (String d x.2))) ∧
             PyStr.is_digit b = true ∧ PyStr.is_digit c = true.
Proof.
  unfold Strptime.re_Y. destruct s as [|a [|b [|c [|d r]]]]; try by intros ?%elem_of_nil.
  destruct (PyStr.is_digit a), (PyStr.is_digit b) eqn:Hb, (PyStr.is_digit c) eqn:Hc,
    (PyStr.is_digit d); simpl; try by intros ?%elem_of_nil.
  intros ->%list_elem_of_singleton. by exists a, b, c, d.
Qed.

Lemma re_match_Lit_inv (c : ascii) (fmt : list Strptime.directive) (s : string)
    (g : Strptime.groups) (x : Strptime.groups * string) :
  Strptime.re_match (Strptime.Lit c :: fmt) s g = Some x → ∃ r, s = String c r.
Proof.
  cbn [Strptime.re_match]. destruct s as [|a r]; [done|].
  destruct (Ascii.eqb_spec a c) as [->|]; [|done]. by exists r.
Qed.

Lemma year_first_shape (sep : ascii) (fmt : list Strptime.directive) (s : string)
    (g : Strptime.groups) (x : Strptime.groups * string) :
  Strptime.re_match (Strptime.DY :: Strptime.Lit sep :: fmt) s g = Some x →
  ∃ a b c d r, s = String a (String b (String c (String d (String sep r)))) ∧
               PyStr.is_digit b = true ∧ PyStr.is_digit c = true.
Proof.
  cbn [Strptime.re_match]. intros ([v r] & Hin & Hr)%first_some_Some.
  apply re_Y_inv in Hin as (a & b & c & d & -> & Hb & Hc).
  apply re_match_Lit_inv in Hr as (r' & Hr). simpl in Hr. subst r.
  by exists a, b, c, d, r'.
Qed.

Lemma day_first_shape (sep : ascii) (fmt : list Strptime.directive) (s : string)
    (g : Strptime.groups) (x : Strptime.groups * string) :
  Strptime.re_match (Strptime.Dd :: Strptime.Lit sep :: fmt) s g = Some x →
  (∃ a r, s = String a (String sep r)) ∨
  (∃ a b r, s = String a (String b (String sep r)) ∧ PyStr.is_digit b = true).
Proof.
  cbn [Strptime.re_match]. intros ([v r] & Hin & Hr)%first_some_Some.
  apply re_match_Lit_inv in Hr as (r' & Hr).
  apply re_d_inv in Hin as [(a & ->)|(a & b & -> & Hb)]; simpl in *; subst r.
  - left. by exists a, r'.
  - right. by exists a, b, r'.
Qed.

Lemma strptime_match (text fmt : string) (d : datetime) :
  Strptime.strptime text fmt = Some d →
  ∃ x, Strptime.re_match (Strptime.compile fmt) text (1900, 1, 1) = Some x.
Proof.
  unfold Strptime.strptime.
  destruct (Strptime.re_match _ _ _) as [x|]; [|done]. by exists x.
Qed.

Lemma digit_char_not_dash (n : Z) : PyStr.digit_char n ≠ "-"%char.
Proof.
  intros H. pose proof (proj1 (digit_char_spec n)) as Hd. by rewrite H in Hd.
Qed.

(** The date of a year before 1000 is written with fewer than four
    digits, which [%Y] does not read. *)
Lemma strptime_strftime_short (d : datetime) :
  year d < 1000 → Strptime.strptime (Strptime.strftime d "%Y-%m-%d") "%Y-%m-%d" = None.
Proof.
  intros Hy.
  destruct (Strptime.strptime _ _) as [d'|] eqn:E; [exfalso|done].
  apply strptime_match in E as [x E].
  change (Strptime.compile "%Y-%m-%d")
    with [Strptime.DY; Strptime.Lit "-"; Strptime.Dm; Strptime.Lit "-"; Strptime.Dd] in E.
  apply year_first_shape in E as (a & b & c & e & r & Heq & Hb & Hc).
  rewrite strftime_text in Heq. unfold PyStr.year_text, PyStr.pad2 in Heq.
  destruct (Z.ltb_spec (year d) 10); [|destruct (Z.ltb_spec (year d) 100);
    [|destruct (Z.ltb_spec (year d) 1000); [|lia]]];
    simpl in Heq; injection Heq as Ha Hb' Hc' He Hsep; subst a b c e;
    try (by vm_compute in Hb); try (by vm_compute in Hc).
  by apply digit_char_not_dash in Hsep.
Qed.

(** X1: the date text that [add_expense] and [edit_expense] store is
    read back by the [strptime] of [filter_expenses] as the same
    calendar day, at midnight, when the year has four digits; the text
    of an earlier year is not read back at all. *)
Theorem strptime_strftime (d : datetime) :
  valid_date (year d) (month d) (day d) = true →
  Strptime.strptime (Strptime.strftime d "%Y-%m-%d") "%Y-%m-%d" =
  if 1000 <=? year d then Some (midnight d) else None.
Proof.
  intros Hv. destruct (Z.leb_spec 1000 (year d)) as [Hy|Hy].
  - rewrite strftime_ymd by done. by apply strptime_strftime_date.
  - by apply strptime_strftime_short.
Qed.

Lemma strptime_strftime_witness :
  Strptime.strptime (Strptime.strftime (mk_datetime 2024 2 29 13 5 0 0) "%Y-%m-%d") "%Y-%m-%d"
    = Some (mk_datetime 2024 2 29 0 0 0 0) ∧
  Strptime.strptime (Strptime.strftime (mk_datetime 987 12 31 13 5 0 0) "%Y-%m-%d") "%Y-%m-%d"
    = None.
Proof.
  split.
  - apply (strptime_strftime (mk_datetime 2024 2 29 13 5 0 0)). reflexivity.
  - apply (strptime_strftime (mk_datetime 987 12 31 13 5 0 0)). reflexivity.
Defined.

Lemma digit_not_space (c : ascii) :
  PyStr.is_digit c = true →
  PyStr.is_space c = false ∧ PyStr.lower_char c = c ∧ c ≠ "t"%char.
Proof. destruct c as [[] [] [] [] [] [] [] []]; done. Qed.

(** The text of a date starts with a digit and has no white space. *)
Lemma strftime_shape (d : datetime) :
  no_space (Strptime.strftime d "%Y-%m-%d") = true ∧
  ∃ c r, Strptime.strftime d "%Y-%m-%d" = String c r ∧ PyStr.is_digit c = true.
Proof.
  rewrite strftime_text. unfold PyStr.year_text, PyStr.pad4, PyStr.pad2.
  destruct (year d <? 10); [|destruct (year d <? 100); [|destruct (year d <? 1000)]];
    simpl;
    (split;
     [by repeat match goal with
         | |- context [PyStr.is_space (PyStr.digit_char ?n)] =>
             rewrite (proj1 (digit_not_space _ (proj1 (digit_char_spec n))))
         end
     | eexists _, _; split; [reflexivity | apply digit_char_spec]]).
Qed.

Lemma strftime_not_now (d : datetime) : ¬ means_now (Strptime.strftime d "%Y-%m-%d").
Proof.
  destruct (strftime_shape d) as (Hs & c & r & Heq & Hc). rewrite Heq in Hs |- *.
  destruct (digit_not_space c Hc) as (_ & L1 & T1).
  unfold means_now. rewrite strip_no_space by done.
  simpl. rewrite L1. intros [H|[H|H]]; [done| |]; injection H as Hc' _; exact (T1 Hc').
Qed.

Lemma parse_date_stored (fromisoformat : string → option datetime) (now d : datetime) :
  valid_date (year d) (month d) (day d) = true → 1000 ≤ year d →
  parse_date fromisoformat now (Strptime.strftime d "%Y-%m-%d") = Some (midnight d).
Proof.
  intros Hv Hy. rewrite (parse_date_formats _ _ _ (strftime_not_now d)).
  rewrite (strip_no_space _ (proj1 (strftime_shape d))).
  rewrite strftime_ymd by done. by rewrite (strptime_strftime_date _ _ _ Hv).
Qed.

(** X2: the date of a record that [add_expense] creates is written so
    that both [parse_date] and the [strptime] of [filter_expenses] read
    it back as the day that was passed, at midnight, whatever the
    current time and whatever [fromisoformat] does, when the year of
    the date has four digits. *)
Theorem parse_date_of_added (fromisoformat : string → option datetime) (now : datetime)
    (expenses expenses' : store) (amount : float) (category : string) (date : datetime)
    (note : string) (e : expense) :
  valid_date (year date) (month date) (day date) = true → 1000 ≤ year date →
  add_expense expenses amount category date note = Some (expenses', e) →
  parse_date fromisoformat now (exp_date e) = Some (midnight date) ∧
  record_date e = Some (midnight date).
Proof.
  intros Hv Hy Hadd. apply add_expense_inv in Hadd as (n & _ & _ & -> & _).
  simpl. split; [by apply parse_date_stored|].
  unfold record_date. simpl. rewrite strftime_ymd by done. by apply strptime_strftime_date.
Qed.

Lemma parse_date_of_added_witness :
  parse_date sample_iso (noon 0) (exp_date (mk_expense "4" 4.5%float "fuel" "2024-01-05" ""))
    = Some (midnight (jan 5)) ∧
  record_date (mk_expense "4" 4.5%float "fuel" "2024-01-05" "") = Some (midnight (jan 5)).
Proof.
  apply (parse_date_of_added sample_iso (noon 0) sample
           (sample ++ [mk_expense "4" 4.5%float "fuel" "2024-01-05" ""])
           4.5%float " fuel " (jan 5) "" (mk_expense "4" 4.5%float "fuel" "2024-01-05" ""));
    [reflexivity | simpl; lia | reflexivity].
Defined.

(** ** The invariant of the store *)

Lemma strptime_valid (text fmt : string) (d : datetime) :
  Strptime.strptime text fmt = Some d → valid_datetime d.
Proof.
  unfold Strptime.strptime. intros H. repeat case_match; try done.
  injection H as <-. unfold valid_datetime. simpl. repeat split; done || lia.
Qed.

Lemma edit_expense_found (expenses : store) (id_str : string) (i : nat) (e : expense)
    (amount : option float) (category : option string) (date : option datetime)
    (note : option string) :
  find_by_id expenses id_str = Some (i, e) →
  edit_expense expenses id_str amount category date note =
  (<[i := edited e amount category date note]> expenses, true).
Proof.
  intros Hf. unfold edit_expense. rewrite Hf. do 2 f_equal.
  by destruct e, amount, category, date, note.
Qed.

Lemma edit_expense_missing (expenses : store) (id_str : string)
    (amount : option float) (category : option string) (date : option datetime)
    (note : option string) :
  find_by_id expenses id_str = None →
  edit_expense expenses id_str amount category date note = (expenses, false).
Proof. intros Hf. unfold edit_expense. by rewrite Hf. Qed.

Lemma edit_expense_ids (expenses : store) (id_str : string)
    (amount : option float) (category : option string) (date : option datetime)
    (note : option string) :
  exp_id <$> (edit_expense expenses id_str amount category date note).1 = exp_id <$> expenses.
Proof.
  destruct (find_by_id expenses id_str) as [[i e]|] eqn:Hf.
  - rewrite (edit_expense_found _ _ _ _ _ _ _ _ Hf). simpl.
    apply find_by_id_Some in Hf as (Hi & _).
    rewrite list_fmap_insert. apply list_insert_id. by rewrite list_lookup_fmap, Hi.
  - by rewrite (edit_expense_missing _ _ _ _ _ _ Hf).
Qed.

Lemma ids_ok_ids (expenses : store) :
  ids_ok expenses ↔ Forall (λ i, is_Some (PyStr.int i)) (exp_id <$> expenses).
Proof. unfold ids_ok. by rewrite Forall_fmap. Qed.

Lemma edit_expense_dates_ok (expenses : store) (id_str : string)
    (amount : option float) (category : option string) (date : option datetime)
    (note : option string) :
  dates_ok expenses →
  (∀ d, date = Some d → valid_date (year d) (month d) (day d) = true ∧ 1000 ≤ year d) →
  dates_ok (edit_expense expenses id_str amount category date note).1.
Proof.
  intros Hok Hd. destruct (find_by_id expenses id_str) as [[i e]|] eqn:Hf.
  - rewrite (edit_expense_found _ _ _ _ _ _ _ _ Hf). simpl.
    apply find_by_id_Some in Hf as (Hi & _). apply Forall_insert; [done|].
    unfold record_date, edited. simpl. destruct date as [d|]; simpl.
    + destruct (Hd d eq_refl) as [Hv Hy].
      rewrite strftime_ymd, (strptime_strftime_date _ _ _ Hv) by done. by eexists.
    + unfold dates_ok in Hok. rewrite Forall_forall in Hok.
      apply (Hok e). by eapply list_elem_of_lookup_2.
  - by rewrite (edit_expense_missing _ _ _ _ _ _ Hf).
Qed.

Lemma add_expense_dates_ok (expenses expenses' : store) (amount : float)
    (category : string) (date : datetime) (note : string) (e : expense) :
  dates_ok expenses → valid_date (year date) (month date) (day date) = true →
  1000 ≤ year date →
  add_expense expenses amount category date note = Some (expenses', e) →
  dates_ok expenses' ∧ record_date e = Some (midnight date).
Proof.
  intros Hok Hv Hy Hadd. apply add_expense_inv in Hadd as (n & _ & _ & -> & ->).
  assert (record_date (new_record n (amount, category, date, note)) = Some (midnight date))
    as Hr.
  { unfold record_date. simpl. rewrite strftime_ymd by done.
    by apply strptime_strftime_date. }
  split; [|done]. apply Forall_app. split; [done|]. constructor; [by eexists | constructor].
Qed.

(** The room for more ids depends on the ids of the store only. *)
Lemma ids_room_ids (k : Z) (expenses expenses' : store) :
  exp_id <$> expenses' = exp_id <$> expenses → ids_room k expenses → ids_room k expenses'.
Proof.
  intros Heq [Hk Hroom]. split; [done|]. intros e z He Hz.
  assert (exp_id e ∈ exp_id <$> expenses) as (x & Hx & Hin)%list_elem_of_fmap
    by (rewrite <- Heq; by apply list_elem_of_fmap_2).
  apply (Hroom x z Hin). unfold id_value in *. by rewrite <- Hx.
Qed.

Lemma adds_cons (c : command) (cs : list command) :
  adds (c :: cs) = (match c with CAdd _ _ _ _ => 1 | _ => 0 end) + adds cs.
Proof. unfold adds. destruct c; simpl; lia. Qed.

Lemma exec_store_ok (expenses : store) (c : command) (k : Z) :
  store_ok expenses → valid_command c → 0 ≤ k →
  ids_room ((match c with CAdd _ _ _ _ => 1 | _ => 0 end) + k) expenses →
  ∃ expenses', exec expenses c = Some expenses' ∧ store_ok expenses' ∧ ids_room k expenses'.
Proof.
  intros (Hids & Hnd & Hdates) Hc Hk Hroom.
  destruct c as [a c d n|id_str a c d n|id_str]; simpl.
  - destruct Hc as ((Hv & _) & Hy).
    assert (ids_room 1 expenses) as Hroom1 by (eapply ids_room_le; [|done]; lia).
    destruct (add_expense_ok expenses a c d n Hids Hroom1)
      as (e & m & _ & Hadd & _ & Hval & Hnext & Hfresh & Hids').
    rewrite Hadd. simpl. eexists. split; [done|]. split; [split; [done|split]|].
    + rewrite fmap_app. apply NoDup_app. split; [done|]. split; [|apply NoDup_singleton].
      intros i Hi Hi'. apply list_elem_of_singleton in Hi'. subst i.
      apply list_elem_of_fmap in Hi as (x & Hx & Hin). by apply (Hfresh x Hin).
    + by destruct (add_expense_dates_ok _ _ _ _ _ _ _ Hdates Hv Hy Hadd).
    + apply (ids_room_snoc _ _ m); [|done..]. by rewrite Z.add_comm.
  - eexists. split; [done|]. split; [split; [|split]|].
    + apply ids_ok_ids. rewrite edit_expense_ids. by apply ids_ok_ids.
    + by rewrite edit_expense_ids.
    + apply edit_expense_dates_ok; [done|]. intros d' ->. by destruct Hc as ((? & _) & ?).
    + apply (ids_room_ids _ expenses); [apply edit_expense_ids | done].
  - destruct (delete_expense_total expenses id_str) as [[s1 b] Hd]. rewrite Hd. simpl.
    pose proof (delete_expense_sublist _ _ _ _ Hd) as Hsub.
    eexists. split; [done|]. split; [split; [|split]|].
    + apply Forall_forall. intros x Hx. unfold ids_ok in Hids.
      rewrite Forall_forall in Hids. apply Hids. by eapply elem_of_sublist.
    + eapply sublist_NoDup; [done|]. by apply (fmap_sublist exp_id).
    + apply Forall_forall. intros x Hx. unfold dates_ok in Hdates.
      rewrite Forall_forall in Hdates. apply Hdates. by eapply elem_of_sublist.
    + by apply (ids_room_sublist _ expenses).
Qed.

(** X3: the store keeps its invariant.  From a store with pairwise
    different integer ids and readable dates, no sequence of
    [add_expense], [edit_expense] and [delete_expense] calls with dates
    of four-digit years raises, as long as the ids have room below the
    limit of [max_str_digits] digits for the adds of the sequence; the
    ids stay pairwise different integers, every date stays readable, and
    so [filter_expenses] does not raise afterwards, whatever category
    and bounds (without time zone) it is given. *)
Theorem exec_all_store_ok (cs : list command) (expenses : store) :
  store_ok expenses → Forall valid_command cs → ids_room (adds cs) expenses →
  ∃ expenses', exec_all expenses cs = Some expenses' ∧ store_ok expenses' ∧
    ∀ category start end_, is_Some (filter_expenses expenses' category start end_).
Proof.
  intros Hok Hcs. revert expenses Hok.
  induction Hcs as [|c cs Hc Hcs IH]; intros s Hok Hroom; simpl.
  - exists s. split; [done|]. split; [done|]. intros category start end_.
    destruct Hok as (_ & _ & Hd). by rewrite filter_expenses_kept.
  - rewrite adds_cons in Hroom.
    destruct (exec_store_ok s c (adds cs) Hok Hc) as (s1 & -> & Hok1 & Hroom1);
      [unfold adds; lia | done |].
    simpl. by apply IH.
Qed.

Lemma exec_all_store_ok_witness :
  ∃ expenses',
    exec_all sample [CAdd 4.5%float " fuel " (jan 5) ""; CEdit "2" None None (Some (jan 9)) None;
                     CDelete "1"] = Some expenses' ∧
    store_ok expenses' ∧
    ∀ category start end_, is_Some (filter_expenses expenses' category start end_).
Proof.
  apply (exec_all_store_ok
           [CAdd 4.5%float " fuel " (jan 5) ""; CEdit "2" None None (Some (jan 9)) None;
            CDelete "1"] sample).
  - split; [apply sample_ids_ok|]. split; [|repeat constructor; by eexists].
    by apply (bool_decide_unpack _).
  - repeat constructor; simpl; done || lia.
  - apply sample_ids_room. by vm_compute.
Defined.

(** ** Adding, finding, deleting and editing together *)

Lemma find_by_id_added (expenses : store) (e : expense) :
  (∀ x, x ∈ expenses → exp_id x ≠ exp_id e) →
  find_by_id (expenses ++ [e]) (exp_id e) = Some (length expenses, e).
Proof.
  intros Hfresh. apply find_by_id_Some. split; [|split; [done|]].
  - by rewrite list_lookup_middle.
  - intros j x Hj Hx. rewrite lookup_app_l in Hx by done.
    apply Hfresh. by eapply list_elem_of_lookup_2.
Qed.

(** X4: on a store whose ids are integer literals with room for one
    more, a record that [add_expense] has just created is the one that
    [find_by_id] returns for its id, at the end of the store. *)
Theorem find_by_id_after_add (expenses : store) (amount : float) (category : string)
    (date : datetime) (note : string) :
  ids_ok expenses → ids_room 1 expenses →
  ∃ e, add_expense expenses amount category date note = Some ((expenses ++ [e])%list, e) ∧
       find_by_id (expenses ++ [e]) (exp_id e) = Some (length expenses, e).
Proof.
  intros Hok Hroom.
  destruct (add_expense_ok expenses amount category date note Hok Hroom)
    as (e & n & _ & Hadd & _ & _ & _ & Hfresh & _).
  exists e. split; [done|]. by apply find_by_id_added.
Qed.

Lemma find_by_id_after_add_witness :
  ∃ e, add_expense sample 4.5%float " fuel " (jan 5) "" = Some ((sample ++ [e])%list, e) ∧
       find_by_id (sample ++ [e]) (exp_id e) = Some (length sample, e).
Proof.
  apply (find_by_id_after_add sample 4.5%float " fuel " (jan 5) "").
  - apply sample_ids_ok.
  - apply sample_ids_room. lia.
Defined.

(** X5: on a store whose ids are integer literals with room for one
    more, deleting the record that [add_expense] has just created gives
    back the store as it was before the add. *)
Theorem delete_expense_after_add (expenses : store) (amount : float) (category : string)
    (date : datetime) (note : string) :
  ids_ok expenses → ids_room 1 expenses →
  ∃ expenses' e, add_expense expenses amount category date note = Some (expenses', e) ∧
                 delete_expense expenses' (exp_id e) = Some (expenses, true).
Proof.
  intros Hok Hroom.
  destruct (add_expense_ok expenses amount category date note Hok Hroom)
    as (e & n & _ & Hadd & _ & _ & _ & Hfresh & _).
  exists (expenses ++ [e])%list, e. split; [done|].
  rewrite (delete_expense_found _ _ _ _ (find_by_id_added _ _ Hfresh)).
  do 2 f_equal. rewrite delete_middle. apply app_nil_r.
Qed.

Lemma delete_expense_after_add_witness :
  ∃ expenses' e, add_expense sample 4.5%float " fuel " (jan 5) "" = Some (expenses', e) ∧
                 delete_expense expenses' (exp_id e) = Some (sample, true).
Proof.
  apply (delete_expense_after_add sample 4.5%float " fuel " (jan 5) "").
  - apply sample_ids_ok.
  - apply sample_ids_room. lia.
Defined.

Lemma elem_of_delete_lookup {A} (l : list A) (i : nat) (x : A) :
  x ∈ delete i l → ∃ j, j ≠ i ∧ l !! j = Some x.
Proof.
  intros [j Hj]%list_elem_of_lookup. destruct (decide (j < i)%nat) as [Hlt|Hge].
  - rewrite list_lookup_delete_lt in Hj by done. exists j. split; [lia | done].
  - rewrite list_lookup_delete_ge in Hj by lia. exists (S j). split; [lia | done].
Qed.

(** X6: in a store with pairwise different ids, an id that has been
    deleted is not found any more. *)
Theorem find_by_id_after_delete (expenses expenses' : store) (id_str : string) (b : bool) :
  NoDup (exp_id <$> expenses) →
  delete_expense expenses id_str = Some (expenses', b) →
  find_by_id expenses' id_str = None.
Proof.
  intros Hnd Hd. destruct (find_by_id expenses id_str) as [[i e]|] eqn:Hf.
  - rewrite (delete_expense_found _ _ _ _ Hf) in Hd. injection Hd as <- <-.
    apply find_by_id_Some in Hf as (Hi & Hid & _).
    unfold find_by_id. apply find_from_None. intros x Hx Hxid.
    apply elem_of_delete_lookup in Hx as (j & Hj & Hx). apply Hj.
    apply (NoDup_lookup (exp_id <$> expenses) j i id_str Hnd).
    + by rewrite list_lookup_fmap, Hx; simpl; rewrite Hxid.
    + by rewrite list_lookup_fmap, Hi; simpl; rewrite Hid.
  - rewrite (delete_expense_missing _ _ Hf) in Hd. by injection Hd as <- <-.
Qed.

Lemma find_by_id_after_delete_witness :
  find_by_id [lunch; snack] "2" = None.
Proof.
  apply (find_by_id_after_delete sample [lunch; snack] "2" true).
  - by apply (bool_decide_unpack _).
  - reflexivity.
Defined.

(** Without that hypothesis a second record with the id takes the
    place of the deleted one. *)
Example find_by_id_after_delete_duplicate :
  delete_expense [lunch; set_note "copy" lunch] "1" = Some ([set_note "copy" lunch], true) ∧
  find_by_id [set_note "copy" lunch] "1" = Some (0%nat, set_note "copy" lunch).
Proof. split; reflexivity. Qed.

Lemma find_from_ids (i : nat) (l1 l2 : store) (id_str : string) :
  exp_id <$> l1 = exp_id <$> l2 →
  fst <$> find_from i l1 id_str = fst <$> find_from i l2 id_str.
Proof.
  revert i l2. induction l1 as [|x l1 IH]; intros i [|y l2] Heq; simpl in *; try done.
  injection Heq as -> Heq. destruct (String.eqb (exp_id y) id_str); [done|]. by apply IH.
Qed.

Lemma find_by_id_edited (expenses : store) (id_str : string) (i : nat) (e : expense)
    (amount : option float) (category : option string) (date : option datetime)
    (note : option string) :
  find_by_id expenses id_str = Some (i, e) →
  find_by_id (edit_expense expenses id_str amount category date note).1 id_str =
  Some (i, edited e amount category date note).
Proof.
  intros Hf. rewrite (edit_expense_found _ _ _ _ _ _ _ _ Hf). simpl.
  apply find_by_id_Some in Hf as (Hi & Hid & Hfirst). apply find_by_id_Some.
  split; [|split; [done|]].
  - apply list_lookup_insert_eq. by eapply lookup_lt_Some.
  - intros j x Hj Hx. rewrite list_lookup_insert_ne in Hx by lia. by eapply Hfirst.
Qed.

(** X7: [edit_expense] never touches an id nor the order of the
    records: the ids of the store are the same list afterwards, every
    id is found at the position where it was, and the record found for
    the edited id is the edited one. *)
Theorem edit_expense_keeps_ids (expenses : store) (id_str : string)
    (amount : option float) (category : option string) (date : option datetime)
    (note : option string) :
  let expenses' := (edit_expense expenses id_str amount category date note).1 in
  exp_id <$> expenses' = exp_id <$> expenses ∧
  (∀ id', fst <$> find_by_id expenses' id' = fst <$> find_by_id expenses id') ∧
  (∀ i e, find_by_id expenses id_str = Some (i, e) →
          find_by_id expenses' id_str = Some (i, edited e amount category date note)).
Proof.
  intros expenses'. subst expenses'.
  pose proof (edit_expense_ids expenses id_str amount category date note) as Hids.
  split; [done|]. split.
  - intros id'. unfold find_by_id. by apply find_from_ids.
  - intros i e Hf. by apply find_by_id_edited.
Qed.

Lemma edited_edited (e : expense) (amount : option float) (category : option string)
    (date : option datetime) (note : option string) :
  edited (edited e amount category date note) amount category date note =
  edited e amount category date note.
Proof. by destruct e, amount, category, date, note. Qed.

(** X8: [edit_expense] is idempotent: the same edit applied a second
    time changes nothing. *)
Theorem edit_expense_twice (expenses : store) (id_str : string)
    (amount : option float) (category : option string) (date : option datetime)
    (note : option string) :
  let r := edit_expense expenses id_str amount category date note in
  edit_expense r.1 id_str amount category date note = r.
Proof.
  intros r. subst r. destruct (find_by_id expenses id_str) as [[i e]|] eqn:Hf.
  - pose proof (find_by_id_edited _ _ _ _ amount category date note Hf) as Hf'.
    rewrite (edit_expense_found _ _ _ _ _ _ _ _ Hf') , (edit_expense_found _ _ _ _ _ _ _ _ Hf).
    simpl. by rewrite edited_edited, list_insert_insert_eq.
  - rewrite (edit_expense_missing _ _ _ _ _ _ Hf). simpl.
    by rewrite (edit_expense_missing _ _ _ _ _ _ Hf).
Qed.

(** ** Listing, filtering and searching together *)

Lemma kept_all (expenses : store) :
  dates_ok expenses → List.filter (kept None None None) expenses = expenses.
Proof.
  induction 1 as [|e l [d Hd] Hl IH]; simpl; [done|].
  unfold kept at 1, date_within. rewrite Hd. simpl. by rewrite IH.
Qed.

(** X9: on a store with readable dates, [filter_expenses] without
    arguments returns what [list_expenses] returns, and so does the
    menu's view by category when the answer is blank. *)
Theorem filter_expenses_no_arguments (expenses : store) :
  dates_ok expenses →
  filter_expenses expenses None None None = Some (list_expenses expenses None) ∧
  ∀ blank, PyStr.strip blank = "" →
           cli_by_category expenses blank = Some (list_expenses expenses None).
Proof.
  intros Hok.
  assert (filter_expenses expenses None None None = Some (list_expenses expenses None)) as H.
  { rewrite filter_expenses_kept by done. by rewrite kept_all. }
  split; [done|]. intros blank Hb. unfold cli_by_category. rewrite Hb.
  unfold filter_expenses. rewrite filter_loop_empty_category. apply H.
Qed.

Lemma filter_expenses_no_arguments_witness :
  filter_expenses sample None None None = Some (list_expenses sample None) ∧
  ∀ blank, PyStr.strip blank = "" →
           cli_by_category sample blank = Some (list_expenses sample None).
Proof. apply (filter_expenses_no_arguments sample). repeat constructor; by eexists. Defined.

Lemma string_compare_refl (a : string) : String.compare a a = Eq.
Proof.
  induction a as [|c a IH]; simpl; [done|].
  unfold Ascii.compare. by rewrite N.compare_refl.
Qed.

Lemma string_ltb_irrefl (a : string) : String.ltb a a = false.
Proof. unfold String.ltb. by rewrite string_compare_refl. Qed.

Lemma insert_desc_same_date (x : expense) (l : list expense) (d : string) :
  List.filter (λ e, String.eqb (exp_date e) d) (insert_desc x l) =
  List.filter (λ e, String.eqb (exp_date e) d) (x :: l).
Proof.
  induction l as [|y l IH]; [done|]. simpl insert_desc.
  destruct (String.ltb (exp_date x) (exp_date y)) eqn:Hlt; [|done].
  simpl in *. rewrite IH.
  destruct (String.eqb_spec (exp_date x) d) as [Hx|Hx]; [|done].
  destruct (String.eqb_spec (exp_date y) d) as [Hy|Hy]; [|done].
  rewrite Hx, Hy, string_ltb_irrefl in Hlt. done.
Qed.

(** X10: the sort of [list_expenses] is stable: the records of one date
    come in the order in which they are in the store. *)
Theorem list_expenses_stable (expenses : store) (d : string) :
  List.filter (λ e, String.eqb (exp_date e) d) (list_expenses expenses None) =
  List.filter (λ e, String.eqb (exp_date e) d) expenses.
Proof.
  unfold list_expenses. induction expenses as [|x l IH]; [done|].
  simpl sorted_desc. rewrite insert_desc_same_date. simpl. by rewrite IH.
Qed.

Lemma prefix_refl (s : string) : String.prefix s s = true.
Proof. induction s as [|a s IH]; simpl; [done|]. by destruct (ascii_dec a a). Qed.

Lemma contains_refl (s : string) : contains s s = true.
Proof. destruct s; [done|]. cbn [contains]. by rewrite prefix_refl. Qed.

Lemma contains_empty (s : string) : contains "" s = true.
Proof. by destruct s. Qed.

(** X11: [search] with the empty term returns every record, in the
    order of the store. *)
Theorem search_empty_term (expenses : store) : search expenses "" = expenses.
Proof.
  unfold search. simpl. induction expenses as [|e l IH]; simpl; [done|].
  by rewrite contains_empty, IH.
Qed.

Lemma filter_loop_dates_ok (expenses : store) (category : option string)
    (start end_ : option datetime) (acc res : list expense) :
  filter_loop expenses category start end_ acc = Some res → dates_ok expenses.
Proof.
  revert acc. induction expenses as [|e l IH]; intros acc; simpl; [by constructor|].
  destruct (Strptime.strptime (exp_date e) "%Y-%m-%d") as [ed|] eqn:Hed; simpl; [|done].
  intros H. constructor; [by eexists|]. repeat case_match; by eapply IH.
Qed.

(** X12: every record that [filter_expenses] returns for a category is
    also returned by [search] for that text. *)
Theorem search_includes_category (expenses : store) (c : string)
    (start end_ : option datetime) (res : list expense) :
  filter_expenses expenses (Some c) start end_ = Some res →
  ∀ e, e ∈ res → e ∈ search expenses c.
Proof.
  intros Hf e He.
  assert (dates_ok expenses) as Hok.
  { unfold filter_expenses in Hf.
    destruct (filter_loop expenses (Some c) start end_ []) eqn:Hl; [|done].
    by eapply filter_loop_dates_ok. }
  rewrite filter_expenses_kept in Hf by done. injection Hf as <-.
  rewrite sorted_desc_perm, list_elem_of_In in He.
  apply filter_In in He as [Hin Hk]. unfold search. rewrite list_elem_of_In.
  apply filter_In. split; [done|].
  unfold kept in Hk. apply andb_true_iff in Hk as [Hc _].
  apply orb_true_iff in Hc as [Hc|Hc].
  - apply String.eqb_eq in Hc as ->. simpl. by rewrite contains_empty.
  - unfold ci_equal in Hc. apply String.eqb_eq in Hc as ->.
    by rewrite contains_refl, orb_true_r.
Qed.

Lemma search_includes_category_witness : snack ∈ search sample "FOOD".
Proof.
  apply (search_includes_category sample "FOOD" None None [snack; lunch]);
    [reflexivity | by left].
Defined.

Example search_ex :
  search sample "oo" = [lunch; snack] ∧ search sample "BAR" = [snack] ∧
  search sample "LUNCH" = [lunch] ∧ search sample "rent" = [].
Proof. repeat split; reflexivity. Qed.

(** ** Trimming *)

Lemma rstrip_cons (c : ascii) (r : string) :
  PyStr.rstrip (String c r) =
  match PyStr.rstrip r with
  | EmptyString => if PyStr.is_space c then EmptyString else String c EmptyString
  | r' => String c r'
  end.
Proof. reflexivity. Qed.

Lemma rstrip_rstrip (s : string) : PyStr.rstrip (PyStr.rstrip s) = PyStr.rstrip s.
Proof.
  induction s as [|c r IH]; [done|]. rewrite rstrip_cons.
  destruct (PyStr.rstrip r) as [|c' r'] eqn:Hr.
  - destruct (PyStr.is_space c) eqn:Hc; [done|]. simpl. by rewrite Hc.
  - rewrite rstrip_cons. by rewrite IH.
Qed.

Lemma lstrip_head (s : string) :
  match PyStr.lstrip s with
  | EmptyString => True
  | String c _ => PyStr.is_space c = false
  end.
Proof.
  induction s as [|c r IH]; simpl; [done|].
  destruct (PyStr.is_space c) eqn:Hc; [done|]. by simpl.
Qed.

Lemma lstrip_rstrip_head (s : string) :
  match s with EmptyString => True | String c _ => PyStr.is_space c = false end →
  PyStr.lstrip (PyStr.rstrip s) = PyStr.rstrip s.
Proof.
  destruct s as [|c r]; [done|]. intros Hc. rewrite rstrip_cons.
  destruct (PyStr.rstrip r); rewrite ?Hc; simpl; by rewrite Hc.
Qed.

Lemma strip_strip (s : string) : PyStr.strip (PyStr.strip s) = PyStr.strip s.
Proof.
  unfold PyStr.strip. rewrite lstrip_rstrip_head by apply lstrip_head.
  apply rstrip_rstrip.
Qed.

(** ** A range that starts today *)

Lemma after_midnight_compare (now : datetime) :
  valid_datetime now → after_midnight now → dt_compare now (midnight now) = Gt.
Proof.
  intros (_ & Hh & Hm & Hs & Hu) Ha. unfold dt_compare, dt_fields, midnight. simpl.
  rewrite !Z.compare_refl.
  destruct (Z.compare_spec (hour now) 0) as [H0|?|?]; [|lia|done].
  destruct (Z.compare_spec (minute now) 0) as [H1|?|?]; [|lia|done].
  destruct (Z.compare_spec (second now) 0) as [H2|?|?]; [|lia|done].
  destruct (Z.compare_spec (microsecond now) 0) as [H3|?|?]; [|lia|done].
  destruct Ha as [?|[?|[?|?]]]; lia.
Qed.

Section Today.

Variable fromisoformat : string → option datetime.

(** X13: the menu's view by date range, asked to start [today], leaves
    out every record dated today unless the clock is at midnight: the
    bound is the current time and the records count from [00:00]. *)
Theorem cli_by_range_from_today (expenses : store) (now now' : datetime)
    (start_in : string) :
  valid_datetime now → after_midnight now → dates_ok expenses →
  PyStr.strip start_in ≠ "" → means_now start_in →
  ∃ res, cli_by_range fromisoformat expenses now now' start_in "" = Some res ∧
         res ≡ₚ List.filter (date_within (Some now) None) expenses ∧
         ∀ e, e ∈ expenses → exp_date e = Strptime.strftime now "%Y-%m-%d" → e ∉ res.
Proof.
  intros Hv Ha Hok Hne Hnow. unfold cli_by_range, optional_date.
  change (PyStr.strip "") with "". simpl.
  destruct (String.eqb_spec (PyStr.strip start_in) "") as [|_]; [done|].
  rewrite parse_date_now.
  2: { unfold means_now in *. by rewrite strip_strip. }
  simpl. rewrite filter_expenses_kept by done. eexists. split; [done|].
  split; [apply sorted_desc_perm|].
  intros e He Hd. rewrite sorted_desc_perm, list_elem_of_In. intros [_ Hk]%filter_In.
  unfold kept, date_within, record_date in Hk. simpl in Hk.
  pose proof Hv as (Hdate & Htime). rewrite Hd in Hk.
  destruct (Z.le_gt_cases 1000 (year now)) as [Hy|Hy].
  - rewrite strftime_ymd, (strptime_strftime_date _ _ _ Hdate) in Hk by done.
    fold (midnight now) in Hk. unfold dt_leb in Hk.
    rewrite after_midnight_compare in Hk; done.
  - rewrite strptime_strftime_short in Hk; [done | lia].
Qed.

End Today.

Lemma cli_by_range_from_today_witness :
  ∃ res, cli_by_range sample_iso [lunch; mk_expense "2" 3%float "bus" "2024-01-09" ""]
           (noon 0) (noon 1) " Today" "" = Some res ∧
         res ≡ₚ List.filter (date_within (Some (noon 0)) None)
                  [lunch; mk_expense "2" 3%float "bus" "2024-01-09" ""] ∧
         ∀ e, e ∈ [lunch; mk_expense "2" 3%float "bus" "2024-01-09" ""] →
              exp_date e = Strptime.strftime (noon 0) "%Y-%m-%d" → e ∉ res.
Proof.
  apply (cli_by_range_from_today sample_iso
           [lunch; mk_expense "2" 3%float "bus" "2024-01-09" ""] (noon 0) (noon 1) " Today").
  - unfold valid_datetime. simpl. repeat split; done || lia.
  - left. simpl. lia.
  - repeat constructor; by eexists.
  - done.
  - right. by left.
Defined.

Example cli_by_range_ex :
  cli_by_range sample_iso [lunch; mk_expense "2" 3%float "bus" "2024-01-09" ""]
    (noon 0) (noon 1) "today" "" = Some [] ∧
  cli_by_range sample_iso [lunch; mk_expense "2" 3%float "bus" "2024-01-09" ""]
    (noon 0) (noon 1) "2024-01-09" "today" =
    Some [mk_expense "2" 3%float "bus" "2024-01-09" ""] ∧
  cli_by_range sample_iso [lunch; mk_expense "2" 3%float "bus" "2024-01-09" ""]
    (mk_datetime 2024 1 9 0 0 0 0) (noon 1) "today" "today" =
    Some [mk_expense "2" 3%float "bus" "2024-01-09" ""] ∧
  cli_by_range sample_iso sample (noon 0) (noon 1) "" "03-01-2024" = Some [bus; snack; lunch] ∧
  cli_by_range sample_iso sample (noon 0) (noon 1) "1 Jan" "" = None.
Proof. repeat split; reflexivity. Qed.

(** ** [_load] *)

Lemma assoc_last_cons (k k0 : string) (w : json) (r : list (string * json)) :
  assoc_last k ((k0, w) :: r) =
  match assoc_last k r with
  | Some x => Some x
  | None => if String.eqb k0 k then Some w else None
  end.
Proof. reflexivity. Qed.

Lemma assoc_last_set_ne (k k' : string) (v : json) (kvs : list (string * json)) :
  k ≠ k' →
  assoc_last k' ((λ kw, if String.eqb kw.1 k then (kw.1, v) else kw) <$> kvs) =
  assoc_last k' kvs.
Proof.
  intros Hne. induction kvs as [|[k0 w] r IH]; [done|]. rewrite fmap_cons. cbn [fst].
  destruct (String.eqb_spec k0 k) as [->|Hk]; rewrite !assoc_last_cons, IH; [|done].
  destruct (assoc_last k' r); [done|]. by destruct (String.eqb_spec k k').
Qed.

Lemma assoc_last_set_None (k : string) (v : json) (kvs : list (string * json)) :
  assoc_last k kvs = None →
  assoc_last k ((λ kw, if String.eqb kw.1 k then (kw.1, v) else kw) <$> kvs) = None.
Proof.
  induction kvs as [|[k0 w] r IH]; [done|]. rewrite fmap_cons. cbn [fst].
  rewrite assoc_last_cons. destruct (assoc_last k r); [done|].
  destruct (String.eqb_spec k0 k) as [->|Hk]; [done|]. intros _.
  rewrite assoc_last_cons, IH by done. by destruct (String.eqb_spec k0 k).
Qed.

Lemma assoc_last_set_eq (k : string) (v : json) (kvs : list (string * json)) :
  is_Some (assoc_last k kvs) →
  assoc_last k ((λ kw, if String.eqb kw.1 k then (kw.1, v) else kw) <$> kvs) = Some v.
Proof.
  induction kvs as [|[k0 w] r IH]; [by intros [? ?]|]. rewrite fmap_cons. cbn [fst].
  rewrite assoc_last_cons. destruct (assoc_last k r) as [x|] eqn:Hr.
  - intros _. destruct (String.eqb k0 k); by rewrite assoc_last_cons, IH.
  - destruct (String.eqb_spec k0 k) as [->|Hk]; [|by intros [? ?]]. intros _.
    by rewrite assoc_last_cons, assoc_last_set_None, String.eqb_refl.
Qed.

Section LoadProofs.

Variable float_value : string → float.
Variable float_of_int : Z → option float.

Let load_one' := load_one float_value float_of_int.
Let _load' := _load float_value float_of_int.

Lemma load_one_loaded (e e' : json) : load_one' e = Some e' → loaded_record e'.
Proof.
  unfold load_one', load_one. destruct e as [| | | | | |kvs]; try done. simpl.
  destruct (assoc_last "amount" kvs) as [v|] eqn:Hv; simpl; [|done].
  destruct (py_float float_value float_of_int v) as [f|]; simpl; [|done].
  rewrite assoc_last_set_ne by done.
  destruct (assoc_last "date" kvs) as [d|] eqn:Hd; simpl; [|done].
  intros [= <-]. split; simpl.
  - exists f. rewrite assoc_last_set_ne by done. apply assoc_last_set_eq. by rewrite Hv.
  - rewrite assoc_last_set_eq; [done|]. rewrite assoc_last_set_ne by done. by rewrite Hd.
Qed.

Lemma load_one_fails (e : json) :
  subscript e "amount" = None ∨ subscript e "date" = None ∨
  (∃ v, subscript e "amount" = Some v ∧ py_float float_value float_of_int v = None) →
  load_one' e = None.
Proof.
  unfold load_one', load_one. destruct e as [| | | | | |kvs]; try done. simpl.
  intros [H|[H|(v & Hv & Hf)]].
  - by rewrite H.
  - destruct (assoc_last "amount" kvs); simpl; [|done].
    destruct (py_float _ _ _); simpl; [|done].
    by rewrite assoc_last_set_ne, H.
  - rewrite Hv. simpl. by rewrite Hf.
Qed.

(** X15: [_load] never raises and degrades to the empty list: when the
    file is missing or is not JSON, when its value cannot be iterated,
    and when one element of its list has no ["amount"], no ["date"] or
    an amount that [float] refuses, in which case the other records
    are dropped as well. *)
Theorem load_degrades (data : list json) (e : json) :
  _load' Missing = JArr [] ∧ _load' Malformed = JArr [] ∧
  _load' (Holds JNull) = JArr [] ∧
  (∀ n, _load' (Holds (JInt n)) = JArr []) ∧
  (e ∈ data →
   subscript e "amount" = None ∨ subscript e "date" = None ∨
   (∃ v, subscript e "amount" = Some v ∧ py_float float_value float_of_int v = None) →
   _load' (Holds (JArr data)) = JArr []).
Proof.
  repeat split; try done. intros He Hbad. unfold _load', _load. simpl.
  assert (mapM (load_one float_value float_of_int) data = None) as ->; [|done].
  apply mapM_None. apply Exists_exists. exists e. split; [done|]. by apply load_one_fails.
Qed.

(** X16: when the file holds a list, every record that [_load] leaves
    in memory has a [float] under ["amount"] (an amount kept as text or
    as an integer is converted) and a value under ["date"]. *)
Theorem load_records (data loaded : list json) :
  _load' (Holds (JArr data)) = JArr loaded → Forall loaded_record loaded.
Proof.
  unfold _load', _load. simpl.
  destruct (mapM (load_one float_value float_of_int) data) as [es|] eqn:Hm.
  - intros [= <-]. apply mapM_Some in Hm. apply Forall_forall. intros x Hx.
    apply list_elem_of_lookup in Hx as [i Hi].
    destruct (Forall2_lookup_r _ _ _ _ _ Hm Hi) as (e & _ & He).
    by eapply load_one_loaded.
  - intros [= <-]. constructor.
Qed.

End LoadProofs.

Lemma load_records_witness :
  Forall loaded_record
    [JObj [("id", JStr "1"); ("amount", JFloat 12%float); ("date", JStr "2024-01-01")];
     JObj [("amount", JFloat 1%float); ("date", JNull)]].
Proof.
  apply (load_records sample_float_value sample_float_of_int
           [JObj [("id", JStr "1"); ("amount", JStr "12"); ("date", JStr "2024-01-01")];
            JObj [("amount", JBool true); ("date", JNull)]]).
  reflexivity.
Defined.

Example load_ex :
  _load sample_float_value sample_float_of_int
    (Holds (JArr [to_dict lunch; JObj [("id", JStr "2"); ("amount", JStr "abc");
                                        ("date", JStr "2024-01-01")]])) = JArr [] ∧
  _load sample_float_value sample_float_of_int
    (Holds (JArr [to_dict lunch; JObj [("id", JStr "2"); ("amount", JInt 3)]])) = JArr [] ∧
  _load sample_float_value sample_float_of_int (Holds (JObj [])) = JObj [] ∧
  _load sample_float_value sample_float_of_int (Holds (JObj [("id", JStr "1")])) = JArr [] ∧
  _load sample_float_value sample_float_of_int (Holds (JStr "")) = JStr "".
Proof. repeat split; reflexivity. Qed.

(** ** Importing what was saved *)

Section ImportSaved.

Variable fromisoformat : string → option datetime.
Variable float_value : string → float.
Variable float_of_int : Z → option float.

Lemma import_args_to_dict (now : datetime) (e : expense) (d : datetime) :
  valid_date (year d) (month d) (day d) = true → 1000 ≤ year d →
  exp_date e = Strptime.strftime d "%Y-%m-%d" →
  import_args fromisoformat float_value float_of_int now (to_dict e) =
  Some (exp_amount e, exp_category e, midnight d, exp_note e).
Proof.
  intros Hv Hy Hd. unfold import_args. simpl.
  by rewrite Hd, (parse_date_stored _ _ _ Hv Hy).
Qed.

Lemma parsed_from_dicts (clock : nat → datetime) (k : nat) (l : list expense) :
  Forall canonical l →
  length (parsed_from fromisoformat float_value float_of_int clock k (to_dict <$> l)) =
  length l.
Proof.
  intros Hl. revert k. induction Hl as [|e l (Hc & Hn & d & Hv & Hy & Hd) Hl IH]; intros k.
  - done.
  - rewrite fmap_cons. cbn [parsed_from]. rewrite (import_args_to_dict _ _ _ Hv Hy Hd).
    simpl. by rewrite IH.
Qed.

Lemma parsed_from_saved (clock : nat → datetime) (k : nat) (l : list expense) (n : Z) :
  Forall canonical l →
  records_from n (parsed_from fromisoformat float_value float_of_int clock k (to_dict <$> l)) =
  renumbered n l.
Proof.
  intros Hl. revert k n.
  induction Hl as [|e l (Hc & Hn & d & Hv & Hy & Hd) Hl IH]; intros k n.
  - done.
  - rewrite fmap_cons. cbn [parsed_from]. rewrite (import_args_to_dict _ _ _ Hv Hy Hd).
    cbn [records_from renumbered]. rewrite IH. f_equal.
    unfold new_record. simpl. unfold trimmed in Hc, Hn. rewrite Hc, Hn. by rewrite Hd.
Qed.

(** X17: importing a file that holds the dictionaries of records, as a
    data file of the tracker holds them, appends these records under
    the next ids, each with its amount, category, date and note
    unchanged, provided they are in the form in which [add_expense]
    creates records, with dates of four-digit years, and the ids of the
    store are integer literals with room for as many more. *)
Theorem import_saved (expenses saved : store) (clock : nat → datetime) :
  ids_ok expenses → ids_room (Z.of_nat (length saved)) expenses →
  Forall canonical saved →
  ∃ n, is_next_id expenses n ∧
       import_from_json fromisoformat float_value float_of_int expenses clock
         (JArr (to_dict <$> saved)) =
       Some (expenses ++ renumbered n saved)%list.
Proof.
  intros Hok Hroom Hsaved. destruct (next_id_ok expenses Hok) as (n & _ & Hnext).
  exists n. split; [done|]. unfold import_from_json. simpl. f_equal.
  rewrite (import_loop_parsed _ _ _ _ _ n); [by rewrite parsed_from_saved|done| |done].
  by rewrite parsed_from_dicts.
Qed.

(** X18: a file whose top level is an object or a text is imported
    without any effect and without an error; a number, a boolean or
    [null] at the top level raises. *)
Theorem import_not_a_list (expenses : store) (clock : nat → datetime) :
  (∀ kvs, import_from_json fromisoformat float_value float_of_int expenses clock (JObj kvs)
          = Some expenses) ∧
  (∀ s, import_from_json fromisoformat float_value float_of_int expenses clock (JStr s)
        = Some expenses) ∧
  (∀ v, match v with JNull | JBool _ | JInt _ | JFloat _ => True | _ => False end →
        import_from_json fromisoformat float_value float_of_int expenses clock v = None).
Proof.
  assert (∀ (l : list string) k,
            import_loop fromisoformat float_value float_of_int expenses clock k (JStr <$> l)
            = expenses) as Hskip.
  { intros l. induction l as [|x l IH]; intros k; [done|]. rewrite fmap_cons.
    cbn [import_loop]. unfold import_one at 1. simpl. apply IH. }
  split; [|split].
  - intros kvs. unfold import_from_json. simpl. by rewrite Hskip.
  - intros s. unfold import_from_json. simpl.
    assert ((λ c, JStr (String c EmptyString)) <$> list_ascii_of_string s =
            JStr <$> ((λ c, String c EmptyString) <$> list_ascii_of_string s)) as ->
      by (by rewrite <- list_fmap_compose).
    by rewrite Hskip.
  - by intros [].
Qed.

End ImportSaved.

Lemma import_saved_witness :
  ∃ n, is_next_id [bus] n ∧
       import_from_json sample_iso sample_float_value sample_float_of_int [bus] noon
         (JArr (to_dict <$> [lunch; snack])) =
       Some ([bus] ++ renumbered n [lunch; snack])%list.
Proof.
  apply (import_saved sample_iso sample_float_value sample_float_of_int [bus] [lunch; snack] noon).
  - repeat constructor; by eexists.
  - apply (ids_room_sublist _ sample); [|apply sample_ids_room; simpl; lia].
    unfold sample. apply sublist_cons, sublist_skip, sublist_nil_l.
  - repeat constructor; try done.
    + exists (jan 1). repeat split; simpl; done || lia.
    + exists (jan 2). repeat split; simpl; done || lia.
Defined.

Example import_saved_ex :
  import_from_json sample_iso sample_float_value sample_float_of_int [bus] noon
    (JArr (to_dict <$> [lunch; snack])) =
  Some [bus; mk_expense "3" 12.5%float "Food" "2024-01-01" "lunch";
        mk_expense "4" 2.25%float "food" "2024-01-02" "bar"].
Proof. reflexivity. Qed.

(** ** The menu *)

Lemma or_none_Some (x y : string) : or_none x = Some y → y = x ∧ x ≠ "".
Proof.
  unfold or_none. destruct (String.eqb_spec x ""); [done|]. by intros [= <-].
Qed.

Section MenuProofs.

Variable fromisoformat : string → option datetime.
Variable float_value : string → float.

Let cli_add' := cli_add fromisoformat float_value.
Let cli_edit' := cli_edit fromisoformat float_value.

(** X19: a record added through the menu never has an empty category:
    a blank answer becomes ["uncategorized"], any other answer is
    stored trimmed; the record is appended and its note is the trimmed
    answer. *)
Theorem cli_add_category (expenses expenses' : store) (now : datetime)
    (amount_in category_in date_in note_in : string) (e : expense) :
  cli_add' expenses now amount_in category_in date_in note_in = (expenses', Some e) →
  expenses' = (expenses ++ [e])%list ∧ exp_category e ≠ "" ∧
  (PyStr.strip category_in = "" → exp_category e = "uncategorized") ∧
  (PyStr.strip category_in ≠ "" → exp_category e = PyStr.strip category_in) ∧
  exp_note e = PyStr.strip note_in.
Proof.
  unfold cli_add', cli_add.
  destruct (float_of_str float_value (PyStr.strip amount_in)) as [amt|]; [|done].
  destruct (parse_date fromisoformat now (PyStr.strip date_in)) as [d|]; [|done].
  cbv zeta. destruct (add_expense expenses amt _ d _) as [[s' e']|] eqn:Hadd; [|done].
  intros [= <- <-]. apply add_expense_inv in Hadd as (n & _ & _ & -> & ->).
  simpl. rewrite strip_strip. split; [done|].
  destruct (String.eqb_spec (PyStr.strip category_in) "") as [Hc|Hc].
  - by repeat split.
  - rewrite strip_strip. by repeat split.
Qed.

(** X20: through the menu's edit a blank answer keeps the field, so
    answering everything blank leaves the store as it was, and a note
    or category that is not empty can be replaced but not emptied. *)
Theorem cli_edit_blank (expenses : store) (now : datetime)
    (id_in amount_in category_in date_in note_in : string) (i : nat) (e : expense) :
  find_by_id expenses (PyStr.strip id_in) = Some (i, e) →
  (PyStr.strip amount_in = "" → PyStr.strip category_in = "" →
   PyStr.strip date_in = "" → PyStr.strip note_in = "" →
   cli_edit' expenses now id_in amount_in category_in date_in note_in = (expenses, Updated)) ∧
  (∀ expenses', cli_edit' expenses now id_in amount_in category_in date_in note_in
                = (expenses', Updated) →
     ∃ e', expenses' !! i = Some e' ∧ exp_id e' = exp_id e ∧
           (PyStr.strip category_in = "" → exp_category e' = exp_category e) ∧
           (PyStr.strip note_in = "" → exp_note e' = exp_note e) ∧
           (exp_category e ≠ "" → exp_category e' ≠ "") ∧
           (exp_note e ≠ "" → exp_note e' ≠ "")).
Proof.
  intros Hf. pose proof Hf as (Hi & _)%find_by_id_Some.
  unfold cli_edit', cli_edit. rewrite Hf. split.
  - intros -> -> -> ->. unfold optional_date, or_none. simpl.
    rewrite (edit_expense_found _ _ _ _ _ _ _ _ Hf). simpl. f_equal.
    apply list_insert_id. rewrite Hi. f_equal. by destruct e.
  - intros s'.
    destruct (if String.eqb (PyStr.strip amount_in) "" then Some None else _) as [amt|];
      [|done].
    destruct (optional_date fromisoformat now (PyStr.strip date_in)) as [dv|]; [|done].
    rewrite (edit_expense_found _ _ _ _ _ _ _ _ Hf). simpl. intros [= <-].
    eexists. split; [apply list_lookup_insert_eq; by eapply lookup_lt_Some|].
    simpl. split; [done|]. repeat split.
    + by intros ->.
    + by intros ->.
    + intros Hne. destruct (or_none (PyStr.strip category_in)) as [x|] eqn:Hx; simpl; [|done].
      by apply or_none_Some in Hx as [-> ?].
    + intros Hne. destruct (or_none (PyStr.strip note_in)) as [x|] eqn:Hx; simpl; [|done].
      by apply or_none_Some in Hx as [-> ?].
Qed.

(** X21: the menu's edit never reports ["Failed to update."]: it looks
    the id up before it calls [edit_expense]. *)
Theorem cli_edit_never_fails (expenses : store) (now : datetime)
    (id_in amount_in category_in date_in note_in : string) :
  (cli_edit' expenses now id_in amount_in category_in date_in note_in).2 ≠ Failed.
Proof.
  unfold cli_edit', cli_edit.
  destruct (find_by_id expenses (PyStr.strip id_in)) as [[i e]|] eqn:Hf; [|done].
  repeat case_match; try done.
  all: by rewrite (edit_expense_found _ _ _ _ _ _ _ _ Hf) in *.
Qed.

End MenuProofs.

Lemma cli_add_category_witness :
  [lunch; mk_expense "2" 12%float "uncategorized" "2024-01-09" "x"] =
    ([lunch] ++ [mk_expense "2" 12%float "uncategorized" "2024-01-09" "x"])%list ∧
  exp_category (mk_expense "2" 12%float "uncategorized" "2024-01-09" "x") ≠ "" ∧
  (PyStr.strip "  " = "" →
   exp_category (mk_expense "2" 12%float "uncategorized" "2024-01-09" "x") = "uncategorized") ∧
  (PyStr.strip "  " ≠ "" →
   exp_category (mk_expense "2" 12%float "uncategorized" "2024-01-09" "x") = PyStr.strip "  ") ∧
  exp_note (mk_expense "2" 12%float "uncategorized" "2024-01-09" "x") = PyStr.strip " x ".
Proof.
  apply (cli_add_category sample_iso sample_float_value [lunch]
           [lunch; mk_expense "2" 12%float "uncategorized" "2024-01-09" "x"]
           (noon 0) "12" "  " "" " x ").
  reflexivity.
Defined.

Lemma cli_edit_blank_witness :
  (PyStr.strip "" = "" → PyStr.strip " " = "" → PyStr.strip "" = "" → PyStr.strip "" = "" →
   cli_edit sample_iso sample_float_value sample (noon 0) " 3 " "" " " "" "" =
   (sample, Updated)) ∧
  (∀ expenses', cli_edit sample_iso sample_float_value sample (noon 0) " 3 " "" " " "" ""
                = (expenses', Updated) →
     ∃ e', expenses' !! 2%nat = Some e' ∧ exp_id e' = exp_id snack ∧
           (PyStr.strip " " = "" → exp_category e' = exp_category snack) ∧
           (PyStr.strip "" = "" → exp_note e' = exp_note snack) ∧
           (exp_category snack ≠ "" → exp_category e' ≠ "") ∧
           (exp_note snack ≠ "" → exp_note e' ≠ "")).
Proof.
  apply (cli_edit_blank sample_iso sample_float_value sample (noon 0) " 3 " "" " " "" ""
           2%nat snack).
  reflexivity.
Defined.

Example cli_ex :
  cli_add sample_iso sample_float_value [lunch] (noon 0) "abc" "food" "" "" = ([lunch], None) ∧
  cli_add sample_iso sample_float_value [lunch] (noon 0) "12" "food" "31/02/2024" ""
    = ([lunch], None) ∧
  cli_edit sample_iso sample_float_value sample (noon 0) "3" "7" "" "t" "late" =
    ([lunch; bus; mk_expense "3" 7%float "food" "2024-01-09" "late"], Updated) ∧
  cli_edit sample_iso sample_float_value sample (noon 0) "3" "x" "" "" "" = (sample, Error) ∧
  cli_edit sample_iso sample_float_value sample (noon 0) "9" "" "" "" "" = (sample, NotFound).
Proof. repeat split; reflexivity. Qed.

(** ** An id that is no integer *)

Section BadId.

Variable fromisoformat : string → option datetime.
Variable float_value : string → float.
Variable float_of_int : Z → option float.

Lemma next_id_bad (expenses : store) (e : expense) :
  e ∈ expenses → PyStr.int (exp_id e) = None → _next_id expenses = None.
Proof.
  intros He Hbad. unfold _next_id. destruct expenses as [|e0 l]; [by apply elem_of_nil in He|].
  assert (mapM (λ x, PyStr.int (exp_id x)) (e0 :: l) = None) as ->; [|done].
  apply mapM_None. apply Exists_exists. by exists e.
Qed.

(** X22: one record whose id is not an integer literal blocks every
    add: [add_expense] raises, the menu's add reports an error and
    [import_from_json] skips every element, leaving the store as it
    was. *)
Theorem add_blocked_by_bad_id (expenses : store) (e : expense) :
  e ∈ expenses → PyStr.int (exp_id e) = None →
  (∀ amount category date note, add_expense expenses amount category date note = None) ∧
  (∀ now a c d n, cli_add fromisoformat float_value expenses now a c d n = (expenses, None)) ∧
  (∀ clock data,
     import_from_json fromisoformat float_value float_of_int expenses clock (JArr data) =
     Some expenses).
Proof.
  intros He Hbad. pose proof (next_id_bad _ _ He Hbad) as Hn.
  assert (∀ amount category date note,
            add_expense expenses amount category date note = None) as Hadd.
  { intros. unfold add_expense. by rewrite Hn. }
  split; [done|]. split.
  - intros. unfold cli_add. repeat case_match; try done. all: by rewrite Hadd in *.
  - intros clock data. unfold import_from_json. simpl. f_equal.
    generalize 0%nat. induction data as [|x data IH]; intros k; [done|].
    cbn [import_loop]. unfold import_one at 1.
    destruct (import_args _ _ _ _ x) as [[[[a c] d] n]|]; [rewrite Hadd|]; apply IH.
Qed.

End BadId.

Lemma add_blocked_by_bad_id_witness :
  (∀ amount category date note,
     add_expense [lunch; mk_expense "a2" 1%float "x" "2024-01-01" ""]
       amount category date note = None) ∧
  (∀ now a c d n,
     cli_add sample_iso sample_float_value
       [lunch; mk_expense "a2" 1%float "x" "2024-01-01" ""] now a c d n =
     ([lunch; mk_expense "a2" 1%float "x" "2024-01-01" ""], None)) ∧
  (∀ clock data,
     import_from_json sample_iso sample_float_value sample_float_of_int
       [lunch; mk_expense "a2" 1%float "x" "2024-01-01" ""] clock (JArr data) =
     Some [lunch; mk_expense "a2" 1%float "x" "2024-01-01" ""]).
Proof.
  apply (add_blocked_by_bad_id sample_iso sample_float_value sample_float_of_int
           [lunch; mk_expense "a2" 1%float "x" "2024-01-01" ""]
           (mk_expense "a2" 1%float "x" "2024-01-01" "")).
  - right. by left.
  - reflexivity.
Defined.

(** ** One day *)

Lemma lex_compare_Eq (a b : list Z) : lex_compare a b = Eq → a = b.
Proof.
  revert b. induction a as [|x a IH]; intros [|y b]; simpl; try done.
  destruct (Z.compare_spec x y) as [->|?|?]; try done. intros H. by rewrite (IH b H).
Qed.

Lemma dt_leb_antisym (a b : datetime) : dt_leb a b = true → dt_leb b a = true → a = b.
Proof.
  unfold dt_leb, dt_compare. rewrite (lex_compare_antisym (dt_fields b)).
  destruct (lex_compare (dt_fields a) (dt_fields b)) eqn:Hc; try done.
  intros _ _. apply lex_compare_Eq in Hc. destruct a, b. by injection Hc as -> -> -> -> -> -> ->.
Qed.

Lemma dt_leb_refl (a : datetime) : dt_leb a a = true.
Proof.
  unfold dt_leb, dt_compare.
  assert (∀ l, lex_compare l l = Eq) as ->; [|done].
  induction l as [|x l IH]; simpl; [done|]. by rewrite Z.compare_refl.
Qed.

(** X23: with the same time stamp as start and as end,
    [filter_expenses] returns exactly the records whose date, at
    midnight, is that time stamp: both bounds are inclusive. *)
Theorem filter_expenses_one_day (expenses : store) (m : datetime) :
  dates_ok expenses →
  ∃ res, filter_expenses expenses None (Some m) (Some m) = Some res ∧
         ∀ e, e ∈ res ↔ e ∈ expenses ∧ record_date e = Some m.
Proof.
  intros Hok. rewrite filter_expenses_kept by done. eexists. split; [done|].
  intros e. rewrite sorted_desc_perm, list_elem_of_In, filter_In, <- list_elem_of_In.
  unfold kept, date_within. simpl. split.
  - intros [He Hk]. split; [done|]. destruct (record_date e) as [ed|]; [|done].
    apply andb_true_iff in Hk as [H1 H2]. f_equal. by apply dt_leb_antisym.
  - intros [He ->]. split; [done|]. by rewrite dt_leb_refl.
Qed.

Lemma filter_expenses_one_day_witness :
  ∃ res, filter_expenses sample None (Some (jan 2)) (Some (jan 2)) = Some res ∧
         ∀ e, e ∈ res ↔ e ∈ sample ∧ record_date e = Some (jan 2).
Proof. apply (filter_expenses_one_day sample (jan 2)). repeat constructor; by eexists. Defined.

(** ** The three formats of [parse_date] *)

(** X24: no text is read by two of the three formats that [parse_date]
    tries, so the date that one of them reads is the result of
    [parse_date] wherever that format stands in the order. *)
Theorem parse_date_formats_exclusive (fromisoformat : string → option datetime)
    (now : datetime) (text : string) :
  let t := PyStr.strip text in
  (is_Some (Strptime.strptime t "%Y-%m-%d") →
     Strptime.strptime t "%d-%m-%Y" = None ∧ Strptime.strptime t "%d/%m/%Y" = None) ∧
  (is_Some (Strptime.strptime t "%d-%m-%Y") → Strptime.strptime t "%d/%m/%Y" = None) ∧
  (¬ means_now text →
     ∀ fmt d, fmt ∈ ["%Y-%m-%d"; "%d-%m-%Y"; "%d/%m/%Y"] →
              Strptime.strptime t fmt = Some d →
              parse_date fromisoformat now text = Some d).
Proof.
  intros t.
  assert (∀ s d1 d2, Strptime.strptime s "%Y-%m-%d" = Some d1 →
                     Strptime.strptime s "%d-%m-%Y" = Some d2 → False) as H12.
  { intros s d1 d2 [x1 H1]%strptime_match [x2 H2]%strptime_match.
    apply year_first_shape in H1 as (a & b & c & d & r & -> & Hb & Hc).
    apply day_first_shape in H2 as [(a' & r' & [=])|(a' & b' & r' & [=] & _)]; by subst. }
  assert (∀ s d1 d2, Strptime.strptime s "%Y-%m-%d" = Some d1 →
                     Strptime.strptime s "%d/%m/%Y" = Some d2 → False) as H13.
  { intros s d1 d2 [x1 H1]%strptime_match [x2 H2]%strptime_match.
    apply year_first_shape in H1 as (a & b & c & d & r & -> & Hb & Hc).
    apply day_first_shape in H2 as [(a' & r' & [=])|(a' & b' & r' & [=] & _)]; by subst. }
  assert (∀ s d1 d2, Strptime.strptime s "%d-%m-%Y" = Some d1 →
                     Strptime.strptime s "%d/%m/%Y" = Some d2 → False) as H23.
  { intros s d1 d2 [x1 H1]%strptime_match [x2 H2]%strptime_match.
    apply day_first_shape in H1 as [(a & r & ->)|(a & b & r & -> & Hb)];
      apply day_first_shape in H2 as [(a' & r' & [=])|(a' & b' & r' & [=] & Hb')];
      by subst. }
  split; [|split].
  - intros [d1 H1]. split.
    + destruct (Strptime.strptime t "%d-%m-%Y") eqn:H2; [|done]. by destruct (H12 _ _ _ H1 H2).
    + destruct (Strptime.strptime t "%d/%m/%Y") eqn:H3; [|done]. by destruct (H13 _ _ _ H1 H3).
  - intros [d2 H2].
    destruct (Strptime.strptime t "%d/%m/%Y") eqn:H3; [|done]. by destruct (H23 _ _ _ H2 H3).
  - intros Hn fmt d Hfmt Hd. rewrite (parse_date_formats _ _ _ Hn). fold t.
    apply elem_of_cons in Hfmt as [->|Hfmt]; [by rewrite Hd|].
    apply elem_of_cons in Hfmt as [->|Hfmt].
    { destruct (Strptime.strptime t "%Y-%m-%d") eqn:H1; [by destruct (H12 _ _ _ H1 Hd)|].
      by rewrite Hd. }
    apply list_elem_of_singleton in Hfmt as ->.
    destruct (Strptime.strptime t "%Y-%m-%d") eqn:H1; [by destruct (H13 _ _ _ H1 Hd)|].
    destruct (Strptime.strptime t "%d-%m-%Y") eqn:H2; [by destruct (H23 _ _ _ H2 Hd)|].
    by rewrite Hd.
Qed.
